(** * CashClip: the blog backend of [register/]

    A shallow embedding of [register/models.py], [register/serializers.py],
    [register/views.py] and [register/routes.py].

    The four models are records and the database is a record of tables.  A
    table is the list of its rows: an INSERT appends a row under the next
    key of the table's sequence, an UPDATE rewrites the row in place, a
    DELETE removes it.  A queryset without [order_by] is run on the list
    as it stands; the code asks the database for no order, so what is
    proved of a listing is proved of its rows, whatever the order they
    come in.

    A view is a computation in a state-and-exception monad over the
    database; [dispatch] runs the permission check before it and turns an
    exception into a response.  The parts of Django, of the REST framework
    and of simplejwt that the views call ([get_object], the model
    serializers' validation, the generic [create] / [update] / [destroy],
    [RefreshToken]) are written out next to the code that uses them; the
    password hasher and the signing of tokens are parameters. *)

From Stdlib Require Import ZArith List String Ascii Bool Lia Sorted Permutation.
Import ListNotations.

Local Open Scope string_scope.
Local Open Scope list_scope.
Local Open Scope Z_scope.

(** ** models.py *)

(** [CustomUser(AbstractUser)]: the columns the views read or write.  The
    remaining columns of [AbstractUser] (names, e-mail, flags) are optional
    in every request and are left out. *)
Module CustomUser.
Record t := Build
  { id : Z; username : string; password : string; phone : string }.
End CustomUser.

Module Blog.
Record t := Build
  { id : Z; title : string; description : string;
    author : Z;                 (* ForeignKey(CustomUser) *)
    publish_date : Z;           (* DateTimeField(auto_now=True) *)
    image : option string }.
End Blog.

Module Like.
Record t := Build
  { id : Z;
    user : Z;                   (* ForeignKey(CustomUser) *)
    post : Z;                   (* ForeignKey(Blog) *)
    time : Z }.                 (* DateTimeField(auto_now=True) *)
End Like.

Module Comment.
Record t := Build
  { id : Z;
    user : Z;                   (* ForeignKey(CustomUser) *)
    post : Z;                   (* ForeignKey(Blog) *)
    comment : string;           (* CharField(max_length=100) *)
    time : Z }.                 (* DateTimeField(auto_now=True) *)
End Comment.

(** ** The database *)

(** One list per table; [seq_*] is the next value of the table's [AutoField]
    sequence; [blacklistedtoken] holds the [jti] of every blacklisted refresh
    token.  The table of outstanding tokens, where simplejwt's blacklist
    app records every token it hands out or blacklists, is read by no view
    and is left out. *)
Record DB := mkDB
  { customuser : list CustomUser.t;
    blog : list Blog.t;
    like : list Like.t;
    comment : list Comment.t;
    blacklistedtoken : list string;
    seq_customuser : Z;
    seq_blog : Z;
    seq_like : Z;
    seq_comment : Z }.

Definition empty_db : DB := mkDB [] [] [] [] [] 1 1 1 1.

Definition set_customuser (f : list CustomUser.t -> list CustomUser.t) (db : DB) : DB :=
  mkDB (f (customuser db)) (blog db) (like db) (comment db) (blacklistedtoken db)
       (seq_customuser db) (seq_blog db) (seq_like db) (seq_comment db).

Definition set_blog (f : list Blog.t -> list Blog.t) (db : DB) : DB :=
  mkDB (customuser db) (f (blog db)) (like db) (comment db) (blacklistedtoken db)
       (seq_customuser db) (seq_blog db) (seq_like db) (seq_comment db).

Definition set_like (f : list Like.t -> list Like.t) (db : DB) : DB :=
  mkDB (customuser db) (blog db) (f (like db)) (comment db) (blacklistedtoken db)
       (seq_customuser db) (seq_blog db) (seq_like db) (seq_comment db).

Definition set_comment (f : list Comment.t -> list Comment.t) (db : DB) : DB :=
  mkDB (customuser db) (blog db) (like db) (f (comment db)) (blacklistedtoken db)
       (seq_customuser db) (seq_blog db) (seq_like db) (seq_comment db).

Definition set_blacklistedtoken (f : list string -> list string) (db : DB) : DB :=
  mkDB (customuser db) (blog db) (like db) (comment db) (f (blacklistedtoken db))
       (seq_customuser db) (seq_blog db) (seq_like db) (seq_comment db).

Definition bump_seq_customuser (db : DB) : DB :=
  mkDB (customuser db) (blog db) (like db) (comment db) (blacklistedtoken db)
       (seq_customuser db + 1) (seq_blog db) (seq_like db) (seq_comment db).

Definition bump_seq_blog (db : DB) : DB :=
  mkDB (customuser db) (blog db) (like db) (comment db) (blacklistedtoken db)
       (seq_customuser db) (seq_blog db + 1) (seq_like db) (seq_comment db).

Definition bump_seq_like (db : DB) : DB :=
  mkDB (customuser db) (blog db) (like db) (comment db) (blacklistedtoken db)
       (seq_customuser db) (seq_blog db) (seq_like db + 1) (seq_comment db).

Definition bump_seq_comment (db : DB) : DB :=
  mkDB (customuser db) (blog db) (like db) (comment db) (blacklistedtoken db)
       (seq_customuser db) (seq_blog db) (seq_like db) (seq_comment db + 1).

(** ** Requests and responses *)

(** [request.user]: the user the access token authenticates, or
    [AnonymousUser]. *)
Inductive User := AnonymousUser | Authenticated (pk : Z).

(** [request.data] of a JSON body: the keys the serializers and the views
    read, each with the type of its JSON value; [None] is an absent key.
    Ids are the integers a key column holds. *)
Module Data.
Record t := Build
  { username : option string; password : option string; phone : option string;
    title : option string; description : option string; image : option string;
    author : option Z;
    user : option Z; post : option Z; comment : option string;
    refresh : option string }.
Definition empty : t :=
  Build None None None None None None None None None None None.
End Data.

Module Request.
Record t := Build { user : User; data : Data.t }.
End Request.

Inductive Body :=
| message (s : string)                 (* {'message': s} *)
| error (s : string)                   (* {'error': s} *)
| detail (s : string)                  (* the exception handler's {'detail': s} *)
| errors                               (* a serializer's field errors *)
| tokens (refresh access : string) (user_id : Z) (username : string)
| user_row (u : CustomUser.t)
| blog_row (b : Blog.t)
| like_row (l : Like.t)
| like_rows (ls : list Like.t)
| comment_row (c : Comment.t)
| comment_rows (cs : list Comment.t)
| no_content.

Module Response.
Record t := Build { data : Body; status : Z }.
End Response.

Definition HTTP_200_OK := 200.
Definition HTTP_201_CREATED := 201.
Definition HTTP_204_NO_CONTENT := 204.
Definition HTTP_400_BAD_REQUEST := 400.
Definition HTTP_401_UNAUTHORIZED := 401.
Definition HTTP_403_FORBIDDEN := 403.
Definition HTTP_404_NOT_FOUND := 404.
Definition HTTP_500_INTERNAL_SERVER_ERROR := 500.

(** ** The view monad: database state and Python exceptions *)

Inductive Exception :=
| NotAuthenticated        (* a permission refused the request *)
| Http404                 (* get_object found no row *)
| ValidationError         (* serializer.is_valid(raise_exception=True) *)
| IntegrityError          (* a database constraint refused a write *)
| TypeError               (* AnonymousUser used where a user row is needed *)
| TokenError.             (* RefreshToken(...) refused the token *)

Definition M (A : Type) : Type := DB -> (Exception + A) * DB.

Definition ret {A} (a : A) : M A := fun db => (inr a, db).

Definition raise {A} (e : Exception) : M A := fun db => (inl e, db).

Definition bind {A B} (m : M A) (k : A -> M B) : M B :=
  fun db =>
    match m db with
    | (inl e, db') => (inl e, db')
    | (inr a, db') => k a db'
    end.

Definition query {A} (f : DB -> A) : M A := fun db => (inr (f db), db).

Definition modify (f : DB -> DB) : M unit := fun db => (inr tt, f db).

(** [try: m except Exception: h e] *)
Definition try_except {A} (m : M A) (h : Exception -> M A) : M A :=
  fun db =>
    match m db with
    | (inl e, db') => h e db'
    | (inr a, db') => (inr a, db')
    end.

Declare Scope view_scope.
Delimit Scope view_scope with view.
Notation "x <- m ;; k" := (bind m (fun x => k))
  (at level 100, m at next level, right associativity) : view_scope.
Notation "m ;; k" := (bind m (fun _ => k))
  (at level 100, right associativity) : view_scope.
Local Open Scope view_scope.

(** ** Permissions and dispatch (rest_framework) *)

Inductive Permission := AllowAny | IsAuthenticated.

Definition has_permission (p : Permission) (request : Request.t) : bool :=
  match p, Request.user request with
  | AllowAny, _ => true
  | IsAuthenticated, Authenticated _ => true
  | IsAuthenticated, AnonymousUser => false
  end.

Definition check_permissions (ps : list Permission) (request : Request.t) : M unit :=
  if forallb (fun p => has_permission p request) ps then ret tt
  else raise NotAuthenticated.

(** The framework's exception handler; an exception it does not know is
    Django's 500 page.  The status is the handler's; the text of a 404
    is the one of REST framework before 3.15 (later versions carry the
    message of the [Http404]). *)
Definition exception_handler (e : Exception) : Response.t :=
  match e with
  | NotAuthenticated =>
      Response.Build (detail "Authentication credentials were not provided.")
                     HTTP_401_UNAUTHORIZED
  | Http404 => Response.Build (detail "Not found.") HTTP_404_NOT_FOUND
  | ValidationError => Response.Build errors HTTP_400_BAD_REQUEST
  | IntegrityError | TypeError | TokenError =>
      Response.Build (detail "Server Error (500)") HTTP_500_INTERNAL_SERVER_ERROR
  end.

(** [APIView.dispatch]: permissions first, then the handler, and an
    exception of either becomes a response. *)
Definition dispatch (ps : list Permission) (request : Request.t)
    (handler : M Response.t) (db : DB) : Response.t * DB :=
  match (check_permissions ps request ;; handler) db with
  | (inl e, db') => (exception_handler e, db')
  | (inr r, db') => (r, db')
  end.

(** The primary key of [request.user] where the ORM needs a user row. *)
Definition user_pk (u : User) : M Z :=
  match u with
  | Authenticated pk => ret pk
  | AnonymousUser => raise TypeError
  end.

(** [instance.user != request.user] *)
Definition is_user (pk : Z) (u : User) : bool :=
  match u with
  | Authenticated pk' => pk =? pk'
  | AnonymousUser => false
  end.

(** [get_object_or_404(queryset, pk=pk)] *)
Definition get_object {A} (table : DB -> list A) (id : A -> Z) (pk : Z) : M A :=
  rows <- query table ;;
  match find (fun r => id r =? pk) rows with
  | Some r => ret r
  | None => raise Http404
  end.

(** [queryset.filter(pk=pk).exists()] over a table of ids *)
Definition pk_exists {A} (id : A -> Z) (rows : list A) (pk : Z) : bool :=
  existsb (fun r => id r =? pk) rows.

(** ** The ORM calls of the views (django.db.models) *)

(** [Like.objects.filter(user=user, post=post)] *)
Definition like_of (user post : Z) (l : Like.t) : bool :=
  (Like.user l =? user) && (Like.post l =? post).

Definition Like_objects_filter (user post : Z) : M (list Like.t) :=
  query (fun db => filter (like_of user post) (like db)).

(** [queryset.exists()] *)
Definition exists_ {A} (queryset : M (list A)) : M bool :=
  rows <- queryset ;;
  ret (match rows with [] => false | _ :: _ => true end).

(** [Like.objects.filter(user=user, post=post).delete()] *)
Definition Like_objects_filter_delete (user post : Z) : M unit :=
  modify (set_like (filter (fun l => negb (like_of user post l)))).

(** [Like.objects.create(user=user, post=post)]: an INSERT.  The table's
    [unique_together = ('user', 'post')] refuses a second row of the pair;
    [auto_now] stamps the row. *)
Definition Like_objects_create (now user post : Z) : M Like.t :=
  rows <- query like ;;
  if existsb (like_of user post) rows then raise IntegrityError
  else
    pk <- query seq_like ;;
    let l := Like.Build pk user post now in
    modify (fun db => bump_seq_like (set_like (fun rows => rows ++ [l]) db)) ;;
    ret l.

(** [like.save()] on a loaded row: an UPDATE under the same constraint. *)
Definition Like_save (now : Z) (instance : Like.t) (user post : Z) : M Like.t :=
  rows <- query like ;;
  if existsb (fun l => like_of user post l && negb (Like.id l =? Like.id instance)) rows
  then raise IntegrityError
  else
    let l := Like.Build (Like.id instance) user post now in
    modify (set_like (map (fun r => if Like.id r =? Like.id instance then l else r))) ;;
    ret l.

(** [like.delete()] *)
Definition Like_delete (instance : Like.t) : M unit :=
  modify (set_like (filter (fun l => negb (Like.id l =? Like.id instance)))).

(** [Comment.objects.filter(post=blog)]: the rows of the post.  The
    queryset has no [order_by] and [Comment] no [Meta.ordering]: the list
    stands for the rows in whatever order the database yields them. *)
Definition Comment_objects_filter (post : Z) : M (list Comment.t) :=
  query (fun db => filter (fun c => Comment.post c =? post) (comment db)).

(** [Comment.objects.create] with the validated data *)
Definition Comment_objects_create (now user post : Z) (text : string) : M Comment.t :=
  pk <- query seq_comment ;;
  let c := Comment.Build pk user post text now in
  modify (fun db => bump_seq_comment (set_comment (fun rows => rows ++ [c]) db)) ;;
  ret c.

(** [comment.save()] on a loaded row *)
Definition Comment_save (now : Z) (instance : Comment.t) (user post : Z) (text : string)
    : M Comment.t :=
  let c := Comment.Build (Comment.id instance) user post text now in
  modify (set_comment (map (fun r => if Comment.id r =? Comment.id instance then c else r))) ;;
  ret c.

(** [comment.delete()] *)
Definition Comment_delete (instance : Comment.t) : M unit :=
  modify (set_comment (filter (fun c => negb (Comment.id c =? Comment.id instance)))).

(** [Like.objects.filter(post=blog)], as unordered as the comments *)
Definition Like_objects_filter_post (post : Z) : M (list Like.t) :=
  query (fun db => filter (fun l => Like.post l =? post) (like db)).

(** [Blog.objects.create] with the validated data *)
Definition Blog_objects_create (now : Z) (title description : string) (author : Z)
    (image : option string) : M Blog.t :=
  pk <- query seq_blog ;;
  let b := Blog.Build pk title description author now image in
  modify (fun db => bump_seq_blog (set_blog (fun rows => rows ++ [b]) db)) ;;
  ret b.

(** [blog.save()] on a loaded row *)
Definition Blog_save (now : Z) (instance : Blog.t) (title description : string)
    (author : Z) (image : option string) : M Blog.t :=
  let b := Blog.Build (Blog.id instance) title description author now image in
  modify (set_blog (map (fun r => if Blog.id r =? Blog.id instance then b else r))) ;;
  ret b.

(** [blog.delete()]: [on_delete=CASCADE] takes the post's likes and
    comments with it. *)
Definition Blog_delete (instance : Blog.t) : M unit :=
  let gone := Blog.id instance in
  modify (set_like (filter (fun l => negb (Like.post l =? gone)))) ;;
  modify (set_comment (filter (fun c => negb (Comment.post c =? gone)))) ;;
  modify (set_blog (filter (fun b => negb (Blog.id b =? gone)))).

(** [CustomUser.objects.create] with the validated data: the row is saved with
    the attributes it is given; [username] and [phone] are unique columns. *)
Definition CustomUser_objects_create (username password phone : string) : M CustomUser.t :=
  rows <- query customuser ;;
  if existsb (fun u => (CustomUser.username u =? username)%string
                       || (CustomUser.phone u =? phone)%string) rows
  then raise IntegrityError
  else
    pk <- query seq_customuser ;;
    let u := CustomUser.Build pk username password phone in
    modify (fun db => bump_seq_customuser (set_customuser (fun rows => rows ++ [u]) db)) ;;
    ret u.

(** [user.save()] on a loaded row *)
Definition CustomUser_save (instance : CustomUser.t) (username password phone : string)
    : M CustomUser.t :=
  rows <- query customuser ;;
  if existsb (fun u => ((CustomUser.username u =? username)%string
                        || (CustomUser.phone u =? phone)%string)
                       && negb (CustomUser.id u =? CustomUser.id instance)) rows
  then raise IntegrityError
  else
    let u := CustomUser.Build (CustomUser.id instance) username password phone in
    modify (set_customuser
              (map (fun r => if CustomUser.id r =? CustomUser.id instance then u else r))) ;;
    ret u.

(** [user.delete()]: the cascade removes the user's posts with their likes
    and comments, and the user's own likes and comments. *)
Definition CustomUser_delete (instance : CustomUser.t) : M unit :=
  let gone := CustomUser.id instance in
  posts <- query (fun db => map Blog.id (filter (fun b => Blog.author b =? gone) (blog db))) ;;
  let of_gone_post (p : Z) := existsb (Z.eqb p) posts in
  modify (set_like
            (filter (fun l => negb ((Like.user l =? gone) || of_gone_post (Like.post l))))) ;;
  modify (set_comment
            (filter (fun c => negb ((Comment.user c =? gone) || of_gone_post (Comment.post c))))) ;;
  modify (set_blog (filter (fun b => negb (Blog.author b =? gone)))) ;;
  modify (set_customuser (filter (fun u => negb (CustomUser.id u =? gone)))).

(** ** Serializer fields (rest_framework.fields, rest_framework.relations)

    Strings are taken to be ASCII, so that [String.length] is Python's
    [len] and [strip] removes what Python's [str.strip] removes. *)

(** [str.isspace] on an ASCII character *)
Definition isspace (c : ascii) : bool :=
  let n := nat_of_ascii c in
  ((9 <=? n) && (n <=? 13) || (28 <=? n) && (n <=? 32))%nat.

Fixpoint lstrip (s : string) : string :=
  match s with
  | EmptyString => EmptyString
  | String c s' => if isspace c then lstrip s' else s
  end.

Fixpoint rstrip (s : string) : string :=
  match s with
  | EmptyString => EmptyString
  | String c s' =>
      match rstrip s' with
      | EmptyString => if isspace c then EmptyString else String c EmptyString
      | r => String c r
      end
  end.

(** [str.strip()] *)
Definition strip (s : string) : string := rstrip (lstrip s).

Fixpoint has_null (s : string) : bool :=
  match s with
  | EmptyString => false
  | String c s' => (nat_of_ascii c =? 0)%nat || has_null s'
  end.

(** [CharField(max_length=n)]: [allow_blank=False], [trim_whitespace=True];
    the validated value is the trimmed string. *)
Definition CharField (max_length : option nat) (data : string) : option string :=
  let value := strip data in
  if (value =? "")%string then None
  else if has_null value then None
  else match max_length with
       | Some n => if (String.length value <=? n)%nat then Some value else None
       | None => Some value
       end.

(** [PrimaryKeyRelatedField(queryset=...)]: the key must name a row. *)
Definition PrimaryKeyRelatedField {A} (id : A -> Z) (queryset : list A) (data : Z)
    : option Z :=
  if pk_exists id queryset data then Some data else None.

(** One field of [serializer.is_valid(raise_exception=True)]: a supplied
    value is validated; an absent key is an error unless the update is
    partial, and then the key is absent from the validated data too. *)
Definition run_field {A B} (partial : bool) (validate : A -> option B)
    (supplied : option A) : M (option B) :=
  match supplied with
  | Some a =>
      match validate a with
      | Some b => ret (Some b)
      | None => raise ValidationError
      end
  | None => if partial then ret None else raise ValidationError
  end.

(** [ImageField(blank=True, null=True)]: the key is not required; a value
    of a JSON body is not an uploaded file and is refused.  (A JSON [null],
    which clears the image, is not among the bodies of [Data.t].) *)
Definition ImageField (supplied : option string) : M (option string) :=
  match supplied with
  | Some _ => raise ValidationError
  | None => ret None
  end.

(** [validated_data.get(key, getattr(instance, key))] *)
Definition value_or {A} (o : option A) (d : A) : A :=
  match o with Some a => a | None => d end.

(** A NOT NULL column without a value. *)
Definition not_null {A} (o : option A) : M A :=
  match o with Some a => ret a | None => raise IntegrityError end.

(** ** serializers.py *)

(** What a [ModelSerializer] class provides to the generic views. *)
Record Serializer (Row : Type) := mkSerializer
  { is_valid : option Row -> bool -> Data.t -> M Data.t;
    create : Z -> Data.t -> M Row;
    update : Z -> Row -> Data.t -> M Row;
    representation : Row -> Body }.
Arguments is_valid {Row}.
Arguments create {Row}.
Arguments update {Row}.
Arguments representation {Row}.

(** [serializer.save] with keyword arguments: the keyword arguments override the
    validated data, then [update] on an instance and [create] without. *)
Definition save {Row} (S : Serializer Row) (now : Z) (instance : option Row)
    (validated_data : Data.t) (kwargs : Data.t -> Data.t) : M Row :=
  match instance with
  | Some row => update S now row (kwargs validated_data)
  | None => create S now (kwargs validated_data)
  end.

Definition no_kwargs (d : Data.t) : Data.t := d.

Definition kwargs_user (pk : Z) (d : Data.t) : Data.t :=
  Data.Build (Data.username d) (Data.password d) (Data.phone d) (Data.title d)
             (Data.description d) (Data.image d) (Data.author d)
             (Some pk) (Data.post d) (Data.comment d) (Data.refresh d).

Definition kwargs_author (pk : Z) (d : Data.t) : Data.t :=
  Data.Build (Data.username d) (Data.password d) (Data.phone d) (Data.title d)
             (Data.description d) (Data.image d) (Some pk)
             (Data.user d) (Data.post d) (Data.comment d) (Data.refresh d).

(** A [UniqueValidator] of a unique column: no other row has the value. *)
Definition unique_among {A} (id : A -> Z) (column : A -> string) (rows : list A)
    (instance : option A) (value : string) : option string :=
  if existsb (fun r => (column r =? value)%string
                       && negb (match instance with
                                | Some i => id r =? id i
                                | None => false
                                end)) rows
  then None else Some value.

Definition and_then {A B C} (f : A -> option B) (g : B -> option C) (a : A) : option C :=
  match f a with Some b => g b | None => None end.

Module UserSerializer.
(** [fields = "__all__"] with [password = CharField(write_only=True)].
    The character-set validator of [AbstractUser.username] is left out: it
    refuses more bodies and accepts no other. *)
Definition is_valid (instance : option CustomUser.t) (partial : bool) (data : Data.t)
    : M Data.t :=
  rows <- query customuser ;;
  username <- run_field partial
                (and_then (CharField (Some 150%nat))
                          (unique_among CustomUser.id CustomUser.username rows instance))
                (Data.username data) ;;
  password <- run_field partial (CharField None) (Data.password data) ;;
  phone <- run_field partial
             (and_then (CharField (Some 15%nat))
                       (unique_among CustomUser.id CustomUser.phone rows instance))
             (Data.phone data) ;;
  ret (Data.Build username password phone None None None None None None None None).

(** [def create(self, validate_data):
       user = CustomUser.objects.create( **validate_data); return user] *)
Definition create (now : Z) (validate_data : Data.t) : M CustomUser.t :=
  user <- CustomUser_objects_create (value_or (Data.username validate_data) "")
                                    (value_or (Data.password validate_data) "")
                                    (value_or (Data.phone validate_data) "") ;;
  ret user.

(** [ModelSerializer.update]: [setattr] for every validated key, then
    [instance.save()]. *)
Definition update (now : Z) (instance : CustomUser.t) (validated_data : Data.t)
    : M CustomUser.t :=
  CustomUser_save instance
    (value_or (Data.username validated_data) (CustomUser.username instance))
    (value_or (Data.password validated_data) (CustomUser.password instance))
    (value_or (Data.phone validated_data) (CustomUser.phone instance)).

Definition serializer : Serializer CustomUser.t :=
  mkSerializer _ is_valid create update user_row.
End UserSerializer.

Module BlogSerializer.
Definition is_valid (instance : option Blog.t) (partial : bool) (data : Data.t)
    : M Data.t :=
  users <- query customuser ;;
  title <- run_field partial (CharField (Some 50%nat)) (Data.title data) ;;
  description <- run_field partial (CharField (Some 200%nat)) (Data.description data) ;;
  author <- run_field partial (PrimaryKeyRelatedField CustomUser.id users)
              (Data.author data) ;;
  image <- ImageField (Data.image data) ;;
  ret (Data.Build None None None title description image author None None None None).

Definition create (now : Z) (validated_data : Data.t) : M Blog.t :=
  author <- not_null (Data.author validated_data) ;;
  Blog_objects_create now (value_or (Data.title validated_data) "")
                      (value_or (Data.description validated_data) "")
                      author (Data.image validated_data).

Definition update (now : Z) (instance : Blog.t) (validated_data : Data.t) : M Blog.t :=
  Blog_save now instance
    (value_or (Data.title validated_data) (Blog.title instance))
    (value_or (Data.description validated_data) (Blog.description instance))
    (value_or (Data.author validated_data) (Blog.author instance))
    (match Data.image validated_data with
     | Some i => Some i
     | None => Blog.image instance
     end).

Definition serializer : Serializer Blog.t :=
  mkSerializer _ is_valid create update blog_row.
End BlogSerializer.

Module LikeSerializer.
(** The [UniqueTogetherValidator] a [ModelSerializer] derives from
    [unique_together = ('user', 'post')]: on an update the keys the body
    leaves out are read from the instance, and the instance itself is
    not counted. *)
Definition UniqueTogetherValidator (instance : option Like.t)
    (user post : option Z) : M unit :=
  rows <- query like ;;
  match instance with
  | None =>
      match user, post with
      | Some u, Some p =>
          if existsb (like_of u p) rows then raise ValidationError else ret tt
      | _, _ => raise ValidationError
      end
  | Some i =>
      let u := value_or user (Like.user i) in
      let p := value_or post (Like.post i) in
      if existsb (fun l => like_of u p l && negb (Like.id l =? Like.id i)) rows
      then raise ValidationError else ret tt
  end.

Definition is_valid (instance : option Like.t) (partial : bool) (data : Data.t)
    : M Data.t :=
  users <- query customuser ;;
  blogs <- query blog ;;
  user <- run_field partial (PrimaryKeyRelatedField CustomUser.id users)
            (Data.user data) ;;
  post <- run_field partial (PrimaryKeyRelatedField Blog.id blogs) (Data.post data) ;;
  UniqueTogetherValidator instance user post ;;
  ret (Data.Build None None None None None None None user post None None).

Definition create (now : Z) (validated_data : Data.t) : M Like.t :=
  user <- not_null (Data.user validated_data) ;;
  post <- not_null (Data.post validated_data) ;;
  Like_objects_create now user post.

Definition update (now : Z) (instance : Like.t) (validated_data : Data.t) : M Like.t :=
  Like_save now instance
    (value_or (Data.user validated_data) (Like.user instance))
    (value_or (Data.post validated_data) (Like.post instance)).

Definition serializer : Serializer Like.t :=
  mkSerializer _ is_valid create update like_row.
End LikeSerializer.

Module CommentSerializer.
(** [fields = "__all__"]: [user], [post] and [comment] are writable;
    [id] and the [auto_now] column [time] are not. *)
Definition is_valid (instance : option Comment.t) (partial : bool) (data : Data.t)
    : M Data.t :=
  users <- query customuser ;;
  blogs <- query blog ;;
  user <- run_field partial (PrimaryKeyRelatedField CustomUser.id users)
            (Data.user data) ;;
  post <- run_field partial (PrimaryKeyRelatedField Blog.id blogs) (Data.post data) ;;
  comment <- run_field partial (CharField (Some 100%nat)) (Data.comment data) ;;
  ret (Data.Build None None None None None None None user post comment None).

Definition create (now : Z) (validated_data : Data.t) : M Comment.t :=
  user <- not_null (Data.user validated_data) ;;
  post <- not_null (Data.post validated_data) ;;
  Comment_objects_create now user post (value_or (Data.comment validated_data) "").

Definition update (now : Z) (instance : Comment.t) (validated_data : Data.t)
    : M Comment.t :=
  Comment_save now instance
    (value_or (Data.user validated_data) (Comment.user instance))
    (value_or (Data.post validated_data) (Comment.post instance))
    (value_or (Data.comment validated_data) (Comment.comment instance)).

Definition serializer : Serializer Comment.t :=
  mkSerializer _ is_valid create update comment_row.
End CommentSerializer.

(** ** The generic views (rest_framework.viewsets.ModelViewSet) *)

Record ViewSet (Row : Type) := mkViewSet
  { queryset : DB -> list Row;
    pk_of : Row -> Z;
    serializer_class : Serializer Row;
    delete : Row -> M unit }.
Arguments queryset {Row}.
Arguments pk_of {Row}.
Arguments serializer_class {Row}.
Arguments delete {Row}.

Module ModelViewSet.
(** [CreateModelMixin.create] *)
Definition create {Row} (V : ViewSet Row) (perform_create : Data.t -> M Row)
    (request : Request.t) : M Response.t :=
  validated_data <- is_valid (serializer_class V) None false (Request.data request) ;;
  row <- perform_create validated_data ;;
  ret (Response.Build (representation (serializer_class V) row) HTTP_201_CREATED).

(** [UpdateModelMixin.update]; [partial_update] is [update] with
    [partial=True]. *)
Definition update {Row} (V : ViewSet Row) (now : Z) (partial : bool)
    (request : Request.t) (pk : Z) : M Response.t :=
  instance <- get_object (queryset V) (pk_of V) pk ;;
  validated_data <- is_valid (serializer_class V) (Some instance) partial
                      (Request.data request) ;;
  row <- save (serializer_class V) now (Some instance) validated_data no_kwargs ;;
  ret (Response.Build (representation (serializer_class V) row) HTTP_200_OK).

(** [DestroyModelMixin.destroy] *)
Definition destroy {Row} (V : ViewSet Row) (pk : Z) : M Response.t :=
  instance <- get_object (queryset V) (pk_of V) pk ;;
  delete V instance ;;
  ret (Response.Build no_content HTTP_204_NO_CONTENT).
End ModelViewSet.

(** ** Refresh tokens (rest_framework_simplejwt) *)

Module Token.
Record t := Build { token_type : string; exp : Z; jti : string; user_id : Z }.
End Token.

(** [str(e)] of the exception that [logout] catches.  simplejwt words each
    cause of a [TokenError] differently; one text stands for them all, and
    the theorems on [logout] state the status, not the text. *)
Definition str (e : Exception) : string :=
  match e with
  | TokenError => "Token is invalid or expired"
  | NotAuthenticated => "Authentication credentials were not provided."
  | Http404 => "Not found."
  | ValidationError => "Invalid input."
  | IntegrityError => "UNIQUE constraint failed"
  | TypeError => "expected a number"
  end.

(** ** views.py *)

Section Views.

(** The collaborators of the identity store: the password hasher's
    [check_password(raw, encoded)], the signed encoding of a token that
    [RefreshToken.for_user] hands out (refresh and access token of a user
    at a time), the decoding of a signed token, which fails on a
    malformed or forged one, and the token that [RefreshToken()] makes at
    a time when it is given none (a new [jti], no user). *)
Variable check_password : string -> string -> bool.
Variable for_user : Z -> Z -> string * string.
Variable decode : string -> option Token.t.
Variable mint : Z -> Token.t.

(** [RefreshToken(token)]: decode and verify (signature, expiry,
    blacklist, token type); [RefreshToken(None)] is a new token, which
    nothing verifies. *)
Definition RefreshToken (now : Z) (token : option string) : M Token.t :=
  match token with
  | None => ret (mint now)
  | Some raw =>
      match decode raw with
      | None => raise TokenError
      | Some t =>
          blacklisted <- query blacklistedtoken ;;
          if Token.exp t <=? now then raise TokenError
          else if existsb (String.eqb (Token.jti t)) blacklisted then raise TokenError
          else if negb (Token.token_type t =? "refresh")%string then raise TokenError
          else ret t
      end
  end.

(** [token.blacklist()]: [BlacklistedToken.objects.get_or_create] *)
Definition blacklist (t : Token.t) : M unit :=
  modify (set_blacklistedtoken
            (fun rows => if existsb (String.eqb (Token.jti t)) rows then rows
                         else rows ++ [Token.jti t])).

(** [django.contrib.auth.authenticate]: the row of the username, if the
    password checks against its stored credential. *)
Definition authenticate (username password : option string) : M (option CustomUser.t) :=
  rows <- query customuser ;;
  match username, password with
  | Some name, Some raw =>
      match find (fun u => (CustomUser.username u =? name)%string) rows with
      | Some u => if check_password raw (CustomUser.password u) then ret (Some u)
                  else ret None
      | None => ret None
      end
  | _, _ => ret None
  end.

(** *** class UserViews(viewsets.ModelViewSet) *)

(** [queryset = CustomUser.objects.all()],
    [serializer_class = UserSerializer] *)
Definition UserViews : ViewSet CustomUser.t :=
  mkViewSet _ customuser CustomUser.id UserSerializer.serializer CustomUser_delete.

Definition UserViews_get_permissions (action : string) : list Permission :=
  if existsb (String.eqb action) ["create"; "login"] then [AllowAny]
  else [IsAuthenticated].

Definition UserViews_login (now : Z) (request : Request.t) : M Response.t :=
  let username := Data.username (Request.data request) in
  let password := Data.password (Request.data request) in
  user <- authenticate username password ;;
  match user with
  | Some user =>
      let refresh := for_user now (CustomUser.id user) in
      ret (Response.Build
             (tokens (fst refresh) (snd refresh) (CustomUser.id user)
                     (CustomUser.username user))
             HTTP_200_OK)
  | None => ret (Response.Build (error "Invalid credentials") HTTP_401_UNAUTHORIZED)
  end.

Definition UserViews_logout (now : Z) (request : Request.t) : M Response.t :=
  try_except
    (let refresh_token := Data.refresh (Request.data request) in
     token <- RefreshToken now refresh_token ;;
     blacklist token ;;
     ret (Response.Build (message "Logged out successfully") HTTP_200_OK))
    (fun e => ret (Response.Build (error (str e)) HTTP_400_BAD_REQUEST)).

(** The viewset has no [perform_create]: the generic one saves the
    serializer as it is. *)
Definition UserViews_perform_create (now : Z) (request : Request.t)
    (validated_data : Data.t) : M CustomUser.t :=
  save UserSerializer.serializer now None validated_data no_kwargs.

(** *** class BlogViews(viewsets.ModelViewSet) *)

(** [queryset = Blog.objects.all()], [serializer_class = BlogSerializer] *)
Definition BlogViews : ViewSet Blog.t :=
  mkViewSet _ blog Blog.id BlogSerializer.serializer Blog_delete.

Definition BlogViews_get_permissions (action : string) : list Permission :=
  if (action =? "list")%string || (action =? "retrieve")%string then [AllowAny]
  else [IsAuthenticated].

(** [serializer.save(author=self.request.user)] *)
Definition BlogViews_perform_create (now : Z) (request : Request.t)
    (validated_data : Data.t) : M Blog.t :=
  author <- user_pk (Request.user request) ;;
  save BlogSerializer.serializer now None validated_data (kwargs_author author).

Definition BlogViews_comments (request : Request.t) (pk : Z) : M Response.t :=
  blog <- get_object blog Blog.id pk ;;
  comments <- Comment_objects_filter (Blog.id blog) ;;
  ret (Response.Build (comment_rows comments) HTTP_200_OK).

Definition BlogViews_likes (request : Request.t) (pk : Z) : M Response.t :=
  blog <- get_object blog Blog.id pk ;;
  likes <- Like_objects_filter_post (Blog.id blog) ;;
  ret (Response.Build (like_rows likes) HTTP_200_OK).

Definition BlogViews_like (now : Z) (request : Request.t) (pk : Z) : M Response.t :=
  blog <- get_object blog Blog.id pk ;;
  user <- user_pk (Request.user request) ;;
  like_exists <- exists_ (Like_objects_filter user (Blog.id blog)) ;;
  if like_exists then
    Like_objects_filter_delete user (Blog.id blog) ;;
    ret (Response.Build (message "Like removed") HTTP_200_OK)
  else
    Like_objects_create now user (Blog.id blog) ;;
    ret (Response.Build (message "Post liked") HTTP_201_CREATED).

(** *** class CommentViews(viewsets.ModelViewSet) *)

(** [queryset = Comment.objects.all()],
    [serializer_class = CommentSerializer] *)
Definition CommentViews : ViewSet Comment.t :=
  mkViewSet _ comment Comment.id CommentSerializer.serializer Comment_delete.

Definition CommentViews_permission_classes : list Permission := [IsAuthenticated].

(** [serializer.save(user=self.request.user)] *)
Definition CommentViews_perform_create (now : Z) (request : Request.t)
    (validated_data : Data.t) : M Comment.t :=
  user <- user_pk (Request.user request) ;;
  save CommentSerializer.serializer now None validated_data (kwargs_user user).

Definition CommentViews_update (now : Z) (partial : bool) (request : Request.t)
    (pk : Z) : M Response.t :=
  comment <- get_object comment Comment.id pk ;;
  if negb (is_user (Comment.user comment) (Request.user request)) then
    ret (Response.Build (error "Not authorized") HTTP_403_FORBIDDEN)
  else ModelViewSet.update CommentViews now partial request pk.

Definition CommentViews_destroy (request : Request.t) (pk : Z) : M Response.t :=
  comment <- get_object comment Comment.id pk ;;
  if negb (is_user (Comment.user comment) (Request.user request)) then
    ret (Response.Build (error "Not authorized") HTTP_403_FORBIDDEN)
  else ModelViewSet.destroy CommentViews pk.

(** *** class LikeViews(viewsets.ModelViewSet) *)

(** [queryset = Like.objects.all()], [serializer_class = LikeSerializer] *)
Definition LikeViews : ViewSet Like.t :=
  mkViewSet _ like Like.id LikeSerializer.serializer Like_delete.

Definition LikeViews_permission_classes : list Permission := [IsAuthenticated].

(** [serializer.save(user=self.request.user)] *)
Definition LikeViews_perform_create (now : Z) (request : Request.t)
    (validated_data : Data.t) : M Like.t :=
  user <- user_pk (Request.user request) ;;
  save LikeSerializer.serializer now None validated_data (kwargs_user user).

(** [Like.objects.filter(user=user, post_id=post_id)] on the body's own
    [post], which nothing has validated; an absent [post] is
    [post_id=None], which no row has.  The body's value is taken to be a
    number that a key column holds: on any other the database call raises
    instead of answering. *)
Definition Like_objects_filter_post_id (user : Z) (post_id : option Z)
    : M (list Like.t) :=
  match post_id with
  | Some p => Like_objects_filter user p
  | None => ret []
  end.

Definition LikeViews_create (now : Z) (request : Request.t) : M Response.t :=
  user <- user_pk (Request.user request) ;;
  let post_id := Data.post (Request.data request) in
  like_exists <- exists_ (Like_objects_filter_post_id user post_id) ;;
  if like_exists then
    ret (Response.Build (error "You have already liked this post")
                        HTTP_400_BAD_REQUEST)
  else ModelViewSet.create LikeViews (LikeViews_perform_create now request) request.

(** *** routes.py: the router's endpoints

    Every call that writes the database, and the two read actions that
    [BlogViews] defines itself.  The generic [list] and [retrieve] of the
    four viewsets only read; they are not among the calls, and nothing
    below speaks of them. *)
Inductive Call :=
| user_create | user_update (partial : bool) (pk : Z) | user_destroy (pk : Z)
| user_login | user_logout
| blog_create | blog_update (partial : bool) (pk : Z) | blog_destroy (pk : Z)
| blog_comments (pk : Z) | blog_likes (pk : Z) | blog_like (pk : Z)
| comment_create | comment_update (partial : bool) (pk : Z) | comment_destroy (pk : Z)
| like_create | like_update (partial : bool) (pk : Z) | like_destroy (pk : Z).

(** The action name of an update is [update] or [partial_update]. *)
Definition update_action (partial : bool) : string :=
  if partial then "partial_update" else "update".

Definition serve (now : Z) (call : Call) (request : Request.t) (db : DB)
    : Response.t * DB :=
  match call with
  | user_create =>
      dispatch (UserViews_get_permissions "create") request
        (ModelViewSet.create UserViews (UserViews_perform_create now request)
                             request) db
  | user_update partial pk =>
      dispatch (UserViews_get_permissions (update_action partial)) request
        (ModelViewSet.update UserViews now partial request pk) db
  | user_destroy pk =>
      dispatch (UserViews_get_permissions "destroy") request
        (ModelViewSet.destroy UserViews pk) db
  | user_login =>
      dispatch (UserViews_get_permissions "login") request
        (UserViews_login now request) db
  | user_logout =>
      dispatch (UserViews_get_permissions "logout") request
        (UserViews_logout now request) db
  | blog_create =>
      dispatch (BlogViews_get_permissions "create") request
        (ModelViewSet.create BlogViews (BlogViews_perform_create now request)
                             request) db
  | blog_update partial pk =>
      dispatch (BlogViews_get_permissions (update_action partial)) request
        (ModelViewSet.update BlogViews now partial request pk) db
  | blog_destroy pk =>
      dispatch (BlogViews_get_permissions "destroy") request
        (ModelViewSet.destroy BlogViews pk) db
  | blog_comments pk =>
      dispatch (BlogViews_get_permissions "comments") request
        (BlogViews_comments request pk) db
  | blog_likes pk =>
      dispatch (BlogViews_get_permissions "likes") request
        (BlogViews_likes request pk) db
  | blog_like pk =>
      dispatch (BlogViews_get_permissions "like") request
        (BlogViews_like now request pk) db
  | comment_create =>
      dispatch CommentViews_permission_classes request
        (ModelViewSet.create CommentViews (CommentViews_perform_create now request)
                             request) db
  | comment_update partial pk =>
      dispatch CommentViews_permission_classes request
        (CommentViews_update now partial request pk) db
  | comment_destroy pk =>
      dispatch CommentViews_permission_classes request
        (CommentViews_destroy request pk) db
  | like_create =>
      dispatch LikeViews_permission_classes request (LikeViews_create now request) db
  | like_update partial pk =>
      dispatch LikeViews_permission_classes request
        (ModelViewSet.update LikeViews now partial request pk) db
  | like_destroy pk =>
      dispatch LikeViews_permission_classes request
        (ModelViewSet.destroy LikeViews pk) db
  end.

(** The states the server can be in: the empty database and whatever a
    request leaves behind. *)
Inductive reachable : DB -> Prop :=
| reachable_empty : reachable empty_db
| reachable_serve db now call request :
    reachable db -> reachable (snd (serve now call request db)).

End Views.

(** ** A small world to run the views in *)

Module Demo.
(** A toy hasher: the credential of [raw] is [raw] behind a tag. *)
Definition check_password (raw encoded : string) : bool :=
  (encoded =? "pbkdf2$" ++ raw)%string.

(** The tokens of two users, and their decoding. *)
Definition for_user (now user_id : Z) : string * string :=
  if user_id =? 2 then ("refresh-of-2", "access-of-2")
  else ("refresh-of-1", "access-of-1").

Definition decode (raw : string) : option Token.t :=
  if (raw =? "refresh-of-2")%string then Some (Token.Build "refresh" 1000 "jti-2" 2)
  else if (raw =? "refresh-of-1")%string then Some (Token.Build "refresh" 1000 "jti-1" 1)
  else None.

(** A token made without an encoded one: its [jti] is drawn anew. *)
Definition mint (now : Z) : Token.t := Token.Build "refresh" (now + 1000) "jti-new" 0.

Definition serve := serve check_password for_user decode mint.

Definition anonymous (data : Data.t) : Request.t := Request.Build AnonymousUser data.
Definition as_user (pk : Z) (data : Data.t) : Request.t :=
  Request.Build (Authenticated pk) data.

Definition registration (username password phone : string) : Data.t :=
  Data.Build (Some username) (Some password) (Some phone)
             None None None None None None None None.
Definition post_body (title description : string) (author : Z) : Data.t :=
  Data.Build None None None (Some title) (Some description) None (Some author)
             None None None None.
Definition comment_body (user post : Z) (text : string) : Data.t :=
  Data.Build None None None None None None None (Some user) (Some post) (Some text) None.
Definition like_body (user post : Z) : Data.t :=
  Data.Build None None None None None None None (Some user) (Some post) None None.
Definition logout_body (refresh : string) : Data.t :=
  Data.Build None None None None None None None None None None (Some refresh).

(** alice (1) and bob (2) register; alice publishes posts 1 and 2; alice
    comments on post 1 (comment 1); bob likes post 1 (like 1). *)
Definition registered : DB :=
  snd (serve 11 user_create (anonymous (registration "bob" "hunter2" "222"))
         (snd (serve 10 user_create (anonymous (registration "alice" "secret" "111"))
                 empty_db))).
Definition published : DB :=
  snd (serve 21 blog_create (as_user 1 (post_body "Second" "more words" 1))
         (snd (serve 20 blog_create (as_user 1 (post_body "First" "some words" 1))
                 registered))).
Definition commented : DB :=
  snd (serve 30 comment_create (as_user 1 (comment_body 1 1 "hi")) published).
Definition liked : DB :=
  snd (serve 40 (blog_like 1) (as_user 2 Data.empty) commented).

(** After alice's comment bob comments on post 2 (comment 2) and then on
    post 1 (comment 3). *)
Definition discussed : DB :=
  snd (serve 32 comment_create (as_user 2 (comment_body 2 1 "me too"))
         (snd (serve 31 comment_create (as_user 2 (comment_body 2 2 "nice"))
                 commented))).

(** A body for a post, a comment and a like at once, that names alice as
    [author] and as [user]. *)
Definition body_naming_alice : Data.t :=
  Data.Build None None None (Some "Third") (Some "a few words") None (Some 1)
             (Some 1) (Some 1) (Some "hello") None.

(** A text one character over [max_length=100]. *)
Definition long_text : string := string_of_list_ascii (repeat "x"%char 101).
End Demo.

(** * Properties *)

(** ** Running the monad *)

Lemma bind_run {A B} (m : M A) (k : A -> M B) (db db' : DB) (a : A) :
  m db = (inr a, db') -> bind m k db = k a db'.
Proof. intros H. unfold bind. now rewrite H. Qed.

Lemma dispatch_authenticated (ps : list Permission) (u : Z) (data : Data.t)
    (handler : M Response.t) (db : DB) :
  dispatch ps (Request.Build (Authenticated u) data) handler db =
  match handler db with
  | (inl e, db') => (exception_handler e, db')
  | (inr r, db') => (r, db')
  end.
Proof.
  unfold dispatch, check_permissions.
  assert (H : forallb (fun p => has_permission p (Request.Build (Authenticated u) data)) ps
              = true).
  { apply forallb_forall. intros [|] _; reflexivity. }
  rewrite H. reflexivity.
Qed.

(** ** Rows and queries *)

Lemma find_pk_exists {A} (id : A -> Z) (rows : list A) (pk : Z) :
  pk_exists id rows pk = true ->
  exists r, find (fun r => id r =? pk) rows = Some r /\ id r = pk.
Proof.
  unfold pk_exists. induction rows as [|r rows IH]; simpl; [discriminate|].
  destruct (id r =? pk) eqn:E.
  - intros _. exists r. split; [reflexivity | now apply Z.eqb_eq].
  - simpl. exact IH.
Qed.

Lemma get_object_found {A} (table : DB -> list A) (id : A -> Z) (pk : Z) (db : DB) :
  pk_exists id (table db) pk = true ->
  exists r, get_object table id pk db = (inr r, db) /\ id r = pk /\ In r (table db).
Proof.
  intros H. destruct (find_pk_exists _ _ _ H) as [r [Hf Hr]].
  exists r. unfold get_object, bind, query, ret. rewrite Hf.
  repeat split; trivial. now apply find_some in Hf.
Qed.

Lemma get_object_find {A} (table : DB -> list A) (id : A -> Z) (pk : Z) (db : DB) (r : A) :
  find (fun r => id r =? pk) (table db) = Some r ->
  get_object table id pk db = (inr r, db).
Proof. intros Hf. unfold get_object, bind, query, ret. now rewrite Hf. Qed.

Lemma exists_filter {A} (f : A -> bool) (rows : list A) :
  match filter f rows with [] => false | _ :: _ => true end = existsb f rows.
Proof.
  induction rows as [|r rows IH]; simpl; [reflexivity|].
  destruct (f r); simpl; [reflexivity | exact IH].
Qed.

Lemma filter_negb_none {A} (f : A -> bool) (rows : list A) :
  existsb f rows = false -> filter (fun r => negb (f r)) rows = rows.
Proof.
  induction rows as [|r rows IH]; simpl; [reflexivity|].
  intros H. apply orb_false_iff in H. destruct H as [Hr Hrows].
  rewrite Hr. simpl. now rewrite IH.
Qed.

Lemma existsb_filter_negb {A} (f : A -> bool) (rows : list A) :
  existsb f (filter (fun r => negb (f r)) rows) = false.
Proof.
  induction rows as [|r rows IH]; simpl; [reflexivity|].
  destruct (f r) eqn:E; simpl; [exact IH | now rewrite E].
Qed.

Lemma filter_none {A} (f : A -> bool) (rows : list A) :
  existsb f rows = false -> filter f rows = [].
Proof.
  induction rows as [|r rows IH]; simpl; [reflexivity|].
  intros H. apply orb_false_iff in H. destruct H as [Hr Hrows].
  now rewrite Hr, IH.
Qed.

Lemma like_of_refl (now pk user post : Z) :
  like_of user post (Like.Build pk user post now) = true.
Proof. unfold like_of. cbn. now rewrite !Z.eqb_refl. Qed.

(** ** The like toggle *)

Lemma BlogViews_like_run (now u pk : Z) (data : Data.t) (db : DB) :
  pk_exists Blog.id (blog db) pk = true ->
  BlogViews_like now (Request.Build (Authenticated u) data) pk db =
  if existsb (like_of u pk) (like db)
  then (inr (Response.Build (message "Like removed") HTTP_200_OK),
        set_like (filter (fun l => negb (like_of u pk l))) db)
  else (inr (Response.Build (message "Post liked") HTTP_201_CREATED),
        bump_seq_like
          (set_like (fun rows => rows ++ [Like.Build (seq_like db) u pk now]) db)).
Proof.
  intros Hpk.
  destruct (get_object_found blog Blog.id pk db Hpk) as [b [Hget [Hb _]]].
  unfold BlogViews_like. rewrite (bind_run _ _ _ _ _ Hget). rewrite Hb.
  cbv [user_pk Request.user bind ret exists_ Like_objects_filter query].
  rewrite exists_filter.
  destruct (existsb (like_of u pk) (like db)) eqn:Hex.
  - reflexivity.
  - cbv [Like_objects_create bind query]. rewrite Hex. reflexivity.
Qed.

(** ** Validation reads the database and raises nothing but [ValidationError] *)

Definition validator {A} (m : M A) : Prop :=
  forall db, (exists a, m db = (inr a, db)) \/ m db = (inl ValidationError, db).

Lemma validator_ret {A} (a : A) : validator (ret a).
Proof. intros db. left. now exists a. Qed.

Lemma validator_raise {A} : validator (@raise A ValidationError).
Proof. intros db. now right. Qed.

Lemma validator_query {A} (f : DB -> A) : validator (query f).
Proof. intros db. left. now exists (f db). Qed.

Lemma validator_bind {A B} (m : M A) (k : A -> M B) :
  validator m -> (forall a, validator (k a)) -> validator (bind m k).
Proof.
  intros Hm Hk db. unfold bind.
  destruct (Hm db) as [[a Ha] | He].
  - rewrite Ha. apply Hk.
  - rewrite He. now right.
Qed.

Ltac validator :=
  repeat first
    [ apply validator_ret | apply validator_raise | apply validator_query
    | apply validator_bind; [| intros ?]
    | match goal with
      | |- validator (match ?x with _ => _ end) => destruct x
      end ].

Lemma UserSerializer_is_valid_validator instance partial data :
  validator (UserSerializer.is_valid instance partial data).
Proof. unfold UserSerializer.is_valid, run_field. validator. Qed.

Lemma BlogSerializer_is_valid_validator instance partial data :
  validator (BlogSerializer.is_valid instance partial data).
Proof. unfold BlogSerializer.is_valid, run_field, ImageField. validator. Qed.

Lemma LikeSerializer_is_valid_validator instance partial data :
  validator (LikeSerializer.is_valid instance partial data).
Proof.
  unfold LikeSerializer.is_valid, LikeSerializer.UniqueTogetherValidator, run_field.
  validator.
Qed.

Lemma CommentSerializer_is_valid_validator instance partial data :
  validator (CommentSerializer.is_valid instance partial data).
Proof. unfold CommentSerializer.is_valid, run_field. validator. Qed.

Lemma validator_run {A} (m : M A) (db db' : DB) (x : Exception + A) :
  validator m -> m db = (x, db') -> db' = db /\ (forall e, x = inl e -> e = ValidationError).
Proof.
  intros H E. destruct (H db) as [[a Ha] | He]; rewrite E in *.
  - inversion Ha. split; [reflexivity | discriminate].
  - inversion He. split; [reflexivity | congruence].
Qed.

Lemma exception_handler_not_created (e : Exception) :
  Response.status (exception_handler e) <> HTTP_201_CREATED.
Proof. destruct e; discriminate. Qed.

(** ** Comments: the owner guard and the generic update *)

Definition updated_comment (now : Z) (c : Comment.t) (validated_data : Data.t) : Comment.t :=
  Comment.Build (Comment.id c)
                (value_or (Data.user validated_data) (Comment.user c))
                (value_or (Data.post validated_data) (Comment.post c))
                (value_or (Data.comment validated_data) (Comment.comment c))
                now.

Definition replace_comment (c' : Comment.t) (rows : list Comment.t) : list Comment.t :=
  map (fun r => if Comment.id r =? Comment.id c' then c' else r) rows.

Lemma is_user_eq (pk caller : Z) : is_user pk (Authenticated caller) = true <-> pk = caller.
Proof. cbn. apply Z.eqb_eq. Qed.

Lemma CommentViews_update_stranger (now : Z) (partial : bool) (caller pk : Z)
    (data : Data.t) (c : Comment.t) (db : DB) :
  find (fun r => Comment.id r =? pk) (comment db) = Some c ->
  Comment.user c <> caller ->
  CommentViews_update now partial (Request.Build (Authenticated caller) data) pk db =
  (inr (Response.Build (error "Not authorized") HTTP_403_FORBIDDEN), db).
Proof.
  intros Hc Hne. unfold CommentViews_update.
  rewrite (bind_run _ _ _ _ _ (get_object_find comment Comment.id pk db c Hc)).
  destruct (is_user (Comment.user c) _) eqn:E; [|reflexivity].
  apply is_user_eq in E. contradiction.
Qed.

Lemma CommentViews_destroy_stranger (caller pk : Z) (data : Data.t) (c : Comment.t)
    (db : DB) :
  find (fun r => Comment.id r =? pk) (comment db) = Some c ->
  Comment.user c <> caller ->
  CommentViews_destroy (Request.Build (Authenticated caller) data) pk db =
  (inr (Response.Build (error "Not authorized") HTTP_403_FORBIDDEN), db).
Proof.
  intros Hc Hne. unfold CommentViews_destroy.
  rewrite (bind_run _ _ _ _ _ (get_object_find comment Comment.id pk db c Hc)).
  destruct (is_user (Comment.user c) _) eqn:E; [|reflexivity].
  apply is_user_eq in E. contradiction.
Qed.

Lemma CommentViews_update_owner (now : Z) (partial : bool) (pk : Z) (data : Data.t)
    (c : Comment.t) (db : DB) :
  find (fun r => Comment.id r =? pk) (comment db) = Some c ->
  CommentViews_update now partial (Request.Build (Authenticated (Comment.user c)) data)
                      pk db =
  match CommentSerializer.is_valid (Some c) partial data db with
  | (inr validated_data, _) =>
      (inr (Response.Build (comment_row (updated_comment now c validated_data))
                           HTTP_200_OK),
       set_comment (replace_comment (updated_comment now c validated_data)) db)
  | (inl _, _) => (inl ValidationError, db)
  end.
Proof.
  intros Hc. unfold CommentViews_update.
  pose proof (get_object_find comment Comment.id pk db c Hc) as Hget.
  rewrite (bind_run _ _ _ _ _ Hget).
  replace (is_user (Comment.user c) _) with true
    by (symmetry; now apply is_user_eq).
  cbn [negb]. unfold ModelViewSet.update.
  cbn [queryset pk_of serializer_class CommentViews is_valid
       CommentSerializer.serializer representation Request.data].
  rewrite (bind_run _ _ _ _ _ Hget). unfold bind at 1.
  destruct (CommentSerializer.is_valid (Some c) partial data db) as [[e|v] db'] eqn:Hv;
    apply validator_run in Hv; try apply CommentSerializer_is_valid_validator;
    destruct Hv as [-> He].
  - now rewrite (He e eq_refl).
  - reflexivity.
Qed.

Lemma CommentViews_destroy_owner (pk : Z) (data : Data.t) (c : Comment.t) (db : DB) :
  find (fun r => Comment.id r =? pk) (comment db) = Some c ->
  CommentViews_destroy (Request.Build (Authenticated (Comment.user c)) data) pk db =
  (inr (Response.Build no_content HTTP_204_NO_CONTENT),
   set_comment (filter (fun r => negb (Comment.id r =? Comment.id c))) db).
Proof.
  intros Hc. unfold CommentViews_destroy.
  pose proof (get_object_find comment Comment.id pk db c Hc) as Hget.
  rewrite (bind_run _ _ _ _ _ Hget).
  replace (is_user (Comment.user c) _) with true
    by (symmetry; now apply is_user_eq).
  cbn [negb]. unfold ModelViewSet.destroy.
  cbn [queryset pk_of CommentViews delete].
  rewrite (bind_run _ _ _ _ _ Hget). reflexivity.
Qed.

(** What a valid body leaves in the validated data of a comment: the keys
    of the body, the text trimmed. *)
Lemma CommentSerializer_validated_data (instance : option Comment.t) (partial : bool)
    (data validated_data : Data.t) (db db' : DB) :
  CommentSerializer.is_valid instance partial data db = (inr validated_data, db') ->
  Data.user validated_data = Data.user data /\
  Data.post validated_data = Data.post data /\
  Data.comment validated_data = option_map strip (Data.comment data).
Proof.
  unfold CommentSerializer.is_valid, run_field, PrimaryKeyRelatedField, CharField.
  cbv [bind query ret raise].
  destruct (Data.user data) as [u|], (Data.post data) as [p|],
           (Data.comment data) as [t|], partial; cbn [option_map];
    repeat match goal with
      | |- context [if ?b then _ else _] => destruct b
      end;
    intros H; inversion H; subst; cbn; auto.
Qed.

(** ** The tables' invariants

    Primary keys come from the table's sequence, so a table lists its rows
    by ascending key, below the sequence's next value; and no two likes
    share their (user, post). *)

Definition like_key (l : Like.t) : Z * Z := (Like.user l, Like.post l).

Definition likes_unique (db : DB) : Prop := NoDup (map like_key (like db)).

Definition like_table_ok (db : DB) : Prop :=
  StronglySorted Z.lt (map Like.id (like db)) /\
  Forall (fun pk => pk < seq_like db) (map Like.id (like db)) /\
  likes_unique db.

Definition comment_table_ok (db : DB) : Prop :=
  StronglySorted Z.lt (map Comment.id (comment db)) /\
  Forall (fun pk => pk < seq_comment db) (map Comment.id (comment db)).

Definition consistent (db : DB) : Prop := like_table_ok db /\ comment_table_ok db.

Section Tables.

Context {Row : Type} (id : Row -> Z).

Lemma sorted_filter (keep : Row -> bool) (rows : list Row) :
  StronglySorted Z.lt (map id rows) -> StronglySorted Z.lt (map id (filter keep rows)).
Proof.
  induction rows as [|r rows IH]; cbn; intros H; [constructor|].
  inversion H as [|? ? Hs Hall]; subst.
  destruct (keep r); cbn; [|now apply IH].
  constructor; [now apply IH|].
  rewrite Forall_forall in *. intros x Hx. apply Hall.
  apply in_map_iff in Hx. destruct Hx as [y [<- Hy]].
  apply filter_In in Hy. apply in_map. tauto.
Qed.

Lemma below_filter (bound : Z) (keep : Row -> bool) (rows : list Row) :
  Forall (fun pk => pk < bound) (map id rows) ->
  Forall (fun pk => pk < bound) (map id (filter keep rows)).
Proof.
  rewrite !Forall_forall. intros H x Hx. apply H.
  apply in_map_iff in Hx. destruct Hx as [y [<- Hy]].
  apply filter_In in Hy. apply in_map. tauto.
Qed.

Lemma sorted_append (r : Row) (rows : list Row) :
  StronglySorted Z.lt (map id rows) ->
  Forall (fun pk => pk < id r) (map id rows) ->
  StronglySorted Z.lt (map id (rows ++ [r])).
Proof.
  induction rows as [|x rows IH]; cbn; intros Hs Hb.
  - repeat constructor.
  - inversion Hs as [|? ? Hs' Hall]; inversion Hb as [|? ? Hx Hb']; subst.
    constructor; [now apply IH|].
    rewrite map_app. apply Forall_app. split; [exact Hall|].
    cbn. repeat constructor. exact Hx.
Qed.

Lemma below_append (r : Row) (rows : list Row) :
  Forall (fun pk => pk < id r) (map id rows) ->
  Forall (fun pk => pk < id r + 1) (map id (rows ++ [r])).
Proof.
  intros H. rewrite map_app. apply Forall_app. split.
  - eapply Forall_impl; [|exact H]. cbn. intros. lia.
  - cbn. repeat constructor. lia.
Qed.

Lemma ids_replace (r' : Row) (rows : list Row) :
  map id (map (fun r => if id r =? id r' then r' else r) rows) = map id rows.
Proof.
  induction rows as [|r rows IH]; cbn; [reflexivity|].
  rewrite IH. f_equal.
  destruct (id r =? id r') eqn:E; [|reflexivity].
  apply Z.eqb_eq in E. now rewrite E.
Qed.

Lemma replace_absent (r' : Row) (rows : list Row) :
  Forall (Z.lt (id r')) (map id rows) ->
  map (fun r => if id r =? id r' then r' else r) rows = rows.
Proof.
  induction rows as [|r rows IH]; cbn; intros H; [reflexivity|].
  inversion H as [|? ? Hr Hrows]; subst.
  rewrite IH by exact Hrows.
  replace (id r =? id r') with false; [reflexivity|].
  symmetry. apply Z.eqb_neq. lia.
Qed.

End Tables.

Lemma nodup_keys_filter (keep : Like.t -> bool) (rows : list Like.t) :
  NoDup (map like_key rows) -> NoDup (map like_key (filter keep rows)).
Proof.
  induction rows as [|r rows IH]; cbn; intros H; [constructor|].
  inversion H as [|? ? Hnotin Hnd]; subst.
  destruct (keep r); cbn; [|now apply IH].
  constructor; [|now apply IH].
  intros Hin. apply Hnotin.
  apply in_map_iff in Hin. destruct Hin as [y [Hk Hy]].
  apply filter_In in Hy. rewrite <- Hk. apply in_map. tauto.
Qed.

Lemma like_of_key (user post : Z) (l : Like.t) :
  like_of user post l = true <-> like_key l = (user, post).
Proof.
  unfold like_of, like_key. rewrite andb_true_iff, !Z.eqb_eq.
  split; [intros [-> ->]; reflexivity | intros H; inversion H; auto].
Qed.

Lemma key_absent (user post : Z) (rows : list Like.t) :
  existsb (like_of user post) rows = false -> ~ In (user, post) (map like_key rows).
Proof.
  intros Hex Hin. apply in_map_iff in Hin. destruct Hin as [l [Hk Hl]].
  assert (existsb (like_of user post) rows = true) as E.
  { apply existsb_exists. exists l. split; [exact Hl | now apply like_of_key]. }
  congruence.
Qed.

Lemma nodup_keys_append (l : Like.t) (rows : list Like.t) :
  NoDup (map like_key rows) ->
  existsb (like_of (Like.user l) (Like.post l)) rows = false ->
  NoDup (map like_key (rows ++ [l])).
Proof.
  intros Hnd Hex. rewrite map_app. cbn.
  apply NoDup_app; [exact Hnd | repeat constructor; intros [] |].
  intros k Hk [<-|[]]. now apply (key_absent _ _ _ Hex).
Qed.

Lemma nodup_keys_replace (l' : Like.t) (rows : list Like.t) :
  StronglySorted Z.lt (map Like.id rows) ->
  NoDup (map like_key rows) ->
  existsb (fun l => like_of (Like.user l') (Like.post l') l
                    && negb (Like.id l =? Like.id l')) rows = false ->
  NoDup (map like_key (map (fun l => if Like.id l =? Like.id l' then l' else l) rows)).
Proof.
  induction rows as [|r rows IH]; cbn; intros Hs Hnd Hex; [constructor|].
  inversion Hs as [|? ? Hs' Hall]; inversion Hnd as [|? ? Hnotin Hnd']; subst.
  apply orb_false_iff in Hex. destruct Hex as [Hr Hex].
  destruct (Like.id r =? Like.id l') eqn:E.
  - apply Z.eqb_eq in E. rewrite E in Hall.
    rewrite (replace_absent Like.id l' rows Hall).
    constructor; [|exact Hnd'].
    intros Hin. apply in_map_iff in Hin. destruct Hin as [y [Hk Hy]].
    assert (Hy' : (like_of (Like.user l') (Like.post l') y
                   && negb (Like.id y =? Like.id l')) = false).
    { destruct (existsb_exists
                  (fun l => like_of (Like.user l') (Like.post l') l
                            && negb (Like.id l =? Like.id l')) rows) as [_ Hb].
      destruct (like_of (Like.user l') (Like.post l') y
                && negb (Like.id y =? Like.id l')) eqn:Ey; [|reflexivity].
      rewrite Hb in Hex; [discriminate | eauto]. }
    apply andb_false_iff in Hy'. destruct Hy' as [Hy' | Hy'].
    + apply (proj2 (like_of_key _ _ y)) in Hk. congruence.
    + apply negb_false_iff, Z.eqb_eq in Hy'.
      rewrite Forall_forall in Hall. specialize (Hall (Like.id y) (in_map _ _ _ Hy)).
      lia.
  - constructor; [|now apply IH].
    cbn in Hr. rewrite andb_true_r in Hr.
    intros Hin. apply in_map_iff in Hin. destruct Hin as [y [Hk Hy]].
    apply in_map_iff in Hy. destruct Hy as [z [Hz Hin]].
    destruct (Like.id z =? Like.id l'); subst y.
    + symmetry in Hk. apply like_of_key in Hk. congruence.
    + apply Hnotin. rewrite <- Hk. now apply in_map.
Qed.

(** ** Computations that keep an invariant of the database *)

Definition keeps (I : DB -> Prop) {A} (m : M A) : Prop :=
  forall db, I db -> I (snd (m db)).

Section Keeps.

Variable I : DB -> Prop.

Lemma keeps_ret {A} (a : A) : keeps I (ret a).
Proof. intros db H. exact H. Qed.

Lemma keeps_raise {A} (e : Exception) : keeps I (@raise A e).
Proof. intros db H. exact H. Qed.

Lemma keeps_query {A} (f : DB -> A) : keeps I (query f).
Proof. intros db H. exact H. Qed.

Lemma keeps_modify (f : DB -> DB) :
  (forall db, I db -> I (f db)) -> keeps I (modify f).
Proof. intros Hf db H. now apply Hf. Qed.

Lemma keeps_bind {A B} (m : M A) (k : A -> M B) :
  keeps I m -> (forall a, keeps I (k a)) -> keeps I (bind m k).
Proof.
  intros Hm Hk db H. unfold bind. specialize (Hm db H).
  destruct (m db) as [[e|a] db']; cbn in *; [exact Hm | now apply Hk].
Qed.

Lemma keeps_try_except {A} (m : M A) (h : Exception -> M A) :
  keeps I m -> (forall e, keeps I (h e)) -> keeps I (try_except m h).
Proof.
  intros Hm Hh db H. unfold try_except. specialize (Hm db H).
  destruct (m db) as [[e|a] db']; cbn in *; [now apply Hh | exact Hm].
Qed.

Lemma keeps_validator {A} (m : M A) : validator m -> keeps I m.
Proof.
  intros Hv db H. destruct (Hv db) as [[a Ha] | He]; [rewrite Ha | rewrite He]; exact H.
Qed.

Lemma keeps_dispatch (ps : list Permission) (request : Request.t)
    (handler : M Response.t) (db : DB) :
  keeps I handler -> I db -> I (snd (dispatch ps request handler db)).
Proof.
  intros Hh H. unfold dispatch.
  assert (Hp : keeps I (check_permissions ps request ;; handler)).
  { apply keeps_bind; [|intros _; exact Hh].
    unfold check_permissions. destruct (forallb _ ps); [apply keeps_ret | apply keeps_raise]. }
  specialize (Hp db H).
  destruct ((check_permissions ps request ;; handler) db) as [[e|r] db']; exact Hp.
Qed.

End Keeps.

Lemma consistent_other_tables (db db' : DB) :
  like db' = like db -> seq_like db' = seq_like db ->
  comment db' = comment db -> seq_comment db' = seq_comment db ->
  consistent db -> consistent db'.
Proof.
  unfold consistent, like_table_ok, comment_table_ok, likes_unique.
  intros -> -> -> ->. exact (fun H => H).
Qed.

Lemma consistent_filter_like (keep : Like.t -> bool) (db : DB) :
  consistent db -> consistent (set_like (filter keep) db).
Proof.
  intros [[Hs [Hb Hu]] Hc]. split; [|exact Hc].
  repeat split; cbn.
  - now apply sorted_filter.
  - now apply below_filter.
  - now apply nodup_keys_filter.
Qed.

Lemma consistent_filter_comment (keep : Comment.t -> bool) (db : DB) :
  consistent db -> consistent (set_comment (filter keep) db).
Proof.
  intros [Hl [Hs Hb]]. split; [exact Hl|].
  split; cbn; [now apply sorted_filter | now apply below_filter].
Qed.

Lemma preserves_Like_objects_create (now user post : Z) :
  keeps consistent (Like_objects_create now user post).
Proof.
  intros db [[Hs [Hb Hu]] Hc]. cbv [Like_objects_create bind query].
  destruct (existsb (like_of user post) (like db)) eqn:Hex;
    [exact (conj (conj Hs (conj Hb Hu)) Hc)|].
  cbn. split; [|exact Hc].
  set (l := Like.Build (seq_like db) user post now).
  repeat split; cbn.
  - now apply (sorted_append Like.id l).
  - now apply (below_append Like.id l).
  - now apply nodup_keys_append.
Qed.

Lemma preserves_Like_save (now : Z) (instance : Like.t) (user post : Z) :
  keeps consistent (Like_save now instance user post).
Proof.
  intros db [[Hs [Hb Hu]] Hc]. cbv [Like_save bind query].
  set (l := Like.Build (Like.id instance) user post now).
  destruct (existsb _ (like db)) eqn:Hex;
    [exact (conj (conj Hs (conj Hb Hu)) Hc)|].
  cbn. split; [|exact Hc].
  repeat split; cbn.
  - now rewrite (ids_replace Like.id l).
  - now rewrite (ids_replace Like.id l).
  - now apply (nodup_keys_replace l).
Qed.

Lemma preserves_Comment_objects_create (now user post : Z) (text : string) :
  keeps consistent (Comment_objects_create now user post text).
Proof.
  intros db [Hl [Hs Hb]]. cbn. split; [exact Hl|].
  set (c := Comment.Build (seq_comment db) user post text now).
  split; cbn.
  - now apply (sorted_append Comment.id c).
  - now apply (below_append Comment.id c).
Qed.

Lemma preserves_Comment_save (now : Z) (instance : Comment.t) (user post : Z)
    (text : string) :
  keeps consistent (Comment_save now instance user post text).
Proof.
  intros db [Hl [Hs Hb]]. cbn. split; [exact Hl|].
  set (c := Comment.Build (Comment.id instance) user post text now).
  split; cbn; now rewrite (ids_replace Comment.id c).
Qed.

Create HintDb preserves.

#[local] Hint Resolve keeps_ret keeps_raise keeps_query
  preserves_Like_objects_create preserves_Like_save
  preserves_Comment_objects_create preserves_Comment_save : preserves.

#[local] Hint Resolve consistent_filter_like consistent_filter_comment : preserves.

#[local] Hint Extern 1 (keeps _ (modify _)) =>
  apply keeps_modify; intros ? ? : preserves.

#[local] Hint Extern 2 (consistent _) =>
  eapply consistent_other_tables; [reflexivity .. | eassumption] : preserves.

#[local] Hint Extern 1 (keeps _ (UserSerializer.is_valid _ _ _)) =>
  apply keeps_validator, UserSerializer_is_valid_validator : preserves.
#[local] Hint Extern 1 (keeps _ (BlogSerializer.is_valid _ _ _)) =>
  apply keeps_validator, BlogSerializer_is_valid_validator : preserves.
#[local] Hint Extern 1 (keeps _ (LikeSerializer.is_valid _ _ _)) =>
  apply keeps_validator, LikeSerializer_is_valid_validator : preserves.
#[local] Hint Extern 1 (keeps _ (CommentSerializer.is_valid _ _ _)) =>
  apply keeps_validator, CommentSerializer_is_valid_validator : preserves.

(** Split a computation at its binds and case distinctions, and close the
    leaves from the hints. *)
Ltac preserves :=
  repeat match goal with
    | |- keeps _ (bind _ _) => apply keeps_bind; [| intros ?]
    | |- keeps _ (try_except _ _) => apply keeps_try_except; [| intros ?]
    | |- keeps _ (match ?x with _ => _ end) => destruct x
    | |- keeps _ (let _ := _ in _) => cbv zeta
    end;
  auto with preserves.

Lemma keeps_get_object I {A} (table : DB -> list A) (id : A -> Z) (pk : Z) :
  keeps I (get_object table id pk).
Proof. unfold get_object. preserves. Qed.

Lemma keeps_user_pk I (u : User) : keeps I (user_pk u).
Proof. unfold user_pk. preserves. Qed.

Lemma keeps_not_null I {A} (o : option A) : keeps I (not_null o).
Proof. unfold not_null. preserves. Qed.

Lemma keeps_exists I {A} (queryset : M (list A)) :
  keeps I queryset -> keeps I (exists_ queryset).
Proof. intros H. unfold exists_. preserves. Qed.

#[local] Hint Resolve keeps_get_object keeps_user_pk keeps_not_null
  keeps_exists : preserves.

Lemma keeps_Like_objects_filter I (user post : Z) :
  keeps I (Like_objects_filter user post).
Proof. unfold Like_objects_filter. preserves. Qed.

Lemma preserves_Like_objects_filter_delete (user post : Z) :
  keeps consistent (Like_objects_filter_delete user post).
Proof. unfold Like_objects_filter_delete. preserves. Qed.

Lemma preserves_Like_delete (instance : Like.t) : keeps consistent (Like_delete instance).
Proof. unfold Like_delete. preserves. Qed.

Lemma preserves_Comment_delete (instance : Comment.t) :
  keeps consistent (Comment_delete instance).
Proof. unfold Comment_delete. preserves. Qed.

Lemma preserves_Blog_objects_create (now : Z) (title description : string) (author : Z)
    (image : option string) :
  keeps consistent (Blog_objects_create now title description author image).
Proof. unfold Blog_objects_create. preserves. Qed.

Lemma preserves_Blog_save (now : Z) (instance : Blog.t) (title description : string)
    (author : Z) (image : option string) :
  keeps consistent (Blog_save now instance title description author image).
Proof. unfold Blog_save. preserves. Qed.

Lemma preserves_Blog_delete (instance : Blog.t) : keeps consistent (Blog_delete instance).
Proof. unfold Blog_delete. preserves. Qed.

Lemma preserves_CustomUser_objects_create (username password phone : string) :
  keeps consistent (CustomUser_objects_create username password phone).
Proof. unfold CustomUser_objects_create. preserves. Qed.

Lemma preserves_CustomUser_save (instance : CustomUser.t)
    (username password phone : string) :
  keeps consistent (CustomUser_save instance username password phone).
Proof. unfold CustomUser_save. preserves. Qed.

Lemma preserves_CustomUser_delete (instance : CustomUser.t) :
  keeps consistent (CustomUser_delete instance).
Proof. unfold CustomUser_delete. preserves. Qed.

#[local] Hint Resolve keeps_Like_objects_filter preserves_Like_objects_filter_delete
  preserves_Like_delete preserves_Comment_delete preserves_Blog_objects_create
  preserves_Blog_save preserves_Blog_delete preserves_CustomUser_objects_create
  preserves_CustomUser_save preserves_CustomUser_delete : preserves.

(** A viewset whose serializer and whose [delete] keep the tables
    consistent: so do its generic views. *)
Record preserving {Row} (V : ViewSet Row) : Prop := mkPreserving
  { preserving_is_valid :
      forall instance partial data,
        keeps consistent (is_valid (serializer_class V) instance partial data);
    preserving_create :
      forall now validated_data,
        keeps consistent (create (serializer_class V) now validated_data);
    preserving_update :
      forall now instance validated_data,
        keeps consistent (update (serializer_class V) now instance validated_data);
    preserving_delete : forall instance, keeps consistent (delete V instance) }.

Lemma preserves_save {Row} (V : ViewSet Row) (now : Z) (instance : option Row)
    (validated_data : Data.t) (kwargs : Data.t -> Data.t) :
  preserving V -> keeps consistent (save (serializer_class V) now instance validated_data kwargs).
Proof.
  intros [_ Hc Hu _]. unfold save. destruct instance; [apply Hu | apply Hc].
Qed.

Lemma preserves_ModelViewSet_create {Row} (V : ViewSet Row)
    (perform_create : Data.t -> M Row) (request : Request.t) :
  preserving V -> (forall validated_data, keeps consistent (perform_create validated_data)) ->
  keeps consistent (ModelViewSet.create V perform_create request).
Proof.
  intros [Hv _ _ _] Hp. unfold ModelViewSet.create. preserves.
Qed.

Lemma preserves_ModelViewSet_update {Row} (V : ViewSet Row) (now : Z) (partial : bool)
    (request : Request.t) (pk : Z) :
  preserving V -> keeps consistent (ModelViewSet.update V now partial request pk).
Proof.
  intros HV. pose proof (preserving_is_valid V HV) as Hv.
  unfold ModelViewSet.update. preserves. now apply preserves_save.
Qed.

Lemma preserves_ModelViewSet_destroy {Row} (V : ViewSet Row) (pk : Z) :
  preserving V -> keeps consistent (ModelViewSet.destroy V pk).
Proof.
  intros [_ _ _ Hd]. unfold ModelViewSet.destroy. preserves.
Qed.

Lemma preserves_run_field {A B} (partial : bool) (validate : A -> option B)
    (supplied : option A) : keeps consistent (run_field partial validate supplied).
Proof. unfold run_field. preserves. Qed.

Lemma preserves_ImageField (supplied : option string) :
  keeps consistent (ImageField supplied).
Proof. unfold ImageField. preserves. Qed.

Lemma preserves_UniqueTogetherValidator (instance : option Like.t) (user post : option Z) :
  keeps consistent (LikeSerializer.UniqueTogetherValidator instance user post).
Proof. unfold LikeSerializer.UniqueTogetherValidator. preserves. Qed.

#[local] Hint Resolve preserves_run_field preserves_ImageField
  preserves_UniqueTogetherValidator : preserves.

Lemma preserving_UserViews : preserving UserViews.
Proof.
  split; cbn; intros.
  - preserves.
  - unfold UserSerializer.create. preserves.
  - unfold UserSerializer.update. preserves.
  - preserves.
Qed.

Lemma preserving_BlogViews : preserving BlogViews.
Proof.
  split; cbn; intros.
  - preserves.
  - unfold BlogSerializer.create. preserves.
  - unfold BlogSerializer.update. preserves.
  - preserves.
Qed.

Lemma preserving_LikeViews : preserving LikeViews.
Proof.
  split; cbn; intros.
  - preserves.
  - unfold LikeSerializer.create. preserves.
  - unfold LikeSerializer.update. preserves.
  - preserves.
Qed.

Lemma preserving_CommentViews : preserving CommentViews.
Proof.
  split; cbn; intros.
  - preserves.
  - unfold CommentSerializer.create. preserves.
  - unfold CommentSerializer.update. preserves.
  - preserves.
Qed.

#[local] Hint Resolve preserving_UserViews preserving_BlogViews
  preserving_LikeViews preserving_CommentViews
  preserves_ModelViewSet_update preserves_ModelViewSet_destroy : preserves.

Lemma preserves_BlogViews_like (now : Z) (request : Request.t) (pk : Z) :
  keeps consistent (BlogViews_like now request pk).
Proof. unfold BlogViews_like. preserves. Qed.

Lemma preserves_LikeViews_create (now : Z) (request : Request.t) :
  keeps consistent (LikeViews_create now request).
Proof.
  unfold LikeViews_create. preserves.
  - apply keeps_exists. unfold Like_objects_filter_post_id. preserves.
  - apply preserves_ModelViewSet_create; [auto with preserves|].
    intros v. unfold LikeViews_perform_create. preserves.
    apply (preserves_save LikeViews). auto with preserves.
Qed.

(** The two views that the likes' uniqueness is stated for keep it on their
    own, whatever the rest of the database looks like. *)

Lemma unique_filter_like (keep : Like.t -> bool) (db : DB) :
  likes_unique db -> likes_unique (set_like (filter keep) db).
Proof. apply nodup_keys_filter. Qed.

Lemma unique_Like_objects_create (now user post : Z) :
  keeps likes_unique (Like_objects_create now user post).
Proof.
  intros db Hu. cbv [Like_objects_create bind query].
  destruct (existsb (like_of user post) (like db)) eqn:Hex; [exact Hu|].
  cbn. unfold likes_unique. cbn.
  now apply nodup_keys_append.
Qed.

#[local] Hint Resolve unique_filter_like unique_Like_objects_create : preserves.

Lemma unique_BlogViews_like (now : Z) (request : Request.t) (pk : Z) :
  keeps likes_unique (BlogViews_like now request pk).
Proof.
  unfold BlogViews_like. preserves.
  unfold Like_objects_filter_delete. preserves.
Qed.

Lemma unique_LikeViews_create (now : Z) (request : Request.t) :
  keeps likes_unique (LikeViews_create now request).
Proof.
  unfold LikeViews_create. preserves.
  - apply keeps_exists. unfold Like_objects_filter_post_id. preserves.
  - unfold ModelViewSet.create, LikeViews_perform_create, save.
    cbn [serializer_class LikeViews is_valid create LikeSerializer.serializer].
    unfold LikeSerializer.create. preserves.
Qed.

Lemma dispatch_allow_any (request : Request.t) (handler : M Response.t) (db : DB) :
  dispatch [AllowAny] request handler db =
  match handler db with
  | (inl e, db') => (exception_handler e, db')
  | (inr r, db') => (r, db')
  end.
Proof. reflexivity. Qed.

(** What a valid registration leaves in the validated data: the password
    of the body, trimmed. *)
Lemma UserSerializer_validated_password (data validated_data : Data.t) (db db' : DB) :
  UserSerializer.is_valid None false data db = (inr validated_data, db') ->
  exists raw, Data.password data = Some raw /\
              Data.password validated_data = Some (strip raw).
Proof.
  unfold UserSerializer.is_valid, run_field, and_then, unique_among, CharField.
  cbv [bind query ret raise].
  destruct (Data.username data) as [n|], (Data.password data) as [p|],
           (Data.phone data) as [ph|];
    repeat match goal with
      | |- context [if ?b then _ else _] => destruct b
      end;
    intros H; inversion H; subst; cbn; eauto.
Qed.

Section Properties.

Variable check_password : string -> string -> bool.
Variable for_user : Z -> Z -> string * string.
Variable decode : string -> option Token.t.
Variable mint : Z -> Token.t.

Local Abbreviation api := (serve check_password for_user decode mint).

(** C1.  [POST /api/blog/{pk}/like/] by an authenticated caller on an
    existing post: when the caller already likes the post the like is
    removed (no like of the pair is left) and the answer is 200
    "Like removed"; otherwise exactly one like of (caller, post) is
    appended and the answer is 201 "Post liked". *)
Theorem like_toggles (db : DB) (now caller pk : Z) (data : Data.t) :
  pk_exists Blog.id (blog db) pk = true ->
  let r := api now (blog_like pk) (Request.Build (Authenticated caller) data) db in
  (existsb (like_of caller pk) (like db) = true ->
     fst r = Response.Build (message "Like removed") HTTP_200_OK /\
     like (snd r) = filter (fun l => negb (like_of caller pk l)) (like db) /\
     existsb (like_of caller pk) (like (snd r)) = false) /\
  (existsb (like_of caller pk) (like db) = false ->
     fst r = Response.Build (message "Post liked") HTTP_201_CREATED /\
     like (snd r) = like db ++ [Like.Build (seq_like db) caller pk now] /\
     List.length (filter (like_of caller pk) (like (snd r))) = 1%nat).
Proof.
  intros Hpk r. subst r. cbn [serve].
  rewrite dispatch_authenticated, BlogViews_like_run by exact Hpk.
  split; intros Hex; rewrite Hex; cbn.
  - repeat split. apply existsb_filter_negb.
  - repeat split. rewrite filter_app, (filter_none _ _ Hex). cbn.
    now rewrite like_of_refl.
Qed.

(** C9.  Two toggles in a row by a caller who does not like the post:
    the first answers 201, the second 200, and the table of likes is
    what it was. *)
Theorem like_toggle_twice (db : DB) (now now' caller pk : Z) (data data' : Data.t) :
  pk_exists Blog.id (blog db) pk = true ->
  existsb (like_of caller pk) (like db) = false ->
  let r := api now (blog_like pk) (Request.Build (Authenticated caller) data) db in
  let r' := api now' (blog_like pk) (Request.Build (Authenticated caller) data')
              (snd r) in
  Response.status (fst r) = HTTP_201_CREATED /\
  Response.status (fst r') = HTTP_200_OK /\
  like (snd r') = like db.
Proof.
  intros Hpk Hex r r'. subst r' r. cbn [serve].
  rewrite !dispatch_authenticated. rewrite (BlogViews_like_run now) by exact Hpk.
  rewrite Hex. cbn [fst snd].
  rewrite BlogViews_like_run by exact Hpk.
  cbn [like bump_seq_like set_like].
  rewrite existsb_app. cbn [existsb]. rewrite like_of_refl, orb_true_r. cbn.
  repeat split.
  rewrite filter_app. cbn. rewrite like_of_refl. cbn.
  rewrite app_nil_r. now apply filter_negb_none.
Qed.

(** C3.  [POST /api/like/] by an authenticated caller who already likes
    the post named in the body: the answer is 400 and the database, the
    table of likes included, is untouched; whatever else the body says. *)
Theorem like_create_duplicate_rejected (db : DB) (now caller post : Z) (data : Data.t) :
  Data.post data = Some post ->
  existsb (like_of caller post) (like db) = true ->
  api now like_create (Request.Build (Authenticated caller) data) db =
  (Response.Build (error "You have already liked this post") HTTP_400_BAD_REQUEST, db).
Proof.
  intros Hpost Hex. cbn [serve].
  rewrite dispatch_authenticated.
  cbv [LikeViews_create user_pk Request.user Request.data bind ret exists_
       Like_objects_filter_post_id].
  rewrite Hpost. cbv [Like_objects_filter query].
  rewrite exists_filter, Hex. reflexivity.
Qed.

(** C10.  [POST /api/user/logout/] by an authenticated caller with a
    refresh token that decodes, is of type refresh, has not expired and is
    not blacklisted: the token's [jti] is blacklisted and the answer is
    200.  Nothing relates the token's [user_id] to the caller. *)
Theorem logout_blacklists_any_refresh_token (db : DB) (now caller : Z) (data : Data.t)
    (raw : string) (t : Token.t) :
  Data.refresh data = Some raw ->
  decode raw = Some t ->
  Token.token_type t = "refresh" ->
  now < Token.exp t ->
  existsb (String.eqb (Token.jti t)) (blacklistedtoken db) = false ->
  api now user_logout (Request.Build (Authenticated caller) data) db =
  (Response.Build (message "Logged out successfully") HTTP_200_OK,
   set_blacklistedtoken (fun rows => rows ++ [Token.jti t]) db).
Proof.
  intros Hraw Hdec Hty Hexp Hbl. cbn [serve].
  rewrite dispatch_authenticated.
  cbv [UserViews_logout try_except Request.data bind RefreshToken query blacklist modify ret].
  rewrite Hraw, Hdec, Hbl, Hty.
  replace (Token.exp t <=? now) with false by (symmetry; apply Z.leb_gt; exact Hexp).
  cbn. unfold set_blacklistedtoken. now rewrite Hbl.
Qed.

(** C8.  A post, a comment or a like created by an authenticated caller
    through its collection endpoint: whenever the answer is 201, one row
    was appended to the table, it is the row of the answer, and its
    [author] / [user] is the caller, whatever [author] / [user] the body
    named. *)
Theorem created_rows_belong_to_the_caller (db : DB) (now caller : Z) (data : Data.t) :
  let request := Request.Build (Authenticated caller) data in
  (Response.status (fst (api now blog_create request db)) = HTTP_201_CREATED ->
   exists b,
     fst (api now blog_create request db) = Response.Build (blog_row b) HTTP_201_CREATED /\
     blog (snd (api now blog_create request db)) = blog db ++ [b] /\
     Blog.author b = caller) /\
  (Response.status (fst (api now comment_create request db)) = HTTP_201_CREATED ->
   exists c,
     fst (api now comment_create request db)
       = Response.Build (comment_row c) HTTP_201_CREATED /\
     comment (snd (api now comment_create request db)) = comment db ++ [c] /\
     Comment.user c = caller) /\
  (Response.status (fst (api now like_create request db)) = HTTP_201_CREATED ->
   exists l,
     fst (api now like_create request db) = Response.Build (like_row l) HTTP_201_CREATED /\
     like (snd (api now like_create request db)) = like db ++ [l] /\
     Like.user l = caller).
Proof.
  intros request. subst request. split; [|split].
  - remember (api now blog_create _ db) as r eqn:Hr.
    cbn [serve] in Hr. rewrite dispatch_authenticated in Hr.
    unfold ModelViewSet.create, bind at 1 in Hr.
    cbn [serializer_class BlogViews is_valid BlogSerializer.serializer representation]
      in Hr.
    destruct (BlogSerializer.is_valid None false _ db) as [[e|v] db'] eqn:Hv.
    + subst r. intros H. now apply exception_handler_not_created in H.
    + apply validator_run in Hv; [destruct Hv as [-> _] | apply BlogSerializer_is_valid_validator].
      cbn in Hr. subst r. intros _. eexists. cbn. repeat split.
  - remember (api now comment_create _ db) as r eqn:Hr.
    cbn [serve] in Hr. rewrite dispatch_authenticated in Hr.
    unfold ModelViewSet.create, bind at 1 in Hr.
    cbn [serializer_class CommentViews is_valid CommentSerializer.serializer
         representation] in Hr.
    destruct (CommentSerializer.is_valid None false _ db) as [[e|v] db'] eqn:Hv.
    + subst r. intros H. now apply exception_handler_not_created in H.
    + apply validator_run in Hv; [destruct Hv as [-> _] | apply CommentSerializer_is_valid_validator].
      cbv [CommentViews_perform_create user_pk Request.user bind ret save create
           CommentSerializer.serializer CommentSerializer.create kwargs_user] in Hr.
      cbn [Data.user Data.post Data.comment not_null] in Hr.
      destruct (Data.post v) as [p|]; subst r.
      * intros _. eexists. cbn. repeat split.
      * cbn. intros H. cbv in H. discriminate H.
  - remember (api now like_create _ db) as r eqn:Hr.
    cbn [serve] in Hr. rewrite dispatch_authenticated in Hr.
    cbv [LikeViews_create user_pk Request.user bind ret exists_] in Hr.
    destruct (Like_objects_filter_post_id caller (Data.post (Request.data _)) db)
      as [[e|rows] db'] eqn:Hq.
    + subst r. intros H. now apply exception_handler_not_created in H.
    + assert (db' = db) as ->.
      { revert Hq. unfold Like_objects_filter_post_id. cbn.
        destruct (Data.post data); cbv; congruence. }
      destruct rows as [|row rows]; [|subst r; cbn; intros H; cbv in H; discriminate H].
      unfold ModelViewSet.create, bind at 1 in Hr.
      cbn [serializer_class LikeViews is_valid LikeSerializer.serializer representation]
        in Hr.
      destruct (LikeSerializer.is_valid None false _ db) as [[e|v] db'] eqn:Hv.
      * subst r. intros H. now apply exception_handler_not_created in H.
      * apply validator_run in Hv; [destruct Hv as [-> _] | apply LikeSerializer_is_valid_validator].
        cbv [LikeViews_perform_create user_pk Request.user bind ret save create
             LikeSerializer.serializer LikeSerializer.create kwargs_user] in Hr.
        cbn [Data.user Data.post not_null] in Hr.
        destruct (Data.post v) as [p|]; [|subst r; cbn; intros H; cbv in H; discriminate H].
        cbv [Like_objects_create bind query ret not_null] in Hr.
        destruct (existsb (like_of caller p) (like db));
          [subst r; cbn; intros H; cbv in H; discriminate H|].
        subst r. intros _. eexists. cbn. repeat split.
Qed.

(** C4, as amended.  An authenticated caller and an existing comment.  A
    caller who is not the comment's owner gets 403 from update and from
    delete, and the database is untouched.  The owner's delete answers 204
    and removes the comment; the owner's update answers 200 when the body
    passes the serializer's validation, and 400 with the database
    untouched when it does not. *)
Theorem comment_update_destroy_owner_only (db : DB) (now : Z) (partial : bool)
    (caller pk : Z) (data : Data.t) (c : Comment.t) :
  find (fun r => Comment.id r =? pk) (comment db) = Some c ->
  let request := Request.Build (Authenticated caller) data in
  (Comment.user c <> caller ->
   api now (comment_update partial pk) request db
     = (Response.Build (error "Not authorized") HTTP_403_FORBIDDEN, db) /\
   api now (comment_destroy pk) request db
     = (Response.Build (error "Not authorized") HTTP_403_FORBIDDEN, db)) /\
  (Comment.user c = caller ->
   api now (comment_destroy pk) request db
     = (Response.Build no_content HTTP_204_NO_CONTENT,
        set_comment (filter (fun r => negb (Comment.id r =? Comment.id c))) db) /\
   match CommentSerializer.is_valid (Some c) partial data db with
   | (inr _, _) =>
       Response.status (fst (api now (comment_update partial pk) request db))
         = HTTP_200_OK
   | (inl _, _) =>
       api now (comment_update partial pk) request db
         = (Response.Build errors HTTP_400_BAD_REQUEST, db)
   end).
Proof.
  intros Hc request. subst request. cbn [serve]. rewrite !dispatch_authenticated.
  split.
  - intros Hne.
    rewrite (CommentViews_update_stranger _ _ _ _ _ _ _ Hc Hne).
    rewrite (CommentViews_destroy_stranger _ _ _ _ _ Hc Hne).
    split; reflexivity.
  - intros <-.
    rewrite (CommentViews_destroy_owner _ _ _ _ Hc).
    rewrite (CommentViews_update_owner _ _ _ _ _ _ Hc).
    split; [reflexivity|].
    destruct (CommentSerializer.is_valid (Some c) partial data db) as [[e|v] db'];
      reflexivity.
Qed.

(** C6, as amended.  An update of an existing comment by its owner.  When
    the answer is 200, the row keeps its [id], its text is the text of the
    body, trimmed (the old text when a partial update leaves it out), and
    its [time] is the time of the update; no other row and no other table
    changes.  When the answer is not 200 the database is untouched.
    Nothing is said here of [user] and [post]. *)
Theorem comment_update_by_owner_effect (db : DB) (now : Z) (partial : bool)
    (pk : Z) (data : Data.t) (c : Comment.t) :
  find (fun r => Comment.id r =? pk) (comment db) = Some c ->
  let r := api now (comment_update partial pk)
             (Request.Build (Authenticated (Comment.user c)) data) db in
  (Response.status (fst r) = HTTP_200_OK ->
   exists c',
     fst r = Response.Build (comment_row c') HTTP_200_OK /\
     Comment.id c' = Comment.id c /\
     Comment.comment c'
       = value_or (option_map strip (Data.comment data)) (Comment.comment c) /\
     Comment.time c' = now /\
     comment (snd r)
       = map (fun row => if Comment.id row =? Comment.id c then c' else row) (comment db) /\
     customuser (snd r) = customuser db /\ blog (snd r) = blog db /\
     like (snd r) = like db /\ blacklistedtoken (snd r) = blacklistedtoken db) /\
  (Response.status (fst r) <> HTTP_200_OK -> snd r = db).
Proof.
  intros Hc r. subst r. cbn [serve]. rewrite dispatch_authenticated.
  rewrite (CommentViews_update_owner _ _ _ _ _ _ Hc).
  destruct (CommentSerializer.is_valid (Some c) partial data db) as [[e|v] db'] eqn:Hv.
  - split; [intros H; cbv in H; discriminate H | reflexivity].
  - destruct (CommentSerializer_validated_data _ _ _ _ _ _ Hv) as [_ [_ Ht]].
    split; [intros _ | intros H; now contradiction H].
    exists (updated_comment now c v). unfold replace_comment. cbn.
    rewrite Ht. repeat split.
Qed.

(** ** Reachable states *)

Lemma serve_consistent (now : Z) (call : Call) (request : Request.t) (db : DB) :
  consistent db -> consistent (snd (api now call request db)).
Proof.
  intros H. destruct call; cbn [serve]; apply keeps_dispatch; trivial.
  - apply preserves_ModelViewSet_create; [auto with preserves|].
    intros v. unfold UserViews_perform_create.
    apply (preserves_save UserViews). auto with preserves.
  - auto with preserves.
  - auto with preserves.
  - unfold UserViews_login, authenticate. preserves.
  - unfold UserViews_logout, RefreshToken, blacklist. preserves.
  - apply preserves_ModelViewSet_create; [auto with preserves|].
    intros v. unfold BlogViews_perform_create. preserves.
    apply (preserves_save BlogViews). auto with preserves.
  - auto with preserves.
  - auto with preserves.
  - unfold BlogViews_comments, Comment_objects_filter. preserves.
  - unfold BlogViews_likes, Like_objects_filter_post. preserves.
  - apply preserves_BlogViews_like.
  - apply preserves_ModelViewSet_create; [auto with preserves|].
    intros v. unfold CommentViews_perform_create. preserves.
    apply (preserves_save CommentViews). auto with preserves.
  - unfold CommentViews_update. preserves.
  - unfold CommentViews_destroy. preserves.
  - apply preserves_LikeViews_create.
  - auto with preserves.
  - auto with preserves.
Qed.

Lemma empty_db_consistent : consistent empty_db.
Proof. repeat split; cbn; constructor. Qed.

Lemma reachable_consistent (db : DB) :
  reachable check_password for_user decode mint db -> consistent db.
Proof.
  induction 1 as [|db now call request _ IH].
  - apply empty_db_consistent.
  - now apply serve_consistent.
Qed.

(** C2.  In every state the server can reach no two likes have the same
    (user, post); and from any state where that holds, the like toggle and
    the direct creation of a like lead to a state where it holds. *)
Theorem likes_unique_invariant (db : DB) :
  (reachable check_password for_user decode mint db -> likes_unique db) /\
  (likes_unique db ->
   forall now request pk, likes_unique (snd (api now (blog_like pk) request db))) /\
  (likes_unique db ->
   forall now request, likes_unique (snd (api now like_create request db))).
Proof.
  split; [|split].
  - intros H. apply reachable_consistent in H. apply H.
  - intros H now request pk. cbn [serve].
    apply keeps_dispatch; [apply unique_BlogViews_like | exact H].
  - intros H now request. cbn [serve].
    apply keeps_dispatch; [apply unique_LikeViews_create | exact H].
Qed.

(** C7, as amended.  [GET /api/blog/{pk}/comments/] on an existing post.
    An authenticated caller is answered 200 with the comments whose [post]
    is the post, each of them once and no other row; the view asks the
    database for no order, and none is stated.  An anonymous caller is
    answered 401.  Nothing is written in either case. *)
Theorem comments_of_post_listed (db : DB) (now pk : Z) (data : Data.t) :
  pk_exists Blog.id (blog db) pk = true ->
  (forall caller, exists comments,
     api now (blog_comments pk) (Request.Build (Authenticated caller) data) db
       = (Response.Build (comment_rows comments) HTTP_200_OK, db) /\
     Permutation comments (filter (fun c => Comment.post c =? pk) (comment db)) /\
     (forall c, In c comments <-> In c (comment db) /\ Comment.post c = pk)) /\
  api now (blog_comments pk) (Request.Build AnonymousUser data) db
    = (Response.Build (detail "Authentication credentials were not provided.")
                      HTTP_401_UNAUTHORIZED, db).
Proof.
  intros Hpk. split; [|reflexivity].
  intros caller.
  destruct (get_object_found blog Blog.id pk db Hpk) as [b [Hget [Hb _]]].
  exists (filter (fun c => Comment.post c =? pk) (comment db)).
  split; [|split].
  - cbn [serve]. rewrite dispatch_authenticated. unfold BlogViews_comments.
    rewrite (bind_run _ _ _ _ _ Hget). rewrite Hb. reflexivity.
  - apply Permutation_refl.
  - intros c. rewrite filter_In, Z.eqb_eq. reflexivity.
Qed.

(** C5 (the code departs from it).  [POST /api/user/]: whenever an account
    is created, the [password] column of the new row is the password of the
    body itself, trimmed like every [CharField], and not a hash of it: the
    serializer's [create] hands the validated data to
    [CustomUser.objects.create]. *)
Theorem registration_stores_the_raw_password (db : DB) (now : Z) (request : Request.t) :
  Response.status (fst (api now user_create request db)) = HTTP_201_CREATED ->
  exists u raw,
    Data.password (Request.data request) = Some raw /\
    customuser (snd (api now user_create request db)) = customuser db ++ [u] /\
    CustomUser.password u = strip raw.
Proof.
  remember (api now user_create request db) as r eqn:Hr.
  cbn [serve UserViews_get_permissions existsb String.eqb] in Hr.
  change (UserViews_get_permissions "create") with [AllowAny] in Hr.
  rewrite dispatch_allow_any in Hr.
  unfold ModelViewSet.create, bind at 1 in Hr.
  cbn [serializer_class UserViews is_valid UserSerializer.serializer
       representation] in Hr.
  destruct (UserSerializer.is_valid None false _ db) as [[e|v] db'] eqn:Hv.
  - subst r. intros H. now apply exception_handler_not_created in H.
  - destruct (UserSerializer_validated_password _ _ _ _ Hv) as [raw [Hraw Hpw]].
    apply validator_run in Hv; [destruct Hv as [-> _]
                               | apply UserSerializer_is_valid_validator].
    cbv [UserViews_perform_create save create UserSerializer.serializer no_kwargs
         UserSerializer.create CustomUser_objects_create bind query ret] in Hr.
    rewrite Hpw in Hr. cbn [value_or] in Hr.
    destruct (existsb _ (customuser db)).
    + subst r. cbn. intros H. cbv in H. discriminate H.
    + subst r. intros _. eexists. exists raw. cbn. repeat split. exact Hraw.
Qed.

End Properties.

(** * The example world, run *)

Lemma registered_reachable :
  reachable Demo.check_password Demo.for_user Demo.decode Demo.mint Demo.registered.
Proof. unfold Demo.registered, Demo.serve. do 2 apply reachable_serve. constructor. Defined.

Lemma published_reachable :
  reachable Demo.check_password Demo.for_user Demo.decode Demo.mint Demo.published.
Proof.
  unfold Demo.published, Demo.serve. do 2 apply reachable_serve.
  exact registered_reachable.
Defined.

Lemma commented_reachable :
  reachable Demo.check_password Demo.for_user Demo.decode Demo.mint Demo.commented.
Proof.
  unfold Demo.commented, Demo.serve. apply reachable_serve.
  exact published_reachable.
Defined.

Lemma liked_reachable :
  reachable Demo.check_password Demo.for_user Demo.decode Demo.mint Demo.liked.
Proof.
  unfold Demo.liked, Demo.serve. apply reachable_serve. exact commented_reachable.
Defined.

(** C1 at work: bob, who likes post 1, toggles it off; alice, who does
    not, toggles it on. *)
Lemma like_toggles_witness :
  pk_exists Blog.id (blog Demo.liked) 1 = true /\
  like Demo.liked = [Like.Build 1 2 1 40] /\
  (fst (Demo.serve 41 (blog_like 1) (Demo.as_user 2 Data.empty) Demo.liked)
     = Response.Build (message "Like removed") HTTP_200_OK /\
   like (snd (Demo.serve 41 (blog_like 1) (Demo.as_user 2 Data.empty)
                Demo.liked)) = []) /\
  (fst (Demo.serve 41 (blog_like 1) (Demo.as_user 1 Data.empty) Demo.liked)
     = Response.Build (message "Post liked") HTTP_201_CREATED /\
   like (snd (Demo.serve 41 (blog_like 1) (Demo.as_user 1 Data.empty)
                Demo.liked)) = [Like.Build 1 2 1 40; Like.Build 2 1 1 41]).
Proof.
  assert (Hpk : pk_exists Blog.id (blog Demo.liked) 1 = true)
    by (vm_compute; reflexivity).
  split; [exact Hpk|]. split; [vm_compute; reflexivity|]. split.
  - destruct (like_toggles Demo.check_password Demo.for_user Demo.decode Demo.mint
                Demo.liked 41 2 1 Data.empty Hpk) as [Hremoved _].
    destruct Hremoved as [Hresponse [Hlikes _]]; [vm_compute; reflexivity|].
    split; [exact Hresponse | exact Hlikes].
  - destruct (like_toggles Demo.check_password Demo.for_user Demo.decode Demo.mint
                Demo.liked 41 1 1 Data.empty Hpk) as [_ Hadded].
    destruct Hadded as [Hresponse [Hlikes _]]; [vm_compute; reflexivity|].
    split; [exact Hresponse | exact Hlikes].
Defined.

(** C9 at work: bob toggles post 1 twice from a state without likes. *)
Lemma like_toggle_twice_witness :
  pk_exists Blog.id (blog Demo.commented) 1 = true /\
  existsb (like_of 2 1) (like Demo.commented) = false /\
  like (snd (Demo.serve 41 (blog_like 1) (Demo.as_user 2 Data.empty)
               (snd (Demo.serve 40 (blog_like 1) (Demo.as_user 2 Data.empty)
                       Demo.commented))))
    = like Demo.commented.
Proof.
  assert (Hpk : pk_exists Blog.id (blog Demo.commented) 1 = true)
    by (vm_compute; reflexivity).
  assert (Hex : existsb (like_of 2 1) (like Demo.commented) = false)
    by (vm_compute; reflexivity).
  split; [exact Hpk|]. split; [exact Hex|].
  apply (like_toggle_twice Demo.check_password Demo.for_user Demo.decode Demo.mint
           Demo.commented 40 41 2 1 Data.empty Data.empty Hpk Hex).
Defined.

(** C3 at work: bob, who likes post 1, posts a like of post 1 again; the
    body names alice as the user. *)
Lemma like_create_duplicate_rejected_witness :
  Data.post (Demo.like_body 1 1) = Some 1 /\
  existsb (like_of 2 1) (like Demo.liked) = true /\
  Demo.serve 50 like_create (Demo.as_user 2 (Demo.like_body 1 1)) Demo.liked
    = (Response.Build (error "You have already liked this post") HTTP_400_BAD_REQUEST,
       Demo.liked).
Proof.
  assert (Hex : existsb (like_of 2 1) (like Demo.liked) = true)
    by (vm_compute; reflexivity).
  split; [reflexivity|]. split; [exact Hex|].
  apply (like_create_duplicate_rejected Demo.check_password Demo.for_user
           Demo.decode Demo.mint Demo.liked 50 2 1 (Demo.like_body 1 1) eq_refl Hex).
Defined.

(** C10 at work: alice logs out with bob's refresh token. *)
Lemma logout_blacklists_any_refresh_token_witness :
  Demo.decode "refresh-of-2" = Some (Token.Build "refresh" 1000 "jti-2" 2) /\
  Demo.serve 50 user_logout (Demo.as_user 1 (Demo.logout_body "refresh-of-2"))
                Demo.liked
    = (Response.Build (message "Logged out successfully") HTTP_200_OK,
       set_blacklistedtoken (fun rows => rows ++ ["jti-2"]) Demo.liked).
Proof.
  split; [reflexivity|].
  apply (logout_blacklists_any_refresh_token Demo.check_password Demo.for_user
           Demo.decode Demo.mint Demo.liked 50 1 (Demo.logout_body "refresh-of-2")
           "refresh-of-2" (Token.Build "refresh" 1000 "jti-2" 2)).
  - reflexivity.
  - reflexivity.
  - reflexivity.
  - cbn. lia.
  - vm_compute. reflexivity.
Defined.

(** C8 at work: bob creates a post, a comment and a like with a body that
    names alice as their author and user. *)
Lemma created_rows_belong_to_the_caller_witness :
  (exists b,
     blog (snd (Demo.serve 50 blog_create (Demo.as_user 2 Demo.body_naming_alice)
                  Demo.commented)) = blog Demo.commented ++ [b] /\
     Blog.author b = 2) /\
  (exists c,
     comment (snd (Demo.serve 50 comment_create (Demo.as_user 2 Demo.body_naming_alice)
                     Demo.commented)) = comment Demo.commented ++ [c] /\
     Comment.user c = 2) /\
  (exists l,
     like (snd (Demo.serve 50 like_create (Demo.as_user 2 Demo.body_naming_alice)
                  Demo.commented)) = like Demo.commented ++ [l] /\
     Like.user l = 2).
Proof.
  destruct (created_rows_belong_to_the_caller Demo.check_password Demo.for_user
              Demo.decode Demo.mint Demo.commented 50 2 Demo.body_naming_alice)
    as [Hblog [Hcomment Hlike]].
  split; [|split].
  - destruct Hblog as [b [_ H]]; [vm_compute; reflexivity|]. now exists b.
  - destruct Hcomment as [c [_ H]]; [vm_compute; reflexivity|]. now exists c.
  - destruct Hlike as [l [_ H]]; [vm_compute; reflexivity|]. now exists l.
Defined.

(** C4: the owner's update is refused when the text is one character over
    the column's [max_length=100]. *)
Lemma comment_update_by_owner_refused :
  comment Demo.commented = [Comment.Build 1 1 1 "hi" 30] /\
  String.length Demo.long_text = 101%nat /\
  Demo.serve 50 (comment_update false 1)
                (Demo.as_user 1 (Demo.comment_body 1 1 Demo.long_text))
                Demo.commented
    = (Response.Build errors HTTP_400_BAD_REQUEST, Demo.commented).
Proof. repeat split; vm_compute; reflexivity. Qed.

(** C4 as amended, at work on alice's comment: bob is refused, alice
    deletes it. *)
Lemma comment_update_destroy_owner_only_witness :
  find (fun r => Comment.id r =? 1) (comment Demo.commented)
    = Some (Comment.Build 1 1 1 "hi" 30) /\
  Demo.serve 50 (comment_update false 1)
                (Demo.as_user 2 (Demo.comment_body 2 1 "mine"))
                Demo.commented
    = (Response.Build (error "Not authorized") HTTP_403_FORBIDDEN, Demo.commented) /\
  Demo.serve 50 (comment_destroy 1) (Demo.as_user 2 Data.empty) Demo.commented
    = (Response.Build (error "Not authorized") HTTP_403_FORBIDDEN, Demo.commented) /\
  comment (snd (Demo.serve 50 (comment_destroy 1) (Demo.as_user 1 Data.empty)
                  Demo.commented)) = [].
Proof.
  assert (Hc : find (fun r => Comment.id r =? 1) (comment Demo.commented)
               = Some (Comment.Build 1 1 1 "hi" 30)) by (vm_compute; reflexivity).
  split; [exact Hc|].
  destruct (comment_update_destroy_owner_only Demo.check_password Demo.for_user
              Demo.decode Demo.mint Demo.commented 50 false 2 1
              (Demo.comment_body 2 1 "mine") _ Hc) as [[Hupdate _] _];
    [cbn; lia|].
  destruct (comment_update_destroy_owner_only Demo.check_password Demo.for_user
              Demo.decode Demo.mint Demo.commented 50 false 2 1 Data.empty _ Hc)
    as [[_ Hdestroy] _]; [cbn; lia|].
  destruct (comment_update_destroy_owner_only Demo.check_password Demo.for_user
              Demo.decode Demo.mint Demo.commented 50 false 1 1 Data.empty _ Hc)
    as [_ [Hgone _]]; [reflexivity|].
  split; [exact Hupdate|]. split; [exact Hdestroy|].
  unfold Demo.serve, Demo.as_user. rewrite Hgone. vm_compute. reflexivity.
Defined.

(** C6: the owner's update with the comment's own user and post restamps
    the comment: [time] is [auto_now]. *)
Lemma comment_update_restamps :
  comment Demo.commented = [Comment.Build 1 1 1 "hi" 30] /\
  Response.status
    (fst (Demo.serve 50 (comment_update false 1)
            (Demo.as_user 1 (Demo.comment_body 1 1 "hi")) Demo.commented))
    = HTTP_200_OK /\
  comment (snd (Demo.serve 50 (comment_update false 1)
                  (Demo.as_user 1 (Demo.comment_body 1 1 "hi")) Demo.commented))
    = [Comment.Build 1 1 1 "hi" 50].
Proof. repeat split; vm_compute; reflexivity. Qed.

(** The serializer also leaves [user] and [post] writable on an update, so
    the owner's update can hand the comment to another user and move it to
    another post; on the create path [perform_create] pins [user] to the
    caller. *)
Example comment_update_rewrites_user_and_post :
  comment Demo.commented = [Comment.Build 1 1 1 "hi" 30] /\
  comment (snd (Demo.serve 50 (comment_update false 1)
                  (Demo.as_user 1 (Demo.comment_body 2 2 "hi")) Demo.commented))
    = [Comment.Build 1 2 2 "hi" 50].
Proof. repeat split; vm_compute; reflexivity. Qed.

(** C6 as amended, at work: alice rewrites the text of her comment. *)
Lemma comment_update_by_owner_effect_witness :
  find (fun r => Comment.id r =? 1) (comment Demo.commented)
    = Some (Comment.Build 1 1 1 "hi" 30) /\
  exists c',
    fst (Demo.serve 50 (comment_update false 1)
           (Demo.as_user 1 (Demo.comment_body 1 1 " hello ")) Demo.commented)
      = Response.Build (comment_row c') HTTP_200_OK /\
    Comment.id c' = 1 /\ Comment.comment c' = "hello" /\ Comment.time c' = 50.
Proof.
  assert (Hc : find (fun r => Comment.id r =? 1) (comment Demo.commented)
               = Some (Comment.Build 1 1 1 "hi" 30)) by (vm_compute; reflexivity).
  split; [exact Hc|].
  destruct (comment_update_by_owner_effect Demo.check_password Demo.for_user
              Demo.decode Demo.mint Demo.commented 50 false 1
              (Demo.comment_body 1 1 " hello ") _ Hc) as [Hok _].
  destruct Hok as [c' [Hr [Hid [Htext [Htime _]]]]]; [vm_compute; reflexivity|].
  exists c'. unfold Demo.serve, Demo.as_user. cbn [Comment.user] in Hr. rewrite Hr.
  repeat split; assumption.
Defined.

(** C2 at work: the state after bob's like. *)
Lemma likes_unique_invariant_witness :
  likes_unique Demo.liked /\
  likes_unique (snd (Demo.serve 50 like_create
                       (Demo.as_user 1 (Demo.like_body 1 2)) Demo.liked)).
Proof.
  destruct (likes_unique_invariant Demo.check_password Demo.for_user Demo.decode Demo.mint
              Demo.liked) as [Hreach [_ Hcreate]].
  pose proof (Hreach liked_reachable) as Hunique.
  split; [exact Hunique | apply (Hcreate Hunique)].
Defined.

(** C7: an anonymous caller gets no comments of an existing post. *)
Lemma comments_refused_to_anonymous :
  pk_exists Blog.id (blog Demo.commented) 1 = true /\
  comment Demo.commented = [Comment.Build 1 1 1 "hi" 30] /\
  Demo.serve 50 (blog_comments 1) (Demo.anonymous Data.empty) Demo.commented
    = (Response.Build (detail "Authentication credentials were not provided.")
                      HTTP_401_UNAUTHORIZED,
       Demo.commented).
Proof. repeat split; vm_compute; reflexivity. Qed.

(** C7 as amended, at work on three comments: bob is shown the two of
    post 1 and not the one of post 2; an anonymous caller is refused. *)
Lemma comments_of_post_listed_witness :
  pk_exists Blog.id (blog Demo.discussed) 1 = true /\
  comment Demo.discussed = [Comment.Build 1 1 1 "hi" 30; Comment.Build 2 2 2 "nice" 31;
                            Comment.Build 3 2 1 "me too" 32] /\
  (exists comments,
     Demo.serve 50 (blog_comments 1) (Demo.as_user 2 Data.empty) Demo.discussed
       = (Response.Build (comment_rows comments) HTTP_200_OK, Demo.discussed) /\
     Permutation comments [Comment.Build 1 1 1 "hi" 30; Comment.Build 3 2 1 "me too" 32]) /\
  Response.status
    (fst (Demo.serve 50 (blog_comments 1) (Demo.anonymous Data.empty) Demo.discussed))
    = HTTP_401_UNAUTHORIZED.
Proof.
  assert (Hpk : pk_exists Blog.id (blog Demo.discussed) 1 = true)
    by (vm_compute; reflexivity).
  split; [exact Hpk|]. split; [vm_compute; reflexivity|].
  destruct (comments_of_post_listed Demo.check_password Demo.for_user
              Demo.decode Demo.mint Demo.discussed 50 1 Data.empty Hpk)
    as [Hauth Hanon].
  split.
  - destruct (Hauth 2) as [comments [Hresponse [Hrows _]]].
    exists comments. split; [exact Hresponse | exact Hrows].
  - unfold Demo.serve, Demo.anonymous. rewrite Hanon. reflexivity.
Defined.

(** C5 at work: alice registers with the password "secret", and the
    row's [password] is "secret". *)
Lemma registration_stores_the_raw_password_witness :
  exists u,
    customuser (snd (Demo.serve 10 user_create
                       (Demo.anonymous (Demo.registration "alice" "secret" "111"))
                       empty_db)) = [u] /\
    CustomUser.password u = "secret".
Proof.
  destruct (registration_stores_the_raw_password Demo.check_password Demo.for_user
              Demo.decode Demo.mint empty_db 10
              (Demo.anonymous (Demo.registration "alice" "secret" "111")))
    as [u [raw [Hraw [Hrows Hpassword]]]]; [vm_compute; reflexivity|].
  exists u. split; [exact Hrows|].
  cbn in Hraw. injection Hraw as <-. exact Hpassword.
Defined.

(** The login view checks the password against the stored credential as
    a hash: with the toy hasher, alice cannot log in with the password she
    registered. *)
Example registered_user_cannot_log_in :
  Demo.serve 12 user_login
                (Demo.anonymous (Demo.registration "alice" "secret" "111"))
                Demo.registered
  = (Response.Build (error "Invalid credentials") HTTP_401_UNAUTHORIZED,
     Demo.registered).
Proof. vm_compute. reflexivity. Qed.

(** * Further properties of the views *)

Lemma get_object_missing {A} (table : DB -> list A) (id : A -> Z) (pk : Z) (db : DB) :
  pk_exists id (table db) pk = false ->
  get_object table id pk db = (inl Http404, db).
Proof.
  unfold get_object, bind, query, pk_exists. intros H.
  destruct (find _ _) eqn:Hf; [|reflexivity].
  apply find_some in Hf. destruct Hf as [Hin Hid].
  assert (existsb (fun r => id r =? pk) (table db) = true)
    by (apply existsb_exists; eauto).
  congruence.
Qed.

Lemma bind_raise {A B} (m : M A) (k : A -> M B) (db db' : DB) (e : Exception) :
  m db = (inl e, db') -> bind m k db = (inl e, db').
Proof. intros H. unfold bind. now rewrite H. Qed.

Section Access.

Variable check_password : string -> string -> bool.
Variable for_user : Z -> Z -> string * string.
Variable decode : string -> option Token.t.
Variable mint : Z -> Token.t.

Local Abbreviation api := (serve check_password for_user decode mint).

(** X1.  Of the calls of [Call] (every endpoint that writes, and the
    comments and the likes of a post), an anonymous caller is served
    registration and login only: each of the others is answered 401 before
    its view runs, and the database is untouched.  The generic [list] and
    [retrieve] are not calls of [Call], and nothing is said of them here
    ([BlogViews.get_permissions] opens these two to everyone). *)
Theorem anonymous_caller_refused (now : Z) (call : Call) (data : Data.t) (db : DB) :
  call <> user_create -> call <> user_login ->
  api now call (Request.Build AnonymousUser data) db
  = (Response.Build (detail "Authentication credentials were not provided.")
                    HTTP_401_UNAUTHORIZED, db).
Proof.
  intros Hcreate Hlogin.
  destruct call as [|[]| | | | |[]| | | | | |[]| | |[]| ];
    try contradiction; reflexivity.
Qed.

(** X2.  [POST /api/user/login/] leaves the users, the posts, the likes,
    the comments and the blacklist as they are.  It answers 200 only with
    the tokens, the id and the username of a row whose username is the
    body's and whose stored credential the hasher accepts for the body's
    password; every other request is answered 401 "Invalid credentials". *)
Theorem login_sound (now : Z) (request : Request.t) (db : DB) :
  (customuser (snd (api now user_login request db)) = customuser db /\
   blog (snd (api now user_login request db)) = blog db /\
   like (snd (api now user_login request db)) = like db /\
   comment (snd (api now user_login request db)) = comment db /\
   blacklistedtoken (snd (api now user_login request db)) = blacklistedtoken db) /\
  (Response.status (fst (api now user_login request db)) = HTTP_200_OK ->
   exists u name raw,
     Data.username (Request.data request) = Some name /\
     Data.password (Request.data request) = Some raw /\
     In u (customuser db) /\
     CustomUser.username u = name /\
     check_password raw (CustomUser.password u) = true /\
     fst (api now user_login request db)
       = Response.Build (tokens (fst (for_user now (CustomUser.id u)))
                                (snd (for_user now (CustomUser.id u)))
                                (CustomUser.id u) (CustomUser.username u))
                        HTTP_200_OK) /\
  (Response.status (fst (api now user_login request db)) <> HTTP_200_OK ->
   fst (api now user_login request db)
     = Response.Build (error "Invalid credentials") HTTP_401_UNAUTHORIZED).
Proof.
  remember (api now user_login request db) as r eqn:Hr.
  cbn [serve] in Hr. change (UserViews_get_permissions "login") with [AllowAny] in Hr.
  rewrite dispatch_allow_any in Hr.
  cbv [UserViews_login authenticate bind query ret] in Hr.
  destruct (Data.username (Request.data request)) as [name|];
    [destruct (Data.password (Request.data request)) as [raw|]|];
    [destruct (find _ (customuser db)) as [u|] eqn:Hf;
       [destruct (check_password raw (CustomUser.password u)) eqn:Hcheck|]| |];
    subst r; cbn [fst snd Response.status];
    (split; [now repeat split|]).
  - apply find_some in Hf. destruct Hf as [Hin Hname].
    apply String.eqb_eq in Hname.
    split; [intros _ | intros H; now contradiction H].
    exists u, name, raw. repeat split; trivial.
  - split; [intros H; cbv in H; discriminate H | reflexivity].
  - split; [intros H; cbv in H; discriminate H | reflexivity].
  - split; [intros H; cbv in H; discriminate H | reflexivity].
  - split; [intros H; cbv in H; discriminate H | reflexivity].
Qed.

(** X7.  A detail view of a post or of a comment that does not exist: an
    authenticated caller is answered 404 by [get_object], before the view
    does anything, and the database is untouched. *)
Theorem missing_object_is_404 (now : Z) (partial : bool) (caller pk : Z) (data : Data.t)
    (db : DB) :
  let request := Request.Build (Authenticated caller) data in
  let not_found := (Response.Build (detail "Not found.") HTTP_404_NOT_FOUND, db) in
  (pk_exists Blog.id (blog db) pk = false ->
   api now (blog_comments pk) request db = not_found /\
   api now (blog_likes pk) request db = not_found /\
   api now (blog_like pk) request db = not_found /\
   api now (blog_update partial pk) request db = not_found /\
   api now (blog_destroy pk) request db = not_found) /\
  (pk_exists Comment.id (comment db) pk = false ->
   api now (comment_update partial pk) request db = not_found /\
   api now (comment_destroy pk) request db = not_found).
Proof.
  intros request not_found. subst request not_found. cbn [serve].
  rewrite !dispatch_authenticated.
  split; intros Hpk.
  - pose proof (get_object_missing blog Blog.id pk db Hpk) as Hget.
    unfold BlogViews_comments, BlogViews_likes, BlogViews_like,
      ModelViewSet.update, ModelViewSet.destroy.
    cbn [queryset pk_of BlogViews].
    rewrite !(bind_raise _ _ _ _ _ Hget). repeat split.
  - pose proof (get_object_missing comment Comment.id pk db Hpk) as Hget.
    unfold CommentViews_update, CommentViews_destroy.
    rewrite !(bind_raise _ _ _ _ _ Hget). repeat split.
Qed.

End Access.

(** ** The blacklist of refresh tokens *)

Definition blacklisted (jti : string) (db : DB) : Prop := In jti (blacklistedtoken db).

Lemma blacklisted_existsb (jti : string) (db : DB) :
  blacklisted jti db -> existsb (String.eqb jti) (blacklistedtoken db) = true.
Proof.
  intros H. apply existsb_exists. exists jti. split; [exact H | apply String.eqb_refl].
Qed.

Lemma blacklisted_other_tables (jti : string) (db db' : DB) :
  blacklistedtoken db' = blacklistedtoken db -> blacklisted jti db -> blacklisted jti db'.
Proof. unfold blacklisted. now intros ->. Qed.

#[local] Hint Extern 2 (blacklisted _ _) =>
  eapply blacklisted_other_tables; [reflexivity | eassumption] : preserves.

(** Unfold the views, the serializers' [create] and [update] and the ORM
    calls down to the monad's primitives. *)
Ltac unfold_views :=
  cbv [ModelViewSet.create ModelViewSet.update ModelViewSet.destroy
       UserViews BlogViews CommentViews LikeViews
       queryset pk_of serializer_class delete is_valid create update representation
       UserSerializer.serializer BlogSerializer.serializer
       LikeSerializer.serializer CommentSerializer.serializer
       UserSerializer.create UserSerializer.update
       BlogSerializer.create BlogSerializer.update
       LikeSerializer.create LikeSerializer.update
       CommentSerializer.create CommentSerializer.update
       save no_kwargs
       UserViews_perform_create BlogViews_perform_create
       CommentViews_perform_create LikeViews_perform_create
       UserViews_login UserViews_logout authenticate RefreshToken blacklist
       BlogViews_comments BlogViews_likes BlogViews_like
       CommentViews_update CommentViews_destroy LikeViews_create
       Like_objects_filter_post_id
       Like_objects_filter Like_objects_filter_delete Like_objects_filter_post
       Like_objects_create Like_save Like_delete
       Comment_objects_filter Comment_objects_create Comment_save Comment_delete
       Blog_objects_create Blog_save Blog_delete
       CustomUser_objects_create CustomUser_save CustomUser_delete
       exists_ get_object user_pk not_null].

Section Blacklist.

Variable check_password : string -> string -> bool.
Variable for_user : Z -> Z -> string * string.
Variable decode : string -> option Token.t.
Variable mint : Z -> Token.t.

Local Abbreviation api := (serve check_password for_user decode mint).

Lemma serve_keeps_blacklisted (jti : string) (now : Z) (call : Call)
    (request : Request.t) (db : DB) :
  blacklisted jti db -> blacklisted jti (snd (api now call request db)).
Proof.
  intros H. destruct call; cbn [serve]; apply keeps_dispatch; trivial;
    unfold_views; preserves.
  apply keeps_modify. unfold blacklisted. cbn. intros db' Hin.
  destruct (existsb _ (blacklistedtoken db')); [assumption | apply in_or_app; now left].
Qed.

(** The states the server can get to from a given state. *)
Inductive reachable_from (db : DB) : DB -> Prop :=
| reachable_from_here : reachable_from db db
| reachable_from_serve db' now call request :
    reachable_from db db' -> reachable_from db (snd (api now call request db')).

Lemma reachable_from_keeps_blacklisted (jti : string) (db db' : DB) :
  reachable_from db db' -> blacklisted jti db -> blacklisted jti db'.
Proof.
  induction 1 as [|db' now call request _ IH]; intros H; [exact H|].
  apply serve_keeps_blacklisted. now apply IH.
Qed.

Lemma logout_run (now caller : Z) (data : Data.t) (db : DB) :
  api now user_logout (Request.Build (Authenticated caller) data) db =
  match Data.refresh data with
  | None =>
      (Response.Build (message "Logged out successfully") HTTP_200_OK,
       set_blacklistedtoken
         (fun rows => if existsb (String.eqb (Token.jti (mint now))) rows then rows
                      else rows ++ [Token.jti (mint now)]) db)
  | Some raw =>
      match decode raw with
      | None => (Response.Build (error (str TokenError)) HTTP_400_BAD_REQUEST, db)
      | Some t =>
          if (Token.exp t <=? now)
             || existsb (String.eqb (Token.jti t)) (blacklistedtoken db)
             || negb (Token.token_type t =? "refresh")%string
          then (Response.Build (error (str TokenError)) HTTP_400_BAD_REQUEST, db)
          else (Response.Build (message "Logged out successfully") HTTP_200_OK,
                set_blacklistedtoken (fun rows => rows ++ [Token.jti t]) db)
      end
  end.
Proof.
  cbn [serve]. rewrite dispatch_authenticated.
  cbv [UserViews_logout try_except Request.data bind RefreshToken query blacklist modify
       ret raise].
  destruct (Data.refresh data) as [raw|]; [|reflexivity].
  destruct (decode raw) as [t|]; [|reflexivity].
  destruct (Token.exp t <=? now); [reflexivity|].
  destruct (existsb _ (blacklistedtoken db)) eqn:Hb; [reflexivity|].
  destruct (Token.token_type t =? "refresh")%string; [|reflexivity].
  cbn. unfold set_blacklistedtoken. now rewrite Hb.
Qed.

(** X3.  [POST /api/user/logout/] with a body whose [refresh] token does
    not decode, has expired, is blacklisted, or is not a refresh token:
    the exception is caught, the answer is 400, and the database is
    untouched. *)
Theorem logout_refuses_unusable_token (now caller : Z) (data : Data.t) (db : DB)
    (raw : string) :
  Data.refresh data = Some raw ->
  match decode raw with
  | None => True
  | Some t => Token.exp t <= now \/ blacklisted (Token.jti t) db
              \/ Token.token_type t <> "refresh"
  end ->
  Response.status (fst (api now user_logout (Request.Build (Authenticated caller) data) db))
    = HTTP_400_BAD_REQUEST /\
  snd (api now user_logout (Request.Build (Authenticated caller) data) db) = db.
Proof.
  intros Hraw. rewrite logout_run, Hraw.
  destruct (decode raw) as [t|]; [|now split].
  intros H.
  assert (Hbad : (Token.exp t <=? now)
                 || existsb (String.eqb (Token.jti t)) (blacklistedtoken db)
                 || negb (Token.token_type t =? "refresh")%string = true).
  { destruct H as [H | [H | H]].
    - apply Z.leb_le in H. now rewrite H.
    - rewrite (blacklisted_existsb _ _ H). now rewrite orb_true_r.
    - apply String.eqb_neq in H. rewrite H. now rewrite orb_true_r. }
  rewrite Hbad. now split.
Qed.

(** X4.  Once a logout has succeeded, its refresh token is refused for
    good: whatever calls the server handles afterwards, a later logout
    with the same token, by any caller at any time, is answered 400 and
    writes nothing. *)
Theorem blacklisted_token_stays_refused (db db' : DB) (now now' caller caller' : Z)
    (data data' : Data.t) (raw : string) :
  Data.refresh data = Some raw ->
  Data.refresh data' = Some raw ->
  Response.status (fst (api now user_logout (Request.Build (Authenticated caller) data) db))
    = HTTP_200_OK ->
  reachable_from (snd (api now user_logout (Request.Build (Authenticated caller) data) db))
                 db' ->
  Response.status
    (fst (api now' user_logout (Request.Build (Authenticated caller') data') db'))
    = HTTP_400_BAD_REQUEST /\
  snd (api now' user_logout (Request.Build (Authenticated caller') data') db') = db'.
Proof.
  intros Hraw Hraw' Hok Hreach.
  rewrite logout_run, Hraw in Hok, Hreach. rewrite logout_run, Hraw'.
  destruct (decode raw) as [t|]; [|now split].
  destruct ((Token.exp t <=? now) || _ || _); [cbv in Hok; discriminate Hok|].
  assert (Hin : blacklisted (Token.jti t) db').
  { apply (reachable_from_keeps_blacklisted _ _ _ Hreach).
    unfold blacklisted. cbn. apply in_or_app. right. now left. }
  rewrite (blacklisted_existsb _ _ Hin), orb_true_r. now split.
Qed.


End Blacklist.

(** ** Likes: what a toggle touches, and how many likes a post shows *)

(** The number of likes in the answer of [GET /api/blog/{pk}/likes/]. *)
Definition likes_shown (r : Response.t) : option nat :=
  match Response.data r with
  | like_rows ls => Some (List.length ls)
  | _ => None
  end.

Lemma key_present (user post : Z) (rows : list Like.t) :
  existsb (like_of user post) rows = true -> In (user, post) (map like_key rows).
Proof.
  intros H. apply existsb_exists in H. destruct H as [l [Hin Hl]].
  apply like_of_key in Hl. rewrite <- Hl. now apply in_map.
Qed.

Lemma like_of_post (user post : Z) (l : Like.t) :
  like_of user post l = true -> (Like.post l =? post) = true.
Proof. unfold like_of. intros H. now apply andb_true_iff in H. Qed.

(** Among likes with pairwise distinct (user, post), removing the like of
    (user, post) takes exactly one like away from the post. *)
Lemma one_like_less (user post : Z) (rows : list Like.t) :
  NoDup (map like_key rows) ->
  existsb (like_of user post) rows = true ->
  List.length (filter (fun l => Like.post l =? post) rows)
  = S (List.length (filter (fun l => Like.post l =? post)
                     (filter (fun l => negb (like_of user post l)) rows))).
Proof.
  induction rows as [|r rows IH]; cbn; intros Hnd Hex; [discriminate|].
  inversion Hnd as [|? ? Hnotin Hnd']; subst.
  destruct (like_of user post r) eqn:Hr; cbn.
  - rewrite (like_of_post _ _ _ Hr). cbn. f_equal.
    rewrite filter_negb_none; [reflexivity|].
    destruct (existsb (like_of user post) rows) eqn:Hrest; [|reflexivity].
    apply key_present in Hrest. apply like_of_key in Hr. rewrite Hr in Hnotin.
    contradiction.
  - cbn in Hex. destruct (Like.post r =? post); cbn; rewrite (IH Hnd' Hex); reflexivity.
Qed.

Lemma filter_negb_idempotent {A} (f : A -> bool) (rows : list A) :
  filter (fun r => negb (f r)) (filter (fun r => negb (f r)) rows)
  = filter (fun r => negb (f r)) rows.
Proof.
  induction rows as [|r rows IH]; cbn; [reflexivity|].
  destruct (f r) eqn:E; cbn; [exact IH | now rewrite E, IH].
Qed.

Section Likes.

Variable check_password : string -> string -> bool.
Variable for_user : Z -> Z -> string * string.
Variable decode : string -> option Token.t.
Variable mint : Z -> Token.t.

Local Abbreviation api := (serve check_password for_user decode mint).

Lemma blog_like_run (now caller pk : Z) (data : Data.t) (db : DB) :
  api now (blog_like pk) (Request.Build (Authenticated caller) data) db =
  if pk_exists Blog.id (blog db) pk then
    if existsb (like_of caller pk) (like db)
    then (Response.Build (message "Like removed") HTTP_200_OK,
          set_like (filter (fun l => negb (like_of caller pk l))) db)
    else (Response.Build (message "Post liked") HTTP_201_CREATED,
          bump_seq_like
            (set_like (fun rows => rows ++ [Like.Build (seq_like db) caller pk now]) db))
  else (Response.Build (detail "Not found.") HTTP_404_NOT_FOUND, db).
Proof.
  cbn [serve]. rewrite dispatch_authenticated.
  destruct (pk_exists Blog.id (blog db) pk) eqn:Hpk.
  - rewrite BlogViews_like_run by exact Hpk.
    destruct (existsb (like_of caller pk) (like db)); reflexivity.
  - unfold BlogViews_like.
    now rewrite (bind_raise _ _ _ _ _ (get_object_missing blog Blog.id pk db Hpk)).
Qed.

Lemma blog_likes_run (now caller pk : Z) (data : Data.t) (db : DB) :
  pk_exists Blog.id (blog db) pk = true ->
  api now (blog_likes pk) (Request.Build (Authenticated caller) data) db
  = (Response.Build (like_rows (filter (fun l => Like.post l =? pk) (like db)))
                    HTTP_200_OK, db).
Proof.
  intros Hpk. destruct (get_object_found blog Blog.id pk db Hpk) as [b [Hget [Hb _]]].
  cbn [serve]. rewrite dispatch_authenticated. unfold BlogViews_likes.
  rewrite (bind_run _ _ _ _ _ Hget). rewrite Hb. reflexivity.
Qed.

(** X5.  The like toggle of a caller on a post touches nothing but the
    likes of that caller on that post: every other like, and every user,
    post, comment and blacklisted token, is as before. *)
Theorem like_toggle_frame (now caller pk : Z) (data : Data.t) (db : DB) :
  let db' := snd (api now (blog_like pk) (Request.Build (Authenticated caller) data) db) in
  filter (fun l => negb (like_of caller pk l)) (like db')
    = filter (fun l => negb (like_of caller pk l)) (like db) /\
  customuser db' = customuser db /\
  blog db' = blog db /\
  comment db' = comment db /\
  blacklistedtoken db' = blacklistedtoken db.
Proof.
  intros db'. subst db'. rewrite blog_like_run.
  destruct (pk_exists Blog.id (blog db) pk); [|repeat split].
  destruct (existsb (like_of caller pk) (like db)); cbn; repeat split.
  - apply filter_negb_idempotent.
  - rewrite filter_app. cbn. rewrite like_of_refl. cbn. apply app_nil_r.
Qed.

(** X6.  In a state the server can reach, a like toggle on an existing
    post moves the number of likes that [GET /api/blog/{pk}/likes/]
    shows for the post by exactly one: one more when the caller did not
    like the post, one less when the caller did. *)
Theorem like_toggle_moves_count_by_one (db : DB) (now now' caller reader pk : Z)
    (data data' : Data.t) :
  reachable check_password for_user decode mint db ->
  pk_exists Blog.id (blog db) pk = true ->
  let shown db :=
    likes_shown (fst (api now' (blog_likes pk)
                        (Request.Build (Authenticated reader) data') db)) in
  let db' := snd (api now (blog_like pk) (Request.Build (Authenticated caller) data) db) in
  exists n,
    if existsb (like_of caller pk) (like db)
    then shown db = Some (S n) /\ shown db' = Some n
    else shown db = Some n /\ shown db' = Some (S n).
Proof.
  intros Hreach Hpk shown db'.
  assert (Hpk' : pk_exists Blog.id (blog db') pk = true).
  { subst db'. rewrite blog_like_run, Hpk.
    destruct (existsb (like_of caller pk) (like db)); exact Hpk. }
  subst shown. cbv beta. rewrite !blog_likes_run by assumption.
  subst db'. rewrite blog_like_run, Hpk. unfold likes_shown. cbn [fst Response.data].
  destruct (existsb (like_of caller pk) (like db)) eqn:Hex; cbn [snd like set_like
                                                               bump_seq_like].
  - eexists. split; [|reflexivity].
    f_equal. apply one_like_less; [|exact Hex].
    apply reachable_consistent in Hreach. apply Hreach.
  - eexists. split; [reflexivity|].
    rewrite filter_app, length_app. cbn. rewrite Z.eqb_refl. cbn. f_equal. lia.
Qed.

End Likes.

(** ** Deleting rows: no owner guard, and the cascade *)

Section Deleting.

Variable check_password : string -> string -> bool.
Variable for_user : Z -> Z -> string * string.
Variable decode : string -> option Token.t.
Variable mint : Z -> Token.t.

Local Abbreviation api := (serve check_password for_user decode mint).

(** X8.  [DELETE /api/blog/{pk}/] of an existing post by any authenticated
    caller, its author or not: the answer is 204; the post is removed
    together with every like and every comment that references it, and
    nothing else changes. *)
Theorem post_delete_cascades (now caller pk : Z) (data : Data.t) (b : Blog.t) (db : DB) :
  find (fun r => Blog.id r =? pk) (blog db) = Some b ->
  let r := api now (blog_destroy pk) (Request.Build (Authenticated caller) data) db in
  fst r = Response.Build no_content HTTP_204_NO_CONTENT /\
  blog (snd r) = filter (fun p => negb (Blog.id p =? pk)) (blog db) /\
  like (snd r) = filter (fun l => negb (Like.post l =? pk)) (like db) /\
  comment (snd r) = filter (fun c => negb (Comment.post c =? pk)) (comment db) /\
  customuser (snd r) = customuser db /\
  blacklistedtoken (snd r) = blacklistedtoken db.
Proof.
  intros Hb r. subst r.
  assert (Hid : Blog.id b = pk).
  { apply find_some in Hb. now apply Z.eqb_eq. }
  cbn [serve]. rewrite dispatch_authenticated. unfold ModelViewSet.destroy.
  cbn [queryset pk_of delete BlogViews].
  rewrite (bind_run _ _ _ _ _ (get_object_find blog Blog.id pk db b Hb)).
  cbn. rewrite Hid. repeat split.
Qed.

(** X10.  [DELETE /api/like/{pk}/] of an existing like by any authenticated
    caller, the like's user or not: the answer is 204 and exactly the rows
    with that key are removed from the likes. *)
Theorem like_delete_by_any_caller (now caller pk : Z) (data : Data.t) (l : Like.t)
    (db : DB) :
  find (fun r => Like.id r =? pk) (like db) = Some l ->
  api now (like_destroy pk) (Request.Build (Authenticated caller) data) db
  = (Response.Build no_content HTTP_204_NO_CONTENT,
     set_like (filter (fun r => negb (Like.id r =? pk))) db).
Proof.
  intros Hl.
  assert (Hid : Like.id l = pk).
  { apply find_some in Hl. now apply Z.eqb_eq. }
  cbn [serve]. rewrite dispatch_authenticated. unfold ModelViewSet.destroy.
  cbn [queryset pk_of delete LikeViews].
  rewrite (bind_run _ _ _ _ _ (get_object_find like Like.id pk db l Hl)).
  cbn. now rewrite Hid.
Qed.

(** X9.  [DELETE /api/user/{pk}/] of an existing user by any authenticated
    caller: the answer is 204; the user is removed with the posts they
    wrote, with their own likes and comments, and with the likes and
    comments on the posts they wrote; what remains is as before. *)
Theorem user_delete_cascades (now caller pk : Z) (data : Data.t) (u : CustomUser.t)
    (db : DB) :
  find (fun r => CustomUser.id r =? pk) (customuser db) = Some u ->
  let r := api now (user_destroy pk) (Request.Build (Authenticated caller) data) db in
  let wrote (post : Z) :=
    exists b, In b (blog db) /\ Blog.author b = pk /\ Blog.id b = post in
  fst r = Response.Build no_content HTTP_204_NO_CONTENT /\
  customuser (snd r) = filter (fun x => negb (CustomUser.id x =? pk)) (customuser db) /\
  blog (snd r) = filter (fun p => negb (Blog.author p =? pk)) (blog db) /\
  (forall l, In l (like (snd r)) <->
             In l (like db) /\ Like.user l <> pk /\ ~ wrote (Like.post l)) /\
  (forall c, In c (comment (snd r)) <->
             In c (comment db) /\ Comment.user c <> pk /\ ~ wrote (Comment.post c)).
Proof.
  intros Hu r wrote. subst r.
  assert (Hid : CustomUser.id u = pk).
  { apply find_some in Hu. now apply Z.eqb_eq. }
  assert (Hwrote : forall post,
             existsb (Z.eqb post)
                     (map Blog.id (filter (fun p => Blog.author p =? pk) (blog db))) = true
             <-> wrote post).
  { intros post. rewrite existsb_exists. split.
    - intros [x [Hx Heq]]. apply Z.eqb_eq in Heq. subst x.
      apply in_map_iff in Hx. destruct Hx as [p [Hp Hin]].
      apply filter_In in Hin. destruct Hin as [Hin Ha]. apply Z.eqb_eq in Ha.
      exists p. auto.
    - intros [p [Hin [Ha Hp]]]. exists post. split; [|apply Z.eqb_refl].
      rewrite <- Hp. apply in_map. apply filter_In. split; [exact Hin|].
      now apply Z.eqb_eq. }
  cbn [serve]. rewrite dispatch_authenticated. unfold ModelViewSet.destroy.
  cbn [queryset pk_of delete UserViews].
  rewrite (bind_run _ _ _ _ _ (get_object_find customuser CustomUser.id pk db u Hu)).
  cbn. rewrite Hid.
  split; [reflexivity|]. split; [reflexivity|]. split; [reflexivity|].
  split; intros x; rewrite filter_In, negb_true_iff, orb_false_iff, Z.eqb_neq;
    (split; intros [Hin [Hne Hw]]; (split; [exact Hin|]); (split; [exact Hne|]);
     [ intros Hw'; apply Hwrote in Hw'; congruence
     | destruct (existsb _ _) eqn:E; [apply Hwrote in E; contradiction | reflexivity] ]).
Qed.

End Deleting.

(** ** Creating rows: what the serializers refuse *)

Lemma unique_among_taken {A} (id : A -> Z) (column : A -> string) (rows : list A)
    (r : A) :
  In r rows -> unique_among id column rows None (column r) = None.
Proof.
  intros Hin. unfold unique_among.
  replace (existsb _ rows) with true; [reflexivity|].
  symmetry. apply existsb_exists. exists r. split; [exact Hin|].
  now rewrite String.eqb_refl.
Qed.

Lemma CharField_trims (max_length : option nat) (data value : string) :
  CharField max_length data = Some value -> value = strip data.
Proof.
  unfold CharField.
  destruct (strip data =? "")%string; [discriminate|].
  destruct (has_null (strip data)); [discriminate|].
  destruct max_length as [n|]; [destruct (_ <=? n)%nat|]; congruence.
Qed.

Lemma UserSerializer_rejects_taken (data : Data.t) (db : DB) (name phone : string)
    (u : CustomUser.t) :
  Data.username data = Some name ->
  Data.phone data = Some phone ->
  In u (customuser db) ->
  CustomUser.username u = strip name \/ CustomUser.phone u = strip phone ->
  UserSerializer.is_valid None false data db = (inl ValidationError, db).
Proof.
  intros Hname Hphone Hin Htaken.
  cbv [UserSerializer.is_valid run_field and_then bind query ret raise].
  rewrite Hname, Hphone.
  destruct (CharField (Some 150%nat) name) as [n|] eqn:En; [|reflexivity].
  apply CharField_trims in En. subst n.
  destruct (unique_among _ CustomUser.username _ None (strip name)) eqn:Eu;
    [|reflexivity].
  destruct (Data.password data) as [raw|]; [|reflexivity].
  destruct (CharField None raw); [|reflexivity].
  destruct (CharField (Some 15%nat) phone) as [ph|] eqn:Ep; [|reflexivity].
  apply CharField_trims in Ep. subst ph.
  destruct (unique_among _ CustomUser.phone _ None (strip phone)) eqn:Eph;
    [|reflexivity].
  destruct Htaken as [H | H].
  - rewrite <- H, (unique_among_taken _ _ _ _ Hin) in Eu. discriminate.
  - rewrite <- H, (unique_among_taken _ _ _ _ Hin) in Eph. discriminate.
Qed.

Lemma LikeSerializer_is_valid_new (data : Data.t) (db : DB) :
  LikeSerializer.is_valid None false data db =
  match Data.user data, Data.post data with
  | Some u, Some p =>
      if pk_exists CustomUser.id (customuser db) u
         && pk_exists Blog.id (blog db) p
         && negb (existsb (like_of u p) (like db))
      then (inr (Data.Build None None None None None None None (Some u) (Some p)
                            None None), db)
      else (inl ValidationError, db)
  | _, _ => (inl ValidationError, db)
  end.
Proof.
  cbv [LikeSerializer.is_valid LikeSerializer.UniqueTogetherValidator run_field
       PrimaryKeyRelatedField bind query ret raise].
  destruct (Data.user data) as [u|], (Data.post data) as [p|]; try reflexivity.
  - destruct (pk_exists CustomUser.id (customuser db) u); [|reflexivity].
    destruct (pk_exists Blog.id (blog db) p); [|reflexivity].
    destruct (existsb (like_of u p) (like db)); reflexivity.
  - destruct (pk_exists CustomUser.id (customuser db) u); reflexivity.
Qed.

Lemma LikeViews_create_run (now caller : Z) (data : Data.t) (db : DB) :
  LikeViews_create now (Request.Build (Authenticated caller) data) db =
  match Data.post data with
  | None => (inl ValidationError, db)
  | Some p =>
      if existsb (like_of caller p) (like db)
      then (inr (Response.Build (error "You have already liked this post")
                                HTTP_400_BAD_REQUEST), db)
      else
        match Data.user data with
        | None => (inl ValidationError, db)
        | Some u =>
            if pk_exists CustomUser.id (customuser db) u
               && pk_exists Blog.id (blog db) p
               && negb (existsb (like_of u p) (like db))
            then (inr (Response.Build (like_row (Like.Build (seq_like db) caller p now))
                                      HTTP_201_CREATED),
                  bump_seq_like
                    (set_like (fun rows => rows ++ [Like.Build (seq_like db) caller p now])
                              db))
            else (inl ValidationError, db)
        end
  end.
Proof.
  cbv [LikeViews_create user_pk Request.user Request.data bind ret exists_
       Like_objects_filter_post_id].
  destruct (Data.post data) as [p|] eqn:Hpost.
  - cbv [Like_objects_filter query]. rewrite exists_filter.
    destruct (existsb (like_of caller p) (like db)) eqn:Hex; [reflexivity|].
    unfold ModelViewSet.create, bind at 1.
    cbn [serializer_class LikeViews is_valid LikeSerializer.serializer representation
         Request.data].
    rewrite LikeSerializer_is_valid_new, Hpost.
    destruct (Data.user data) as [u|]; [|reflexivity].
    destruct (_ && _ && _); [|reflexivity].
    cbv [LikeViews_perform_create user_pk Request.user bind ret save create
         LikeSerializer.serializer LikeSerializer.create kwargs_user
         Data.user Data.post not_null Like_objects_create query].
    rewrite Hex. reflexivity.
  - cbn. unfold ModelViewSet.create, bind at 1.
    cbn [serializer_class LikeViews is_valid LikeSerializer.serializer Request.data].
    rewrite LikeSerializer_is_valid_new, Hpost.
    destruct (Data.user data); reflexivity.
Qed.

(** The numbers that a key column holds, whatever the width of the
    [AutoField] and the database behind it. *)
Definition key_value (n : Z) : Prop := 0 <= n < 2 ^ 31.

Section Creating.

Variable check_password : string -> string -> bool.
Variable for_user : Z -> Z -> string * string.
Variable decode : string -> option Token.t.
Variable mint : Z -> Token.t.

Local Abbreviation api := (serve check_password for_user decode mint).

(** X11.  [POST /api/user/] with a username or a phone number that, once
    trimmed, is the username or the phone number of an existing user: the
    answer is 400 and no row is written. *)
Theorem registration_rejects_taken_username_or_phone (now : Z) (request : Request.t)
    (db : DB) (name phone : string) (u : CustomUser.t) :
  Data.username (Request.data request) = Some name ->
  Data.phone (Request.data request) = Some phone ->
  In u (customuser db) ->
  CustomUser.username u = strip name \/ CustomUser.phone u = strip phone ->
  api now user_create request db = (Response.Build errors HTTP_400_BAD_REQUEST, db).
Proof.
  intros Hname Hphone Hin Htaken. cbn [serve].
  change (UserViews_get_permissions "create") with [AllowAny].
  rewrite dispatch_allow_any. unfold ModelViewSet.create, bind at 1.
  cbn [serializer_class UserViews is_valid UserSerializer.serializer].
  now rewrite (UserSerializer_rejects_taken _ _ _ _ _ Hname Hphone Hin Htaken).
Qed.

(** X12.  [POST /api/like/] by an authenticated caller, case by case, for
    a body whose [post] and [user], where it has them, are numbers that a
    key column holds.  A body without [post], without [user], or naming a
    user or a post that does not exist, is answered 400 by the serializer;
    so is a body whose [user] already likes the post, although the like
    would be stored for the caller.  A caller who already likes the post
    is answered 400 by the view.  Otherwise one like of (caller, post) is
    appended under the next key and the answer is 201.  Nothing is written
    unless the answer is 201.  (The view filters on the body's [post]
    before anything validates it; a number that no key column holds is
    not covered here.) *)
Theorem like_create_outcome (now caller : Z) (data : Data.t) (db : DB) :
  match Data.post data with Some p => key_value p | None => True end ->
  match Data.user data with Some u => key_value u | None => True end ->
  let r := api now like_create (Request.Build (Authenticated caller) data) db in
  let invalid := (Response.Build errors HTTP_400_BAD_REQUEST, db) in
  let created p :=
    fst r = Response.Build (like_row (Like.Build (seq_like db) caller p now))
                           HTTP_201_CREATED /\
    like (snd r) = like db ++ [Like.Build (seq_like db) caller p now] /\
    customuser (snd r) = customuser db /\ blog (snd r) = blog db /\
    comment (snd r) = comment db /\ blacklistedtoken (snd r) = blacklistedtoken db in
  match Data.post data with
  | None => r = invalid
  | Some p =>
      if existsb (like_of caller p) (like db)
      then r = (Response.Build (error "You have already liked this post")
                               HTTP_400_BAD_REQUEST, db)
      else
        match Data.user data with
        | None => r = invalid
        | Some u =>
            if pk_exists CustomUser.id (customuser db) u
               && pk_exists Blog.id (blog db) p
               && negb (existsb (like_of u p) (like db))
            then created p
            else r = invalid
        end
  end.
Proof.
  intros _ _ r invalid created. subst r invalid created. cbn [serve].
  rewrite dispatch_authenticated, LikeViews_create_run.
  destruct (Data.post data) as [p|]; [|reflexivity].
  destruct (existsb (like_of caller p) (like db)); [reflexivity|].
  destruct (Data.user data) as [u|]; [|reflexivity].
  destruct (_ && _ && _); [|reflexivity].
  cbn. repeat split.
Qed.

End Creating.

(** ** Users: unique usernames and phone numbers *)

Section Columns.

Context {Row : Type} (key : Row -> Z) (column : Row -> string).

Lemma nodup_column_filter (keep : Row -> bool) (rows : list Row) :
  NoDup (map column rows) -> NoDup (map column (filter keep rows)).
Proof.
  induction rows as [|r rows IH]; cbn; intros H; [constructor|].
  inversion H as [|? ? Hnotin Hnd]; subst.
  destruct (keep r); cbn; [|now apply IH].
  constructor; [|now apply IH].
  intros Hin. apply Hnotin.
  apply in_map_iff in Hin. destruct Hin as [y [Hk Hy]].
  apply filter_In in Hy. rewrite <- Hk. apply in_map. tauto.
Qed.

Lemma nodup_column_append (r : Row) (rows : list Row) :
  NoDup (map column rows) ->
  (forall x, In x rows -> column x <> column r) ->
  NoDup (map column (rows ++ [r])).
Proof.
  intros Hnd Hfresh. rewrite map_app. cbn.
  apply NoDup_app; [exact Hnd | repeat constructor; intros [] |].
  intros k Hk [<-|[]]. apply in_map_iff in Hk. destruct Hk as [x [Hx Hin]].
  now apply (Hfresh x Hin).
Qed.

Lemma nodup_column_replace (r' : Row) (rows : list Row) :
  StronglySorted Z.lt (map key rows) ->
  NoDup (map column rows) ->
  (forall x, In x rows -> key x <> key r' -> column x <> column r') ->
  NoDup (map column (map (fun r => if key r =? key r' then r' else r) rows)).
Proof.
  induction rows as [|r rows IH]; cbn; intros Hs Hnd Hfresh; [constructor|].
  inversion Hs as [|? ? Hs' Hall]; inversion Hnd as [|? ? Hnotin Hnd']; subst.
  destruct (key r =? key r') eqn:E.
  - apply Z.eqb_eq in E. rewrite E in Hall.
    rewrite (replace_absent key r' rows Hall).
    constructor; [|exact Hnd'].
    intros Hin. apply in_map_iff in Hin. destruct Hin as [y [Hk Hy]].
    apply (Hfresh y); [now right | | exact Hk].
    rewrite Forall_forall in Hall. specialize (Hall (key y) (in_map _ _ _ Hy)). lia.
  - apply Z.eqb_neq in E.
    constructor; [|apply IH; auto].
    intros Hin. apply in_map_iff in Hin. destruct Hin as [y [Hk Hy]].
    apply in_map_iff in Hy. destruct Hy as [z [Hz Hin]].
    destruct (key z =? key r'); subst y.
    + apply (Hfresh r); [now left | exact E | now symmetry].
    + apply Hnotin. rewrite <- Hk. now apply in_map.
Qed.

End Columns.

Definition user_table_ok (db : DB) : Prop :=
  StronglySorted Z.lt (map CustomUser.id (customuser db)) /\
  Forall (fun pk => pk < seq_customuser db) (map CustomUser.id (customuser db)) /\
  NoDup (map CustomUser.username (customuser db)) /\
  NoDup (map CustomUser.phone (customuser db)).

Lemma user_table_ok_other_tables (db db' : DB) :
  customuser db' = customuser db -> seq_customuser db' = seq_customuser db ->
  user_table_ok db -> user_table_ok db'.
Proof. unfold user_table_ok. intros -> ->. exact (fun H => H). Qed.

Lemma user_table_ok_filter (keep : CustomUser.t -> bool) (db : DB) :
  user_table_ok db -> user_table_ok (set_customuser (filter keep) db).
Proof.
  intros [Hs [Hb [Hn Hp]]]. repeat split; cbn.
  - now apply sorted_filter.
  - now apply below_filter.
  - now apply (nodup_column_filter CustomUser.id).
  - now apply (nodup_column_filter CustomUser.id).
Qed.

Lemma existsb_false_forall {A} (f : A -> bool) (rows : list A) :
  existsb f rows = false -> forall x, In x rows -> f x = false.
Proof.
  intros H x Hin. destruct (f x) eqn:E; [|reflexivity].
  assert (existsb f rows = true) by (apply existsb_exists; eauto). congruence.
Qed.

Lemma keeps_CustomUser_objects_create (username password phone : string) :
  keeps user_table_ok (CustomUser_objects_create username password phone).
Proof.
  intros db [Hs [Hb [Hn Hp]]]. cbv [CustomUser_objects_create bind query].
  destruct (existsb _ (customuser db)) eqn:Hex; [exact (conj Hs (conj Hb (conj Hn Hp)))|].
  pose proof (existsb_false_forall _ _ Hex) as Hfresh. cbn in Hfresh.
  set (u := CustomUser.Build (seq_customuser db) username password phone).
  cbn. repeat split; cbn.
  - now apply (sorted_append CustomUser.id u).
  - now apply (below_append CustomUser.id u).
  - apply (nodup_column_append CustomUser.username u); [exact Hn|].
    intros x Hin. specialize (Hfresh x Hin). apply orb_false_iff in Hfresh.
    now apply String.eqb_neq.
  - apply (nodup_column_append CustomUser.phone u); [exact Hp|].
    intros x Hin. specialize (Hfresh x Hin). apply orb_false_iff in Hfresh.
    now apply String.eqb_neq.
Qed.

Lemma keeps_CustomUser_save (instance : CustomUser.t) (username password phone : string) :
  keeps user_table_ok (CustomUser_save instance username password phone).
Proof.
  intros db [Hs [Hb [Hn Hp]]]. cbv [CustomUser_save bind query].
  destruct (existsb _ (customuser db)) eqn:Hex; [exact (conj Hs (conj Hb (conj Hn Hp)))|].
  pose proof (existsb_false_forall _ _ Hex) as Hfresh. cbn in Hfresh.
  set (u := CustomUser.Build (CustomUser.id instance) username password phone).
  assert (Hother : forall x, In x (customuser db) -> CustomUser.id x <> CustomUser.id u ->
                             CustomUser.username x <> username /\
                             CustomUser.phone x <> phone).
  { intros x Hin Hne. specialize (Hfresh x Hin).
    apply Z.eqb_neq in Hne. cbn in Hne. rewrite Hne in Hfresh. cbn in Hfresh.
    rewrite andb_true_r in Hfresh. apply orb_false_iff in Hfresh.
    split; now apply String.eqb_neq. }
  cbn. repeat split; cbn.
  - now rewrite (ids_replace CustomUser.id u).
  - now rewrite (ids_replace CustomUser.id u).
  - apply (nodup_column_replace CustomUser.id CustomUser.username u); trivial.
    intros x Hin Hne. now apply Hother.
  - apply (nodup_column_replace CustomUser.id CustomUser.phone u); trivial.
    intros x Hin Hne. now apply Hother.
Qed.

#[local] Hint Resolve user_table_ok_filter keeps_CustomUser_objects_create
  keeps_CustomUser_save : preserves.

#[local] Hint Extern 2 (user_table_ok _) =>
  eapply user_table_ok_other_tables; [reflexivity .. | eassumption] : preserves.

(** The views unfolded as by [unfold_views], but for the two writes of a
    user row, which keep their check. *)
Ltac unfold_views_to_user_writes :=
  cbv [ModelViewSet.create ModelViewSet.update ModelViewSet.destroy
       UserViews BlogViews CommentViews LikeViews
       queryset pk_of serializer_class delete is_valid create update representation
       UserSerializer.serializer BlogSerializer.serializer
       LikeSerializer.serializer CommentSerializer.serializer
       UserSerializer.create UserSerializer.update
       BlogSerializer.create BlogSerializer.update
       LikeSerializer.create LikeSerializer.update
       CommentSerializer.create CommentSerializer.update
       save no_kwargs
       UserViews_perform_create BlogViews_perform_create
       CommentViews_perform_create LikeViews_perform_create
       UserViews_login UserViews_logout authenticate RefreshToken blacklist
       BlogViews_comments BlogViews_likes BlogViews_like
       CommentViews_update CommentViews_destroy LikeViews_create
       Like_objects_filter_post_id
       Like_objects_filter Like_objects_filter_delete Like_objects_filter_post
       Like_objects_create Like_save Like_delete
       Comment_objects_filter Comment_objects_create Comment_save Comment_delete
       Blog_objects_create Blog_save Blog_delete CustomUser_delete
       exists_ get_object user_pk not_null].

Section Users.

Variable check_password : string -> string -> bool.
Variable for_user : Z -> Z -> string * string.
Variable decode : string -> option Token.t.
Variable mint : Z -> Token.t.

Local Abbreviation api := (serve check_password for_user decode mint).

Lemma serve_keeps_user_table (now : Z) (call : Call) (request : Request.t) (db : DB) :
  user_table_ok db -> user_table_ok (snd (api now call request db)).
Proof.
  intros H. destruct call; cbn [serve]; apply keeps_dispatch; trivial;
    unfold_views_to_user_writes; preserves.
Qed.

(** X13.  In every state the server can reach, no two users have the same
    username and no two users have the same phone number. *)
Theorem usernames_and_phones_unique (db : DB) :
  reachable check_password for_user decode mint db ->
  NoDup (map CustomUser.username (customuser db)) /\
  NoDup (map CustomUser.phone (customuser db)).
Proof.
  intros Hreach.
  assert (H : user_table_ok db).
  { induction Hreach as [|db now call request _ IH].
    - repeat split; cbn; constructor.
    - now apply serve_keeps_user_table. }
  split; apply H.
Qed.

End Users.

(** ** Referential integrity: likes and comments reference existing posts *)

Definition posts_exist (db : DB) : Prop :=
  (forall l, In l (like db) -> pk_exists Blog.id (blog db) (Like.post l) = true) /\
  (forall c, In c (comment db) -> pk_exists Blog.id (blog db) (Comment.post c) = true).

(** The same, with one more post known to exist. *)
Definition posts_exist_with (post : Z) (db : DB) : Prop :=
  posts_exist db /\ pk_exists Blog.id (blog db) post = true.

Lemma pk_exists_In {A} (id : A -> Z) (rows : list A) (pk : Z) :
  pk_exists id rows pk = true <-> exists r, In r rows /\ id r = pk.
Proof.
  unfold pk_exists. rewrite existsb_exists.
  split; intros [r [Hin H]]; exists r; (split; [exact Hin|]); now apply Z.eqb_eq.
Qed.

Lemma pk_exists_append {A} (id : A -> Z) (rows : list A) (r : A) (pk : Z) :
  pk_exists id rows pk = true -> pk_exists id (rows ++ [r]) pk = true.
Proof. unfold pk_exists. intros H. rewrite existsb_app, H. reflexivity. Qed.

Lemma pk_exists_replace {A} (id : A -> Z) (rows : list A) (r' : A) (pk : Z) :
  pk_exists id rows pk = true ->
  pk_exists id (map (fun r => if id r =? id r' then r' else r) rows) pk = true.
Proof.
  rewrite !pk_exists_In. intros [r [Hin Hr]].
  exists (if id r =? id r' then r' else r). split.
  - apply in_map_iff. now exists r.
  - destruct (id r =? id r') eqn:E; [|exact Hr].
    apply Z.eqb_eq in E. congruence.
Qed.

Lemma posts_exist_other_tables (db db' : DB) :
  like db' = like db -> comment db' = comment db -> blog db' = blog db ->
  posts_exist db -> posts_exist db'.
Proof. unfold posts_exist. intros -> -> ->. exact (fun H => H). Qed.

Lemma posts_exist_with_other_tables (post : Z) (db db' : DB) :
  like db' = like db -> comment db' = comment db -> blog db' = blog db ->
  posts_exist_with post db -> posts_exist_with post db'.
Proof. unfold posts_exist_with, posts_exist. intros -> -> ->. exact (fun H => H). Qed.

Lemma posts_exist_filter_like (keep : Like.t -> bool) (db : DB) :
  posts_exist db -> posts_exist (set_like (filter keep) db).
Proof.
  intros [Hl Hc]. split; cbn; [|exact Hc].
  intros l Hin. apply filter_In in Hin. now apply Hl.
Qed.

Lemma posts_exist_filter_comment (keep : Comment.t -> bool) (db : DB) :
  posts_exist db -> posts_exist (set_comment (filter keep) db).
Proof.
  intros [Hl Hc]. split; cbn; [exact Hl|].
  intros c Hin. apply filter_In in Hin. now apply Hc.
Qed.

Lemma posts_exist_with_filter_like (post : Z) (keep : Like.t -> bool) (db : DB) :
  posts_exist_with post db -> posts_exist_with post (set_like (filter keep) db).
Proof. intros [H Hp]. split; [now apply posts_exist_filter_like | exact Hp]. Qed.

Lemma posts_exist_blog_append (b : Blog.t) (db : DB) :
  posts_exist db -> posts_exist (bump_seq_blog (set_blog (fun rows => rows ++ [b]) db)).
Proof.
  intros [Hl Hc]. split; cbn; intros x Hin; apply pk_exists_append; auto.
Qed.

Lemma posts_exist_blog_replace (instance : Blog.t) (title description : string)
    (author now : Z) (image : option string) (db : DB) :
  posts_exist db ->
  posts_exist
    (set_blog
       (map (fun r => if Blog.id r =? Blog.id instance
                      then Blog.Build (Blog.id instance) title description author now
                                      image
                      else r)) db).
Proof.
  intros [Hl Hc].
  set (b := Blog.Build (Blog.id instance) title description author now image).
  split; cbn; intros x Hin; apply (pk_exists_replace Blog.id _ b); auto.
Qed.

Lemma posts_exist_like_append (l : Like.t) (db : DB) :
  posts_exist_with (Like.post l) db ->
  posts_exist_with (Like.post l)
                   (bump_seq_like (set_like (fun rows => rows ++ [l]) db)).
Proof.
  intros [[Hl Hc] Hp]. split; [split|]; cbn; trivial.
  intros x Hin. apply in_app_or in Hin.
  destruct Hin as [Hin | [<- | []]]; [now apply Hl | exact Hp].
Qed.

Lemma posts_exist_like_replace (l : Like.t) (db : DB) :
  posts_exist_with (Like.post l) db ->
  posts_exist_with (Like.post l)
    (set_like (map (fun r => if Like.id r =? Like.id l then l else r)) db).
Proof.
  intros [[Hl Hc] Hp]. split; [split|]; cbn; trivial.
  intros x Hin. apply in_map_iff in Hin. destruct Hin as [y [<- Hy]].
  destruct (Like.id y =? Like.id l); [exact Hp | now apply Hl].
Qed.

Lemma posts_exist_comment_append (c : Comment.t) (db : DB) :
  posts_exist_with (Comment.post c) db ->
  posts_exist_with (Comment.post c)
                   (bump_seq_comment (set_comment (fun rows => rows ++ [c]) db)).
Proof.
  intros [[Hl Hc] Hp]. split; [split|]; cbn; trivial.
  intros x Hin. apply in_app_or in Hin.
  destruct Hin as [Hin | [<- | []]]; [now apply Hc | exact Hp].
Qed.

Lemma posts_exist_comment_replace (c : Comment.t) (db : DB) :
  posts_exist_with (Comment.post c) db ->
  posts_exist_with (Comment.post c)
    (set_comment (map (fun r => if Comment.id r =? Comment.id c then c else r)) db).
Proof.
  intros [[Hl Hc] Hp]. split; [split|]; cbn; trivial.
  intros x Hin. apply in_map_iff in Hin. destruct Hin as [y [<- Hy]].
  destruct (Comment.id y =? Comment.id c); [exact Hp | now apply Hc].
Qed.

(** The cascade of a post's deletion leaves no reference to the post. *)
Lemma keeps_posts_exist_Blog_delete (instance : Blog.t) :
  keeps posts_exist (Blog_delete instance).
Proof.
  intros db [Hl Hc]. cbn.
  assert (Hleft : forall post, (post =? Blog.id instance) = false ->
             pk_exists Blog.id (blog db) post = true ->
             pk_exists Blog.id
               (filter (fun b => negb (Blog.id b =? Blog.id instance)) (blog db)) post
             = true).
  { intros post Hne. rewrite !pk_exists_In. intros [b [Hin Hb]].
    exists b. split; [|exact Hb]. apply filter_In. split; [exact Hin|].
    rewrite Hb, Hne. reflexivity. }
  split; cbn; intros x Hin; apply filter_In in Hin; destruct Hin as [Hin Hne];
    apply negb_true_iff in Hne;
    (apply Hleft; [exact Hne | first [now apply Hl | now apply Hc]]).
Qed.

(** So does the cascade of a user's deletion. *)
Lemma keeps_posts_exist_CustomUser_delete (instance : CustomUser.t) :
  keeps posts_exist (CustomUser_delete instance).
Proof.
  intros db [Hl Hc]. cbn.
  set (gone := CustomUser.id instance).
  set (posts := map Blog.id (filter (fun b => Blog.author b =? gone) (blog db))).
  assert (Hleft : forall post, existsb (Z.eqb post) posts = false ->
             pk_exists Blog.id (blog db) post = true ->
             pk_exists Blog.id (filter (fun b => negb (Blog.author b =? gone)) (blog db))
                       post = true).
  { intros post Hnot. rewrite !pk_exists_In. intros [b [Hin Hb]].
    exists b. split; [|exact Hb]. apply filter_In. split; [exact Hin|].
    destruct (Blog.author b =? gone) eqn:Ha; [|reflexivity].
    assert (existsb (Z.eqb post) posts = true); [|congruence].
    apply existsb_exists. exists post. split; [|apply Z.eqb_refl].
    rewrite <- Hb. apply in_map. apply filter_In. auto. }
  split; cbn; intros x Hin; apply filter_In in Hin; destruct Hin as [Hin Hne];
    apply negb_true_iff, orb_false_iff in Hne;
    (apply Hleft; [exact (proj2 Hne) | first [now apply Hl | now apply Hc]]).
Qed.

#[local] Hint Resolve posts_exist_filter_like posts_exist_filter_comment
  posts_exist_with_filter_like posts_exist_blog_append posts_exist_blog_replace
  keeps_posts_exist_Blog_delete keeps_posts_exist_CustomUser_delete : preserves.

#[local] Hint Extern 2 (posts_exist _) =>
  eapply posts_exist_other_tables; [reflexivity .. | eassumption] : preserves.

#[local] Hint Extern 2 (posts_exist_with _ _) =>
  eapply posts_exist_with_other_tables; [reflexivity .. | eassumption] : preserves.

Lemma keeps_posts_exist_Like_objects_create (now user post : Z) :
  keeps (posts_exist_with post) (Like_objects_create now user post).
Proof.
  intros db H. cbv [Like_objects_create bind query].
  destruct (existsb (like_of user post) (like db)); [exact H|].
  apply (posts_exist_like_append (Like.Build (seq_like db) user post now)), H.
Qed.

Lemma keeps_posts_exist_Like_save (now : Z) (instance : Like.t) (user post : Z) :
  keeps (posts_exist_with post) (Like_save now instance user post).
Proof.
  intros db H. cbv [Like_save bind query].
  destruct (existsb _ (like db)); [exact H|].
  apply (posts_exist_like_replace (Like.Build (Like.id instance) user post now)), H.
Qed.

Lemma keeps_posts_exist_Comment_objects_create (now user post : Z) (text : string) :
  keeps (posts_exist_with post) (Comment_objects_create now user post text).
Proof.
  intros db H.
  apply (posts_exist_comment_append (Comment.Build (seq_comment db) user post text now)), H.
Qed.

Lemma keeps_posts_exist_Comment_save (now : Z) (instance : Comment.t) (user post : Z)
    (text : string) :
  keeps (posts_exist_with post) (Comment_save now instance user post text).
Proof.
  intros db H.
  apply (posts_exist_comment_replace
           (Comment.Build (Comment.id instance) user post text now)), H.
Qed.

#[local] Hint Resolve keeps_posts_exist_Like_objects_create keeps_posts_exist_Like_save
  keeps_posts_exist_Comment_objects_create keeps_posts_exist_Comment_save : preserves.

(** Case analysis on the first step of a computation. *)
Lemma bind_cases {A B} (P : DB -> Prop) (m : M A) (k : A -> M B) (db : DB) :
  (forall e db', m db = (inl e, db') -> P db') ->
  (forall a db', m db = (inr a, db') -> P (snd (k a db'))) ->
  P (snd (bind m k db)).
Proof.
  intros He Ha. unfold bind.
  destruct (m db) as [[e|a] db'] eqn:E; [now apply (He e) | now apply Ha].
Qed.

Lemma get_object_result {A} (table : DB -> list A) (id : A -> Z) (pk : Z) (db db' : DB)
    (x : Exception + A) :
  get_object table id pk db = (x, db') ->
  db' = db /\ (forall a, x = inr a -> In a (table db) /\ id a = pk).
Proof.
  unfold get_object, bind, query.
  destruct (find _ (table db)) as [r|] eqn:Hf; cbv [ret raise]; intros H;
    inversion H; subst; (split; [reflexivity|]); intros a Ha; inversion Ha; subst.
  apply find_some in Hf. split; [tauto|]. now apply Z.eqb_eq.
Qed.

Lemma LikeSerializer_validated_post (instance : option Like.t) (partial : bool)
    (data validated_data : Data.t) (db db' : DB) (post : Z) :
  LikeSerializer.is_valid instance partial data db = (inr validated_data, db') ->
  Data.post validated_data = Some post ->
  pk_exists Blog.id (blog db) post = true.
Proof.
  cbv [LikeSerializer.is_valid LikeSerializer.UniqueTogetherValidator run_field
       PrimaryKeyRelatedField bind query ret raise].
  destruct (Data.user data) as [u|], (Data.post data) as [p|], partial, instance;
    repeat match goal with
      | |- context [if ?b then _ else _] => destruct b eqn:?
      end;
    intros H Hp; inversion H; subst; cbn in Hp; inversion Hp; subst; assumption.
Qed.

Lemma CommentSerializer_validated_post (instance : option Comment.t) (partial : bool)
    (data validated_data : Data.t) (db db' : DB) (post : Z) :
  CommentSerializer.is_valid instance partial data db = (inr validated_data, db') ->
  Data.post validated_data = Some post ->
  pk_exists Blog.id (blog db) post = true.
Proof.
  cbv [CommentSerializer.is_valid run_field PrimaryKeyRelatedField bind query ret raise].
  destruct (Data.user data) as [u|], (Data.post data) as [p|],
           (Data.comment data) as [t|], partial;
    repeat match goal with
      | |- context [if ?b then _ else _] => destruct b eqn:?
      | |- context [match CharField ?n ?s with _ => _ end] => destruct (CharField n s)
      end;
    intros H Hp; inversion H; subst; cbn in Hp; inversion Hp; subst; assumption.
Qed.

Lemma posts_exist_with_In_like (l : Like.t) (db : DB) :
  posts_exist db -> In l (like db) -> posts_exist_with (Like.post l) db.
Proof. intros H Hin. split; [exact H | now apply H]. Qed.

Lemma posts_exist_with_In_comment (c : Comment.t) (db : DB) :
  posts_exist db -> In c (comment db) -> posts_exist_with (Comment.post c) db.
Proof. intros H Hin. split; [exact H | now apply H]. Qed.

Lemma keeps_posts_exist_BlogViews_like (now : Z) (request : Request.t) (pk : Z) :
  keeps posts_exist (BlogViews_like now request pk).
Proof.
  intros db H. unfold BlogViews_like. apply bind_cases.
  - intros e db' Hget. apply get_object_result in Hget. now destruct Hget as [-> _].
  - intros b db' Hget. apply get_object_result in Hget. destruct Hget as [-> Hb].
    destruct (Hb b eq_refl) as [Hin Hid].
    assert (HJ : posts_exist_with (Blog.id b) db).
    { split; [exact H|]. apply pk_exists_In. now exists b. }
    enough (Hk : keeps (posts_exist_with (Blog.id b))
                   (user <- user_pk (Request.user request) ;;
                    like_exists <- exists_ (Like_objects_filter user (Blog.id b)) ;;
                    if like_exists then
                      Like_objects_filter_delete user (Blog.id b) ;;
                      ret (Response.Build (message "Like removed") HTTP_200_OK)
                    else
                      Like_objects_create now user (Blog.id b) ;;
                      ret (Response.Build (message "Post liked") HTTP_201_CREATED)))
      by apply (Hk db HJ).
    preserves. unfold Like_objects_filter_delete. preserves.
Qed.

Lemma keeps_posts_exist_LikeViews_create (now : Z) (request : Request.t) :
  keeps posts_exist (LikeViews_create now request).
Proof.
  intros db H. destruct request as [[|caller] data]; [exact H|].
  rewrite LikeViews_create_run.
  destruct (Data.post data) as [p|]; [|exact H].
  destruct (existsb (like_of caller p) (like db)); [exact H|].
  destruct (Data.user data) as [u|]; [|exact H].
  destruct (pk_exists CustomUser.id (customuser db) u); [|exact H].
  destruct (pk_exists Blog.id (blog db) p) eqn:Hp; [|exact H].
  destruct (existsb (like_of u p) (like db)); [exact H|].
  cbn [andb negb snd].
  apply (posts_exist_like_append (Like.Build (seq_like db) caller p now)).
  now split.
Qed.

Lemma keeps_posts_exist_like_update (now : Z) (partial : bool) (request : Request.t)
    (pk : Z) :
  keeps posts_exist (ModelViewSet.update LikeViews now partial request pk).
Proof.
  intros db H. unfold ModelViewSet.update.
  cbn [queryset pk_of serializer_class LikeViews is_valid LikeSerializer.serializer
       representation].
  apply bind_cases.
  - intros e db' Hget. apply get_object_result in Hget. now destruct Hget as [-> _].
  - intros instance db' Hget. apply get_object_result in Hget. destruct Hget as [-> Hi].
    destruct (Hi instance eq_refl) as [Hin _].
    apply bind_cases.
    + intros e db' Hv. apply validator_run in Hv; [now destruct Hv as [-> _]|].
      apply LikeSerializer_is_valid_validator.
    + intros v db' Hv.
      pose proof (fun p => LikeSerializer_validated_post _ _ _ _ _ _ p Hv) as Hpost.
      apply validator_run in Hv; [destruct Hv as [-> _]
                                 | apply LikeSerializer_is_valid_validator].
      set (post := value_or (Data.post v) (Like.post instance)).
      assert (HJ : posts_exist_with post db).
      { subst post. destruct (Data.post v) as [p|]; cbn.
        - split; [exact H | now apply Hpost].
        - now apply posts_exist_with_In_like. }
      enough (Hk : keeps (posts_exist_with post)
                     (row <- Like_save now instance
                               (value_or (Data.user v) (Like.user instance)) post ;;
                      ret (Response.Build (like_row row) HTTP_200_OK)))
        by apply (Hk db HJ).
      preserves.
Qed.

Lemma keeps_posts_exist_comment_create (now : Z) (request : Request.t) :
  keeps posts_exist
        (ModelViewSet.create CommentViews (CommentViews_perform_create now request)
                             request).
Proof.
  intros db H. unfold ModelViewSet.create.
  cbn [serializer_class CommentViews is_valid CommentSerializer.serializer
       representation].
  apply bind_cases.
  - intros e db' Hv. apply validator_run in Hv; [now destruct Hv as [-> _]|].
    apply CommentSerializer_is_valid_validator.
  - intros v db' Hv.
    pose proof (fun p => CommentSerializer_validated_post _ _ _ _ _ _ p Hv) as Hpost.
    apply validator_run in Hv; [destruct Hv as [-> _]
                               | apply CommentSerializer_is_valid_validator].
    unfold CommentViews_perform_create, save.
    cbn [create CommentSerializer.serializer].
    unfold CommentSerializer.create.
    destruct (Request.user request) as [|caller]; [exact H|].
    cbn [user_pk]. cbv [bind ret kwargs_user not_null]. cbn [Data.user Data.post].
    destruct (Data.post v) as [p|]; [|exact H].
    cbn [Data.comment].
    apply (posts_exist_comment_append
             (Comment.Build (seq_comment db) caller p (value_or (Data.comment v) "") now)).
    split; [exact H | now apply Hpost].
Qed.

Lemma keeps_posts_exist_comment_update (now : Z) (partial : bool) (request : Request.t)
    (pk : Z) :
  keeps posts_exist (ModelViewSet.update CommentViews now partial request pk).
Proof.
  intros db H. unfold ModelViewSet.update.
  cbn [queryset pk_of serializer_class CommentViews is_valid CommentSerializer.serializer
       representation].
  apply bind_cases.
  - intros e db' Hget. apply get_object_result in Hget. now destruct Hget as [-> _].
  - intros instance db' Hget. apply get_object_result in Hget. destruct Hget as [-> Hi].
    destruct (Hi instance eq_refl) as [Hin _].
    apply bind_cases.
    + intros e db' Hv. apply validator_run in Hv; [now destruct Hv as [-> _]|].
      apply CommentSerializer_is_valid_validator.
    + intros v db' Hv.
      pose proof (fun p => CommentSerializer_validated_post _ _ _ _ _ _ p Hv) as Hpost.
      apply validator_run in Hv; [destruct Hv as [-> _]
                                 | apply CommentSerializer_is_valid_validator].
      set (post := value_or (Data.post v) (Comment.post instance)).
      assert (HJ : posts_exist_with post db).
      { subst post. destruct (Data.post v) as [p|]; cbn.
        - split; [exact H | now apply Hpost].
        - now apply posts_exist_with_In_comment. }
      enough (Hk : keeps (posts_exist_with post)
                     (row <- Comment_save now instance
                               (value_or (Data.user v) (Comment.user instance)) post
                               (value_or (Data.comment v) (Comment.comment instance)) ;;
                      ret (Response.Build (comment_row row) HTTP_200_OK)))
        by apply (Hk db HJ).
      preserves.
Qed.

Section Integrity.

Variable check_password : string -> string -> bool.
Variable for_user : Z -> Z -> string * string.
Variable decode : string -> option Token.t.
Variable mint : Z -> Token.t.

Local Abbreviation api := (serve check_password for_user decode mint).

Lemma serve_keeps_posts_exist (now : Z) (call : Call) (request : Request.t) (db : DB) :
  posts_exist db -> posts_exist (snd (api now call request db)).
Proof.
  intros H. destruct call; cbn [serve]; apply keeps_dispatch; trivial.
  - unfold_views. preserves.
  - unfold_views. preserves.
  - unfold ModelViewSet.destroy. cbn [queryset pk_of delete UserViews]. preserves.
  - unfold_views. preserves.
  - unfold_views. preserves.
  - unfold_views. preserves.
  - unfold_views. preserves.
  - unfold ModelViewSet.destroy. cbn [queryset pk_of delete BlogViews]. preserves.
  - unfold_views. preserves.
  - unfold_views. preserves.
  - apply keeps_posts_exist_BlogViews_like.
  - apply keeps_posts_exist_comment_create.
  - unfold CommentViews_update. preserves. apply keeps_posts_exist_comment_update.
  - unfold_views. preserves.
  - apply keeps_posts_exist_LikeViews_create.
  - apply keeps_posts_exist_like_update.
  - unfold_views. preserves.
Qed.

(** X14.  In every state the server can reach, every like and every
    comment references a post that exists: a like or a comment is only
    created or moved onto an existing post, and deleting a post, or the
    user who wrote it, takes the likes and comments of the post along. *)
Theorem likes_and_comments_reference_posts (db : DB) :
  reachable check_password for_user decode mint db ->
  (forall l, In l (like db) -> exists b, In b (blog db) /\ Blog.id b = Like.post l) /\
  (forall c, In c (comment db) -> exists b, In b (blog db) /\ Blog.id b = Comment.post c).
Proof.
  intros Hreach.
  assert (H : posts_exist db).
  { induction Hreach as [|db now call request _ IH].
    - split; intros x [].
    - now apply serve_keeps_posts_exist. }
  destruct H as [Hl Hc].
  split; intros x Hin; apply pk_exists_In; auto.
Qed.

End Integrity.

(** ** The columns' [max_length] *)

Definition texts_fit (db : DB) : Prop :=
  (forall u, In u (customuser db) -> (String.length (CustomUser.phone u) <= 15)%nat) /\
  (forall b, In b (blog db) ->
             (String.length (Blog.title b) <= 50)%nat /\
             (String.length (Blog.description b) <= 200)%nat) /\
  (forall c, In c (comment db) -> (String.length (Comment.comment c) <= 100)%nat).

Lemma CharField_fits (n : nat) (data value : string) :
  CharField (Some n) data = Some value -> (String.length value <= n)%nat.
Proof.
  unfold CharField.
  destruct (strip data =? "")%string; [discriminate|].
  destruct (has_null (strip data)); [discriminate|].
  destruct (String.length (strip data) <=? n)%nat eqn:E; [|discriminate].
  intros H. inversion H; subst. now apply Nat.leb_le.
Qed.

Lemma unique_CharField_fits {A} (id : A -> Z) (column : A -> string) (rows : list A)
    (instance : option A) (n : nat) (data value : string) :
  and_then (CharField (Some n)) (unique_among id column rows instance) data = Some value ->
  (String.length value <= n)%nat.
Proof.
  unfold and_then, unique_among.
  destruct (CharField (Some n) data) as [v|] eqn:E; [|discriminate].
  destruct (existsb _ rows); [discriminate|].
  intros H. inversion H; subst. now apply (CharField_fits n data).
Qed.

Lemma run_field_fits {A} (partial : bool) (validate : A -> option string) (n : nat)
    (supplied : option A) (db db' : DB) (validated : option string) :
  (forall a v, validate a = Some v -> (String.length v <= n)%nat) ->
  run_field partial validate supplied db = (inr validated, db') ->
  forall v, validated = Some v -> (String.length v <= n)%nat.
Proof.
  intros Hfits. unfold run_field.
  destruct supplied as [a|]; [destruct (validate a) as [b|] eqn:E | destruct partial];
    cbv [ret raise]; intros H v Hv; try discriminate;
    try (assert (validated = None) by congruence; congruence).
  assert (b = v) by congruence. subst b. now apply (Hfits a).
Qed.

Lemma texts_fit_other_tables (db db' : DB) :
  customuser db' = customuser db -> blog db' = blog db -> comment db' = comment db ->
  texts_fit db -> texts_fit db'.
Proof. unfold texts_fit. intros -> -> ->. exact (fun H => H). Qed.

Lemma texts_fit_filter_customuser (keep : CustomUser.t -> bool) (db : DB) :
  texts_fit db -> texts_fit (set_customuser (filter keep) db).
Proof.
  intros [Hu [Hb Hc]]. split; [|split; [exact Hb | exact Hc]]. cbn.
  intros u Hin. apply filter_In in Hin. now apply Hu.
Qed.

Lemma texts_fit_filter_blog (keep : Blog.t -> bool) (db : DB) :
  texts_fit db -> texts_fit (set_blog (filter keep) db).
Proof.
  intros [Hu [Hb Hc]]. split; [exact Hu|]. split; [|exact Hc]. cbn.
  intros b Hin. apply filter_In in Hin. now apply Hb.
Qed.

Lemma texts_fit_filter_comment (keep : Comment.t -> bool) (db : DB) :
  texts_fit db -> texts_fit (set_comment (filter keep) db).
Proof.
  intros [Hu [Hb Hc]]. split; [exact Hu|]. split; [exact Hb|]. cbn.
  intros c Hin. apply filter_In in Hin. now apply Hc.
Qed.

#[local] Hint Resolve texts_fit_filter_customuser texts_fit_filter_blog
  texts_fit_filter_comment : preserves.

#[local] Hint Extern 2 (texts_fit _) =>
  eapply texts_fit_other_tables; [reflexivity .. | eassumption] : preserves.

Lemma In_append_cases {A} (P : A -> Prop) (rows : list A) (r : A) :
  (forall x, In x rows -> P x) -> P r -> forall x, In x (rows ++ [r]) -> P x.
Proof.
  intros Hrows Hr x Hin. apply in_app_or in Hin.
  destruct Hin as [Hin | [<- | []]]; auto.
Qed.

Lemma In_replace_cases {A} (P : A -> Prop) (rows : list A) (change : A -> bool) (r : A) :
  (forall x, In x rows -> P x) -> P r ->
  forall x, In x (map (fun y => if change y then r else y) rows) -> P x.
Proof.
  intros Hrows Hr x Hin. apply in_map_iff in Hin. destruct Hin as [y [<- Hy]].
  destruct (change y); auto.
Qed.

Lemma UserSerializer_validated_fits (instance : option CustomUser.t) (partial : bool)
    (data validated_data : Data.t) (db db' : DB) (phone : string) :
  UserSerializer.is_valid instance partial data db = (inr validated_data, db') ->
  Data.phone validated_data = Some phone -> (String.length phone <= 15)%nat.
Proof.
  unfold UserSerializer.is_valid. cbv [bind query].
  destruct (run_field partial _ (Data.username _) db) as [[e|n] d1]; [discriminate|].
  destruct (run_field partial _ (Data.password _) d1) as [[e|pw] d2]; [discriminate|].
  destruct (run_field partial _ (Data.phone _) d2) as [[e|ph] d3] eqn:Eph;
    [discriminate|].
  cbv [ret]. intros Hv Hph. inversion Hv; subst. cbn in Hph.
  eapply run_field_fits; [|exact Eph | exact Hph].
  intros a x Hx. eapply unique_CharField_fits. exact Hx.
Qed.

Lemma BlogSerializer_validated_fits (instance : option Blog.t) (partial : bool)
    (data validated_data : Data.t) (db db' : DB) :
  BlogSerializer.is_valid instance partial data db = (inr validated_data, db') ->
  (forall t, Data.title validated_data = Some t -> (String.length t <= 50)%nat) /\
  (forall d, Data.description validated_data = Some d -> (String.length d <= 200)%nat).
Proof.
  unfold BlogSerializer.is_valid. cbv [bind query ImageField].
  destruct (run_field partial _ (Data.title _) db) as [[e|t] d1] eqn:Et; [discriminate|].
  destruct (run_field partial _ (Data.description _) d1) as [[e|d] d2] eqn:Ed;
    [discriminate|].
  destruct (run_field partial _ (Data.author _) d2) as [[e|a] d3]; [discriminate|].
  destruct (Data.image data); [discriminate|].
  cbv [ret]. intros Hv. inversion Hv; subst. cbn.
  split; intros x Hx.
  - eapply run_field_fits; [|exact Et | exact Hx]. apply CharField_fits.
  - eapply run_field_fits; [|exact Ed | exact Hx]. apply CharField_fits.
Qed.

Lemma CommentSerializer_validated_fits (instance : option Comment.t) (partial : bool)
    (data validated_data : Data.t) (db db' : DB) (text : string) :
  CommentSerializer.is_valid instance partial data db = (inr validated_data, db') ->
  Data.comment validated_data = Some text -> (String.length text <= 100)%nat.
Proof.
  unfold CommentSerializer.is_valid. cbv [bind query].
  destruct (run_field partial _ (Data.user _) db) as [[e|u] d1]; [discriminate|].
  destruct (run_field partial _ (Data.post _) d1) as [[e|p] d2]; [discriminate|].
  destruct (run_field partial _ (Data.comment _) d2) as [[e|t] d3] eqn:Et;
    [discriminate|].
  cbv [ret]. intros Hv Ht. inversion Hv; subst. cbn in Ht.
  eapply run_field_fits; [|exact Et | exact Ht]. apply CharField_fits.
Qed.

Lemma value_or_fits (o : option string) (d : string) (n : nat) :
  (forall v, o = Some v -> (String.length v <= n)%nat) ->
  (String.length d <= n)%nat ->
  (String.length (value_or o d) <= n)%nat.
Proof. intros Ho Hd. destruct o as [v|]; cbn; auto. Qed.

Lemma keeps_texts_fit_user_create (now : Z) (request : Request.t) :
  keeps texts_fit
        (ModelViewSet.create UserViews (UserViews_perform_create now request) request).
Proof.
  intros db H. unfold ModelViewSet.create.
  cbn [serializer_class UserViews is_valid UserSerializer.serializer representation].
  apply bind_cases.
  - intros e db' Hv. apply validator_run in Hv; [now destruct Hv as [-> _]|].
    apply UserSerializer_is_valid_validator.
  - intros v db' Hv.
    pose proof (fun ph => UserSerializer_validated_fits _ _ _ _ _ _ ph Hv) as Hphone.
    apply validator_run in Hv; [destruct Hv as [-> _]
                               | apply UserSerializer_is_valid_validator].
    cbv [UserViews_perform_create save create UserSerializer.serializer no_kwargs
         UserSerializer.create CustomUser_objects_create bind query ret].
    destruct (existsb _ (customuser db)); [exact H|].
    destruct H as [Hu [Hb Hc]]. split; [|split; [exact Hb | exact Hc]].
    cbn. apply In_append_cases; [exact Hu|]. cbn.
    apply value_or_fits; [exact Hphone | cbn; lia].
Qed.

Lemma keeps_texts_fit_user_update (now : Z) (partial : bool) (request : Request.t)
    (pk : Z) :
  keeps texts_fit (ModelViewSet.update UserViews now partial request pk).
Proof.
  intros db H. unfold ModelViewSet.update.
  cbn [queryset pk_of serializer_class UserViews is_valid UserSerializer.serializer
       representation].
  apply bind_cases.
  - intros e db' Hget. apply get_object_result in Hget. now destruct Hget as [-> _].
  - intros instance db' Hget. apply get_object_result in Hget. destruct Hget as [-> Hi].
    destruct (Hi instance eq_refl) as [Hin _].
    apply bind_cases.
    + intros e db' Hv. apply validator_run in Hv; [now destruct Hv as [-> _]|].
      apply UserSerializer_is_valid_validator.
    + intros v db' Hv.
      pose proof (fun ph => UserSerializer_validated_fits _ _ _ _ _ _ ph Hv) as Hphone.
      apply validator_run in Hv; [destruct Hv as [-> _]
                                 | apply UserSerializer_is_valid_validator].
      cbv [save update UserSerializer.serializer no_kwargs UserSerializer.update
           CustomUser_save bind query ret].
      destruct (existsb _ (customuser db)); [exact H|].
      destruct H as [Hu [Hb Hc]]. split; [|split; [exact Hb | exact Hc]].
      cbn. apply In_replace_cases; [exact Hu|]. cbn.
      apply value_or_fits; [exact Hphone | now apply Hu].
Qed.

Lemma keeps_texts_fit_blog_create (now : Z) (request : Request.t) :
  keeps texts_fit
        (ModelViewSet.create BlogViews (BlogViews_perform_create now request) request).
Proof.
  intros db H. unfold ModelViewSet.create.
  cbn [serializer_class BlogViews is_valid BlogSerializer.serializer representation].
  apply bind_cases.
  - intros e db' Hv. apply validator_run in Hv; [now destruct Hv as [-> _]|].
    apply BlogSerializer_is_valid_validator.
  - intros v db' Hv.
    destruct (BlogSerializer_validated_fits _ _ _ _ _ _ Hv) as [Htitle Hdescription].
    apply validator_run in Hv; [destruct Hv as [-> _]
                               | apply BlogSerializer_is_valid_validator].
    unfold BlogViews_perform_create.
    destruct (Request.user request) as [|caller]; [exact H|].
    cbv [user_pk save create BlogSerializer.serializer kwargs_author
         BlogSerializer.create Blog_objects_create not_null bind query ret].
    cbn [Data.author Data.title Data.description Data.image].
    destruct H as [Hu [Hb Hc]]. split; [exact Hu|]. split; [|exact Hc].
    cbn. apply In_append_cases; [exact Hb|]. cbn.
    split; apply value_or_fits; trivial; cbn; lia.
Qed.

Lemma keeps_texts_fit_blog_update (now : Z) (partial : bool) (request : Request.t)
    (pk : Z) :
  keeps texts_fit (ModelViewSet.update BlogViews now partial request pk).
Proof.
  intros db H. unfold ModelViewSet.update.
  cbn [queryset pk_of serializer_class BlogViews is_valid BlogSerializer.serializer
       representation].
  apply bind_cases.
  - intros e db' Hget. apply get_object_result in Hget. now destruct Hget as [-> _].
  - intros instance db' Hget. apply get_object_result in Hget. destruct Hget as [-> Hi].
    destruct (Hi instance eq_refl) as [Hin _].
    apply bind_cases.
    + intros e db' Hv. apply validator_run in Hv; [now destruct Hv as [-> _]|].
      apply BlogSerializer_is_valid_validator.
    + intros v db' Hv.
      destruct (BlogSerializer_validated_fits _ _ _ _ _ _ Hv) as [Htitle Hdescription].
      apply validator_run in Hv; [destruct Hv as [-> _]
                                 | apply BlogSerializer_is_valid_validator].
      destruct H as [Hu [Hb Hc]]. split; [exact Hu|]. split; [|exact Hc].
      cbn. apply In_replace_cases; [exact Hb|]. cbn.
      split; apply value_or_fits; trivial; now apply Hb.
Qed.

Lemma keeps_texts_fit_comment_create (now : Z) (request : Request.t) :
  keeps texts_fit
        (ModelViewSet.create CommentViews (CommentViews_perform_create now request)
                             request).
Proof.
  intros db H. unfold ModelViewSet.create.
  cbn [serializer_class CommentViews is_valid CommentSerializer.serializer
       representation].
  apply bind_cases.
  - intros e db' Hv. apply validator_run in Hv; [now destruct Hv as [-> _]|].
    apply CommentSerializer_is_valid_validator.
  - intros v db' Hv.
    pose proof (fun t => CommentSerializer_validated_fits _ _ _ _ _ _ t Hv) as Htext.
    apply validator_run in Hv; [destruct Hv as [-> _]
                               | apply CommentSerializer_is_valid_validator].
    unfold CommentViews_perform_create, save.
    cbn [create CommentSerializer.serializer].
    unfold CommentSerializer.create.
    destruct (Request.user request) as [|caller]; [exact H|].
    cbn [user_pk]. cbv [bind ret kwargs_user not_null]. cbn [Data.user Data.post].
    destruct (Data.post v) as [p|]; [|exact H].
    cbn [Data.comment].
    destruct H as [Hu [Hb Hc]]. split; [exact Hu|]. split; [exact Hb|].
    cbn. apply In_append_cases; [exact Hc|]. cbn.
    apply value_or_fits; [exact Htext | cbn; lia].
Qed.

Lemma keeps_texts_fit_comment_update (now : Z) (partial : bool) (request : Request.t)
    (pk : Z) :
  keeps texts_fit (ModelViewSet.update CommentViews now partial request pk).
Proof.
  intros db H. unfold ModelViewSet.update.
  cbn [queryset pk_of serializer_class CommentViews is_valid CommentSerializer.serializer
       representation].
  apply bind_cases.
  - intros e db' Hget. apply get_object_result in Hget. now destruct Hget as [-> _].
  - intros instance db' Hget. apply get_object_result in Hget. destruct Hget as [-> Hi].
    destruct (Hi instance eq_refl) as [Hin _].
    apply bind_cases.
    + intros e db' Hv. apply validator_run in Hv; [now destruct Hv as [-> _]|].
      apply CommentSerializer_is_valid_validator.
    + intros v db' Hv.
      pose proof (fun t => CommentSerializer_validated_fits _ _ _ _ _ _ t Hv) as Htext.
      apply validator_run in Hv; [destruct Hv as [-> _]
                                 | apply CommentSerializer_is_valid_validator].
      destruct H as [Hu [Hb Hc]]. split; [exact Hu|]. split; [exact Hb|].
      cbn. apply In_replace_cases; [exact Hc|]. cbn.
      apply value_or_fits; [exact Htext | now apply Hc].
Qed.

Section Bounds.

Variable check_password : string -> string -> bool.
Variable for_user : Z -> Z -> string * string.
Variable decode : string -> option Token.t.
Variable mint : Z -> Token.t.

Local Abbreviation api := (serve check_password for_user decode mint).

Lemma serve_keeps_texts_fit (now : Z) (call : Call) (request : Request.t) (db : DB) :
  texts_fit db -> texts_fit (snd (api now call request db)).
Proof.
  intros H. destruct call; cbn [serve]; apply keeps_dispatch; trivial.
  - apply keeps_texts_fit_user_create.
  - apply keeps_texts_fit_user_update.
  - unfold_views. preserves.
  - unfold_views. preserves.
  - unfold_views. preserves.
  - apply keeps_texts_fit_blog_create.
  - apply keeps_texts_fit_blog_update.
  - unfold_views. preserves.
  - unfold_views. preserves.
  - unfold_views. preserves.
  - unfold_views. preserves.
  - apply keeps_texts_fit_comment_create.
  - unfold CommentViews_update. preserves. apply keeps_texts_fit_comment_update.
  - unfold_views. preserves.
  - unfold_views. preserves.
  - unfold_views. preserves.
  - unfold_views. preserves.
Qed.

(** X15.  In every state the server can reach, the texts fit their
    columns: a phone number has at most 15 characters, a post's title at
    most 50 and its description at most 200, a comment at most 100. *)
Theorem texts_fit_their_columns (db : DB) :
  reachable check_password for_user decode mint db ->
  (forall u, In u (customuser db) -> (String.length (CustomUser.phone u) <= 15)%nat) /\
  (forall b, In b (blog db) ->
             (String.length (Blog.title b) <= 50)%nat /\
             (String.length (Blog.description b) <= 200)%nat) /\
  (forall c, In c (comment db) -> (String.length (Comment.comment c) <= 100)%nat).
Proof.
  intros Hreach. change (texts_fit db).
  induction Hreach as [|db now call request _ IH].
  - split; [|split]; intros x [].
  - now apply serve_keeps_texts_fit.
Qed.

End Bounds.

(** ** Posts: no owner guard on update *)


Section Posts.

Variable check_password : string -> string -> bool.
Variable for_user : Z -> Z -> string * string.
Variable decode : string -> option Token.t.
Variable mint : Z -> Token.t.

Local Abbreviation api := (serve check_password for_user decode mint).


End Posts.

(** * The further properties, run in the example world *)

Module Scenes.
(** alice's row with a credential that the toy hasher accepts. *)
Definition hashed : DB :=
  mkDB [CustomUser.Build 1 "alice" "pbkdf2$secret" "111"] [] [] [] [] 2 1 1 1.

Definition credentials (username password : string) : Data.t :=
  Data.Build (Some username) (Some password) None None None None None None None None None.


(** alice has logged out with bob's refresh token. *)
Definition logged_out : DB :=
  snd (Demo.serve 50 user_logout (Demo.as_user 1 (Demo.logout_body "refresh-of-2"))
         Demo.liked).

(** ... and has then taken bob's like of post 1 away. *)
Definition later : DB :=
  snd (Demo.serve 51 (like_destroy 1) (Demo.as_user 1 Data.empty) logged_out).
End Scenes.

(** X1 at work: an anonymous like toggle. *)
Lemma anonymous_caller_refused_witness :
  Demo.serve 41 (blog_like 1) (Demo.anonymous Data.empty) Demo.liked
  = (Response.Build (detail "Authentication credentials were not provided.")
                    HTTP_401_UNAUTHORIZED, Demo.liked).
Proof.
  apply (anonymous_caller_refused Demo.check_password Demo.for_user Demo.decode Demo.mint
           41 (blog_like 1) Data.empty Demo.liked); discriminate.
Defined.

(** X2 at work: a login with the right password. *)
Lemma login_sound_witness :
  Response.status (fst (Demo.serve 5 user_login
                          (Demo.anonymous (Scenes.credentials "alice" "secret"))
                          Scenes.hashed)) = HTTP_200_OK /\
  customuser (snd (Demo.serve 5 user_login
                     (Demo.anonymous (Scenes.credentials "alice" "secret"))
                     Scenes.hashed)) = customuser Scenes.hashed /\
  blacklistedtoken (snd (Demo.serve 5 user_login
                           (Demo.anonymous (Scenes.credentials "alice" "secret"))
                           Scenes.hashed)) = [].
Proof.
  split; [vm_compute; reflexivity|].
  destruct (login_sound Demo.check_password Demo.for_user Demo.decode Demo.mint 5
              (Demo.anonymous (Scenes.credentials "alice" "secret")) Scenes.hashed)
    as [[Husers [_ [_ [_ Hblacklist]]]] _].
  split; [exact Husers | exact Hblacklist].
Defined.

(** X3 at work: bob's token is on the blacklist after alice's logout with
    it, and bob's own logout with it is refused. *)
Lemma logout_refuses_unusable_token_witness :
  Demo.decode "refresh-of-2" = Some (Token.Build "refresh" 1000 "jti-2" 2) /\
  blacklisted "jti-2" Scenes.logged_out /\
  Response.status (fst (Demo.serve 60 user_logout
                          (Demo.as_user 2 (Demo.logout_body "refresh-of-2"))
                          Scenes.logged_out))
    = HTTP_400_BAD_REQUEST /\
  snd (Demo.serve 60 user_logout (Demo.as_user 2 (Demo.logout_body "refresh-of-2"))
         Scenes.logged_out) = Scenes.logged_out.
Proof.
  assert (Hin : blacklisted "jti-2" Scenes.logged_out) by (vm_compute; now left).
  split; [reflexivity|]. split; [exact Hin|].
  apply (logout_refuses_unusable_token Demo.check_password Demo.for_user Demo.decode
           Demo.mint 60 2 (Demo.logout_body "refresh-of-2") Scenes.logged_out
           "refresh-of-2" eq_refl).
  right. left. exact Hin.
Defined.


(** X4 at work: alice logs out with bob's token; one call later bob's own
    logout with that token is refused. *)
Lemma blacklisted_token_stays_refused_witness :
  Response.status
    (fst (Demo.serve 50 user_logout (Demo.as_user 1 (Demo.logout_body "refresh-of-2"))
            Demo.liked)) = HTTP_200_OK /\
  Response.status
    (fst (Demo.serve 60 user_logout (Demo.as_user 2 (Demo.logout_body "refresh-of-2"))
            Scenes.later)) = HTTP_400_BAD_REQUEST /\
  snd (Demo.serve 60 user_logout (Demo.as_user 2 (Demo.logout_body "refresh-of-2"))
         Scenes.later) = Scenes.later.
Proof.
  assert (Hok : Response.status
                  (fst (Demo.serve 50 user_logout
                          (Demo.as_user 1 (Demo.logout_body "refresh-of-2"))
                          Demo.liked)) = HTTP_200_OK) by (vm_compute; reflexivity).
  split; [exact Hok|].
  apply (blacklisted_token_stays_refused Demo.check_password Demo.for_user Demo.decode Demo.mint
           Demo.liked Scenes.later 50 60 1 2
           (Demo.logout_body "refresh-of-2") (Demo.logout_body "refresh-of-2")
           "refresh-of-2" eq_refl eq_refl Hok).
  unfold Scenes.later, Demo.serve. apply reachable_from_serve. apply reachable_from_here.
Defined.

(** X6 at work: bob's toggle takes the one like of post 1 away. *)
Lemma like_toggle_moves_count_by_one_witness :
  exists n,
    likes_shown (fst (Demo.serve 42 (blog_likes 1) (Demo.as_user 1 Data.empty)
                        Demo.liked)) = Some (S n) /\
    likes_shown
      (fst (Demo.serve 42 (blog_likes 1) (Demo.as_user 1 Data.empty)
              (snd (Demo.serve 41 (blog_like 1) (Demo.as_user 2 Data.empty)
                      Demo.liked)))) = Some n.
Proof.
  assert (Hpk : pk_exists Blog.id (blog Demo.liked) 1 = true)
    by (vm_compute; reflexivity).
  destruct (like_toggle_moves_count_by_one Demo.check_password Demo.for_user
              Demo.decode Demo.mint Demo.liked 41 42 2 1 1 Data.empty Data.empty
              liked_reachable Hpk) as [n Hn].
  exists n. exact Hn.
Defined.

(** X8 at work: bob deletes alice's post 1, and its like and its comment
    go with it. *)
Lemma post_delete_cascades_witness :
  find (fun r => Blog.id r =? 1) (blog Demo.liked)
    = Some (Blog.Build 1 "First" "some words" 1 20 None) /\
  map Blog.id (blog (snd (Demo.serve 50 (blog_destroy 1) (Demo.as_user 2 Data.empty)
                            Demo.liked))) = [2] /\
  like (snd (Demo.serve 50 (blog_destroy 1) (Demo.as_user 2 Data.empty) Demo.liked))
    = [] /\
  comment (snd (Demo.serve 50 (blog_destroy 1) (Demo.as_user 2 Data.empty) Demo.liked))
    = [].
Proof.
  assert (Hb : find (fun r => Blog.id r =? 1) (blog Demo.liked)
               = Some (Blog.Build 1 "First" "some words" 1 20 None))
    by (vm_compute; reflexivity).
  split; [exact Hb|].
  destruct (post_delete_cascades Demo.check_password Demo.for_user Demo.decode Demo.mint
              50 2 1 Data.empty _ Demo.liked Hb)
    as [_ [Hblog [Hlike [Hcomment _]]]].
  unfold Demo.serve, Demo.as_user. rewrite Hblog, Hlike, Hcomment.
  repeat split; vm_compute; reflexivity.
Defined.

(** X9 at work: bob deletes alice; her posts go, and with post 1 bob's
    like of it. *)
Lemma user_delete_cascades_witness :
  find (fun r => CustomUser.id r =? 1) (customuser Demo.liked)
    = Some (CustomUser.Build 1 "alice" "secret" "111") /\
  map CustomUser.id
      (customuser (snd (Demo.serve 50 (user_destroy 1) (Demo.as_user 2 Data.empty)
                          Demo.liked))) = [2] /\
  blog (snd (Demo.serve 50 (user_destroy 1) (Demo.as_user 2 Data.empty) Demo.liked))
    = [] /\
  ~ In (Like.Build 1 2 1 40)
       (like (snd (Demo.serve 50 (user_destroy 1) (Demo.as_user 2 Data.empty)
                     Demo.liked))).
Proof.
  assert (Hu : find (fun r => CustomUser.id r =? 1) (customuser Demo.liked)
               = Some (CustomUser.Build 1 "alice" "secret" "111"))
    by (vm_compute; reflexivity).
  split; [exact Hu|].
  destruct (user_delete_cascades Demo.check_password Demo.for_user Demo.decode Demo.mint
              50 2 1 Data.empty _ Demo.liked Hu)
    as [_ [Husers [Hblog [Hlike _]]]].
  unfold Demo.serve, Demo.as_user. rewrite Husers, Hblog.
  split; [vm_compute; reflexivity|]. split; [vm_compute; reflexivity|].
  intros Hin. apply Hlike in Hin. destruct Hin as [_ [_ Hwrote]].
  apply Hwrote. exists (Blog.Build 1 "First" "some words" 1 20 None).
  repeat split. vm_compute. now left.
Defined.

(** X10 at work: alice deletes bob's like. *)
Lemma like_delete_by_any_caller_witness :
  find (fun r => Like.id r =? 1) (like Demo.liked) = Some (Like.Build 1 2 1 40) /\
  Demo.serve 50 (like_destroy 1) (Demo.as_user 1 Data.empty) Demo.liked
  = (Response.Build no_content HTTP_204_NO_CONTENT,
     set_like (filter (fun r => negb (Like.id r =? 1))) Demo.liked).
Proof.
  assert (Hl : find (fun r => Like.id r =? 1) (like Demo.liked)
               = Some (Like.Build 1 2 1 40)) by (vm_compute; reflexivity).
  split; [exact Hl|].
  apply (like_delete_by_any_caller Demo.check_password Demo.for_user Demo.decode Demo.mint
           50 1 1 Data.empty _ Demo.liked Hl).
Defined.

(** X11 at work: carol registers with alice's phone number. *)
Lemma registration_rejects_taken_username_or_phone_witness :
  In (CustomUser.Build 1 "alice" "secret" "111") (customuser Demo.registered) /\
  Demo.serve 12 user_create (Demo.anonymous (Demo.registration "carol" "pw" " 111 "))
             Demo.registered
  = (Response.Build errors HTTP_400_BAD_REQUEST, Demo.registered).
Proof.
  assert (Hin : In (CustomUser.Build 1 "alice" "secret" "111")
                   (customuser Demo.registered)) by (vm_compute; now left).
  split; [exact Hin|].
  apply (registration_rejects_taken_username_or_phone Demo.check_password Demo.for_user
           Demo.decode Demo.mint 12 (Demo.anonymous (Demo.registration "carol" "pw" " 111 "))
           Demo.registered "carol" " 111 " _ eq_refl eq_refl Hin).
  right. reflexivity.
Defined.

(** X12 at work: bob likes post 2 with a body that names alice; the like
    is bob's. *)
Lemma like_create_outcome_witness :
  fst (Demo.serve 50 like_create (Demo.as_user 2 (Demo.like_body 1 2)) Demo.liked)
    = Response.Build (like_row (Like.Build 2 2 2 50)) HTTP_201_CREATED /\
  like (snd (Demo.serve 50 like_create (Demo.as_user 2 (Demo.like_body 1 2)) Demo.liked))
    = [Like.Build 1 2 1 40; Like.Build 2 2 2 50].
Proof.
  assert (Hpost : key_value 2) by (unfold key_value; lia).
  assert (Huser : key_value 1) by (unfold key_value; lia).
  destruct (like_create_outcome Demo.check_password Demo.for_user Demo.decode Demo.mint
              50 2 (Demo.like_body 1 2) Demo.liked Hpost Huser)
    as [Hresponse [Hlikes _]].
  split; [exact Hresponse | exact Hlikes].
Defined.

(** X13 at work: the users of the example world. *)
Lemma usernames_and_phones_unique_witness :
  NoDup (map CustomUser.username (customuser Demo.liked)) /\
  NoDup (map CustomUser.phone (customuser Demo.liked)).
Proof.
  apply (usernames_and_phones_unique Demo.check_password Demo.for_user Demo.decode Demo.mint
           Demo.liked liked_reachable).
Defined.

(** X14 at work: the likes and comments of the example world. *)
Lemma likes_and_comments_reference_posts_witness :
  (forall l, In l (like Demo.liked) ->
             exists b, In b (blog Demo.liked) /\ Blog.id b = Like.post l) /\
  (forall c, In c (comment Demo.liked) ->
             exists b, In b (blog Demo.liked) /\ Blog.id b = Comment.post c).
Proof.
  apply (likes_and_comments_reference_posts Demo.check_password Demo.for_user
           Demo.decode Demo.mint Demo.liked liked_reachable).
Defined.

(** X15 at work: the texts of the example world. *)
Lemma texts_fit_their_columns_witness :
  (forall u, In u (customuser Demo.liked) ->
             (String.length (CustomUser.phone u) <= 15)%nat) /\
  (forall b, In b (blog Demo.liked) ->
             (String.length (Blog.title b) <= 50)%nat /\
             (String.length (Blog.description b) <= 200)%nat) /\
  (forall c, In c (comment Demo.liked) ->
             (String.length (Comment.comment c) <= 100)%nat).
Proof.
  apply (texts_fit_their_columns Demo.check_password Demo.for_user Demo.decode Demo.mint
           Demo.liked liked_reachable).
Defined.

